(** * A shallow embedding of the [cv] renderer back end

    The development follows [src/backend/pdflatex.py] (the class
    [Renderer]: [expand_intermediate] and [render]) and
    [src/backend/__init__.py] (the class [BaseRenderer]: [run_in_docker]).

    Conventions.
    - A Python [str] is a [string]; the text functions below are the ASCII
      fragment of the Python ones.
    - A Python [dict] is an association list in insertion order
      ([pydict]); a key occurs at most once in a well-formed one.
    - [None] is the [None] of an [option]; a call that raises inside a
      [try] returns [None] and the [except] is a branch of a [match]; a
      function that may raise returns a [result].
    - What the interpreter and the host provide (the clock,
      [date.fromisoformat], [int], [bytes.decode], [str.splitlines],
      [str.isalnum] and [str.lower] where the code does not ask for
      ASCII, [glob.glob], [os.walk], file contents, whether a call that
      writes succeeds) is a field of a record that the functions take as
      an argument. *)

From Stdlib Require Import ZArith List String Ascii Bool Lia.
From Stdlib Require Import DecimalString Sorting.Sorted Sorting.Permutation.
Import ListNotations.

Open Scope string_scope.
Open Scope Z_scope.

(* ================================================================== *)
(** * Definitions *)
(* ================================================================== *)

(** ** Text *)

Module Text.

(** [str.isspace] on one ASCII character. *)
Definition is_space (c : ascii) : bool :=
  let n := nat_of_ascii c in
  ((9 <=? n) && (n <=? 13) || (28 <=? n) && (n <=? 32))%nat.

Definition is_digit (c : ascii) : bool :=
  let n := nat_of_ascii c in ((48 <=? n) && (n <=? 57))%nat.

Definition is_lower (c : ascii) : bool :=
  let n := nat_of_ascii c in ((97 <=? n) && (n <=? 122))%nat.

Definition lower_char (c : ascii) : ascii :=
  let n := nat_of_ascii c in
  if ((65 <=? n) && (n <=? 90))%nat then ascii_of_nat (n + 32) else c.

Fixpoint map_chars (f : ascii -> ascii) (s : string) : string :=
  match s with
  | EmptyString => EmptyString
  | String c s' => String (f c) (map_chars f s')
  end.

(** [s.lower()]. *)
Definition lower (s : string) : string := map_chars lower_char s.

(** [s.replace(a, b)] for one-character [a] and [b]. *)
Definition replace_char (a b : ascii) (s : string) : string :=
  map_chars (fun c => if Ascii.eqb c a then b else c) s.

(** [s.lstrip(c)] for a one-character argument. *)
Fixpoint lstrip_char (a : ascii) (s : string) : string :=
  match s with
  | String c s' => if Ascii.eqb c a then lstrip_char a s' else s
  | EmptyString => EmptyString
  end.

Fixpoint lstrip (s : string) : string :=
  match s with
  | String c s' => if is_space c then lstrip s' else s
  | EmptyString => EmptyString
  end.

Fixpoint rstrip (s : string) : string :=
  match s with
  | EmptyString => EmptyString
  | String c s' =>
      match rstrip s' with
      | EmptyString => if is_space c then EmptyString else String c EmptyString
      | r => String c r
      end
  end.

(** [s.strip()]. *)
Definition strip (s : string) : string := rstrip (lstrip s).

Fixpoint all_chars (p : ascii -> bool) (s : string) : bool :=
  match s with
  | EmptyString => true
  | String c s' => p c && all_chars p s'
  end.

(** Value of a run of decimal digits, most significant first. *)
Fixpoint digits_value_from (acc : Z) (s : string) : Z :=
  match s with
  | EmptyString => acc
  | String c s' =>
      digits_value_from (10 * acc + Z.of_nat (nat_of_ascii c - 48)) s'
  end.

Definition digits_value (s : string) : Z := digits_value_from 0 s.

(** [str(n)] for an [int]. *)
Definition str_of_Z (n : Z) : string := NilZero.string_of_int (Z.to_int n).

Fixpoint zeros (k : nat) : string :=
  match k with
  | O => EmptyString
  | S k' => String "0" (zeros k')
  end.

(** The format specification [{n:0wd}]: at least [w] characters, zeros
    after the sign. *)
Definition fmt_0d (w : nat) (n : Z) : string :=
  if n <? 0 then
    let ds := str_of_Z (- n) in
    String "-" (zeros (w - 1 - String.length ds) ++ ds)
  else
    let ds := str_of_Z n in
    zeros (w - String.length ds) ++ ds.

(** [sep.join(xs)]. *)
Fixpoint join (sep : string) (xs : list string) : string :=
  match xs with
  | [] => EmptyString
  | [x] => x
  | x :: rest => x ++ sep ++ join sep rest
  end.


(** [s in xs] for a list of strings. *)
Definition mem (s : string) (xs : list string) : bool :=
  existsb (String.eqb s) xs.

End Text.

(** ** Dictionaries in insertion order *)

Definition pydict (V : Type) : Type := list (string * V).

Module Dict.
Section Ops.
Context {V : Type}.

(** [d.get(k)]. *)
Fixpoint get (k : string) (d : pydict V) : option V :=
  match d with
  | [] => None
  | (k', v) :: d' => if String.eqb k k' then Some v else get k d'
  end.

(** [d[k] = v]: an existing key keeps its place. *)
Fixpoint set (k : string) (v : V) (d : pydict V) : pydict V :=
  match d with
  | [] => [(k, v)]
  | (k', v') :: d' =>
      if String.eqb k k' then (k', v) :: d' else (k', v') :: set k v d'
  end.
End Ops.
End Dict.

(** ** Untyped document values and the localizer *)

(** What a YAML loader hands over: scalars, sequences and mappings. *)
#[warnings="-register-all"]
Inductive value : Type :=
| VNone
| VBool (b : bool)
| VInt (n : Z)
| VStr (s : string)
| VList (xs : list value)
| VDict (items : list (string * value)).

Definition is_dict (v : value) : bool :=
  match v with VDict _ => true | _ => false end.

(** Truth value of a document value, as [not v] and [a or b] test it. *)
Definition truthy (v : value) : bool :=
  match v with
  | VNone => false
  | VBool b => b
  | VInt n => negb (n =? 0)
  | VStr s => negb (String.eqb s "")
  | VList xs => match xs with [] => false | _ => true end
  | VDict items => match items with [] => false | _ => true end
  end.

(** [a or b]. *)
Definition py_or (a b : value) : value := if truthy a then a else b.

(** [re.match('^([a-z]{2})', s)]: the two leading characters when both are
    lower-case letters. *)
Definition match_two_letters (s : string) : option string :=
  match s with
  | String a (String b _) =>
      if Text.is_lower a && Text.is_lower b
      then Some (String a (String b EmptyString)) else None
  | _ => None
  end.

(** The language resolution at the head of [expand_intermediate]:
    [getattr(self, 'language', None) or 'en'], stripped, lower-cased,
    [_] replaced by [-], cut to its two leading letters. *)
Definition resolve_lang (language : option string) : string :=
  let raw_lang :=
    match language with
    | Some l => if String.eqb l "" then "en" else l
    | None => "en"
    end in
  let s := Text.replace_char "_" "-" (Text.lower (Text.strip raw_lang)) in
  match match_two_letters s with
  | Some l => l
  | None => "en"
  end.

(** [_to_locale]. *)
Definition _to_locale (l : string) : string :=
  match Dict.get l [("en", "en_US"); ("ru", "ru_RU"); ("pl", "pl_PL")] with
  | Some loc => loc
  | None => "en_US"
  end.

(** [tr]: the requested language, else [en], else the first value of the
    mapping, else [None]; anything that is not a mapping is returned as it
    is. *)
Definition tr (lang : string) (v : value) : value :=
  match v with
  | VDict items =>
      match Dict.get lang items with
      | Some x => x
      | None =>
          match Dict.get "en" items with
          | Some x => x
          | None =>
              match items with
              | (_, val) :: _ => val
              | [] => VNone
              end
          end
      end
  | _ => v
  end.

(** ** Dates *)

(** [datetime.date]. *)
Record date : Type := mkdate { year : Z; month : Z; day : Z }.

Definition is_leap (y : Z) : bool :=
  (y mod 4 =? 0) && (negb (y mod 100 =? 0) || (y mod 400 =? 0)).

Definition days_in_month (y m : Z) : Z :=
  if m =? 2 then (if is_leap y then 29 else 28)
  else if (m =? 4) || (m =? 6) || (m =? 9) || (m =? 11) then 30
  else 31.

(** The range check of the [datetime.date] constructor. *)
Definition valid_date (d : date) : bool :=
  (1 <=? year d) && (year d <=? 9999) &&
  (1 <=? month d) && (month d <=? 12) &&
  (1 <=? day d) && (day d <=? days_in_month (year d) (month d)).

(** [datetime.date(y, m, d)], [None] for its [ValueError]. *)
Definition new_date (y m d : Z) : option date :=
  let r := mkdate y m d in
  if valid_date r then Some r else None.

(** [a < b] on dates. *)
Definition date_ltb (a b : date) : bool :=
  (year a <? year b) ||
  ((year a =? year b) &&
   ((month a <? month b) || ((month a =? month b) && (day a <? day b)))).

Definition date_leb (a b : date) : bool := negb (date_ltb b a).

(** What a call of [expand_intermediate] reads from the interpreter: the
    value of [datetime.date.today()] and the function
    [datetime.date.fromisoformat] ([None] where it raises). *)
Record pyenv : Type := mkenv {
  today : date;
  fromisoformat : string -> option date
}.

(** The interpreter only hands out dates in range. *)
Definition env_ok (E : pyenv) : Prop :=
  valid_date (today E) = true /\
  forall s d, fromisoformat E s = Some d -> valid_date d = true.

Definition sentinels : list string := ["now"; "present"; "current"; "ongoing"].

(** [re.fullmatch('\d{4}-\d{2}', s)] followed by [s.split('-')]. *)
Definition fullmatch_ym (s : string) : option (string * string) :=
  let y := substring 0 4 s in
  let m := substring 5 2 s in
  if (String.length s =? 7)%nat && String.eqb (substring 4 1 s) "-"
     && Text.all_chars Text.is_digit y && Text.all_chars Text.is_digit m
  then Some (y, m) else None.

(** [re.fullmatch('\d{4}', s)]. *)
Definition fullmatch_y (s : string) : bool :=
  (String.length s =? 4)%nat && Text.all_chars Text.is_digit s.

(** [_parse_date]. The argument is the field as [str] would print it,
    [None] when the field is absent or [None]. *)
Definition _parse_date (E : pyenv) (s : option string) : option date :=
  match s with
  | None => None
  | Some s0 =>
      let s := Text.strip s0 in
      if String.eqb s "" || Text.mem (Text.lower s) sentinels then None
      else
        match fullmatch_ym s with
        | Some (y, m) => new_date (Text.digits_value y) (Text.digits_value m) 1
        | None =>
            if fullmatch_y s then new_date (Text.digits_value s) 1 1
            else fromisoformat E s
        end
  end.

(** The extended calendar format [YYYY-MM-DD] of
    [date.fromisoformat]. The function of the interpreter accepts further
    ISO 8601 shapes; this one serves as the instance on which the
    development is run. *)
Definition iso_ymd (s : string) : option date :=
  let y := substring 0 4 s in
  let m := substring 5 2 s in
  let d := substring 8 2 s in
  if (String.length s =? 10)%nat
     && String.eqb (substring 4 1 s) "-" && String.eqb (substring 7 1 s) "-"
     && Text.all_chars Text.is_digit y && Text.all_chars Text.is_digit m
     && Text.all_chars Text.is_digit d
  then new_date (Text.digits_value y) (Text.digits_value m) (Text.digits_value d)
  else None.

Definition env_at (d : date) : pyenv := mkenv d iso_ymd.

(** [_fmt_ym] on a date. *)
Definition fmt_ym (d : date) : string :=
  Text.fmt_0d 4 (year d) ++ "-" ++ Text.fmt_0d 2 (month d).

(** [_fmt_ym]: a date object is always true, so only [None] gives [None]. *)
Definition _fmt_ym (d : option date) : option string := option_map fmt_ym d.

(** [_months_between]. *)
Definition _months_between (a b : option date) : option Z :=
  match a, b with
  | Some a, Some b =>
      let months := (year b - year a) * 12 + (month b - month a) in
      Some (Z.max (months - (if day b <? day a then 1 else 0)) 0)
  | _, _ => None
  end.

(** [a or b] on optional dates. *)
Definition date_or (a : option date) (b : date) : date :=
  match a with Some d => d | None => b end.

(** [x or 0] on an optional count. *)
Definition or_zero (x : option Z) : Z :=
  match x with Some n => n | None => 0 end.

(** ** Results of calls that may raise *)

Inductive result (A : Type) : Type :=
| Ok (a : A)
| Raise (message : string).

Arguments Ok {A} a.
Arguments Raise {A} message.

Definition bind {A B : Type} (r : result A) (k : A -> result B) : result B :=
  match r with
  | Ok a => k a
  | Raise m => Raise m
  end.

Notation "x <- r ;; k" := (bind r (fun x => k))
  (at level 61, r at next level, right associativity).

(** ** The raw document

    The entities [expand_intermediate] reads with [.get], as records. A
    field the document does not have, or has as [None], is [VNone] or
    [None]. A date field and an employer reference hold the text that
    [str] gives for the field. The fields that [expand_intermediate] only
    copies or localizes into the entry of the same entity (summary,
    responsibilities, links, contributions, location, url, roles) are not
    part of the records, and neither are the sections of the document
    that do not meet the projects (person, education, classes, ...). *)

Record skill_meta : Type := mk_skill_meta {
  sm_name : value;
  sm_level : value
}.

Record skill_group : Type := mk_skill_group {
  g_id : value;
  g_name : value;
  g_items : list string
}.

Record project : Type := mk_project {
  pr_name : value;
  pr_employer : option string;
  pr_start : option string;
  pr_end : option string;
  pr_skills : list string
}.

Record employer : Type := mk_employer {
  em_name : value
}.

Record raw_document : Type := mk_raw {
  skills_registry : pydict skill_meta;
  skills_groups : list skill_group;
  projects_raw : pydict project;
  employers_raw : pydict employer
}.

(** ** The intermediate document *)

Record skill_item : Type := mk_skill_item {
  si_id : string;
  si_name : value;
  si_level : value;
  si_highlight : bool
}.

Record project_entry : Type := mk_project_entry {
  pe_name : value;
  pe_start : option string;
  pe_end : option string;
  pe_duration_months : option Z;
  pe_skills : list skill_item
}.

Record experience_entry : Type := mk_experience_entry {
  ex_employer : value;
  ex_start : option string;
  ex_end : option string;
  ex_duration_months : option Z;
  ex_projects : list project_entry
}.

(** The accumulator [{'months': .., 'first': .., 'last': ..}]. *)
Record skill_stat : Type := mk_stat {
  st_months : Z;
  st_first : option date;
  st_last : option date
}.

(** A skill of a group after annotation. [ai_years10] is [years] counted
    in tenths: [years = ai_years10 / 10]. *)
Record annotated_item : Type := mk_annotated {
  ai_item : skill_item;
  ai_months : Z;
  ai_years10 : Z;
  ai_first_used : option string;
  ai_last_used : option string
}.

Record group_out : Type := mk_group_out {
  go_id : value;
  go_group : value;
  go_items : list annotated_item
}.

Record metrics : Type := mk_metrics {
  m_experience_years : Z;
  m_companies : Z;
  m_projects : Z
}.

Record intermediate : Type := mk_intermediate {
  im_lang : string;
  im_locale : string;
  im_skills : list group_out;
  im_experience : list experience_entry;
  im_metrics : metrics
}.

(** ** [expand_intermediate]: skills and projects *)

(** Truth value of an optional text: [None] and [''] are false. *)
Definition text_truthy (s : option string) : bool :=
  match s with
  | Some t => negb (String.eqb t "")
  | None => false
  end.

Definition is_none {A : Type} (x : option A) : bool :=
  match x with Some _ => false | None => true end.

(** The dictionary built for one skill id, in the loop over the groups
    and in [_skill_items_from_ids]. *)
Definition skill_item_of (lang : string) (registry : pydict skill_meta)
    (sid : string) : skill_item :=
  let meta :=
    match Dict.get sid registry with
    | Some m => m
    | None => mk_skill_meta VNone VNone
    end in
  {| si_id := sid;
     si_name := tr lang (py_or (sm_name meta) (VStr sid));
     si_level := sm_level meta;
     si_highlight := false |}.

Definition _skill_items_from_ids (lang : string) (registry : pydict skill_meta)
    (ids : list string) : list skill_item :=
  map (skill_item_of lang registry) ids.

(** [pr.get('end') in (None, '', 'now', 'present', 'current', 'ongoing')
    or pe_raw is None]. *)
Definition ongoing (raw_end : option string) (pe_raw : option date) : bool :=
  match raw_end with
  | None => true
  | Some s => Text.mem s ("" :: sentinels)
  end || is_none pe_raw.

(** The [entry] of one project. *)
Definition project_entry_of (E : pyenv) (lang : string)
    (registry : pydict skill_meta) (pr : project) : project_entry :=
  let ps := _parse_date E (pr_start pr) in
  let pe_raw := _parse_date E (pr_end pr) in
  let pe_for_duration := date_or pe_raw (today E) in
  {| pe_name := tr lang (pr_name pr);
     pe_start := _fmt_ym ps;
     pe_end := if ongoing (pr_end pr) pe_raw then None else _fmt_ym pe_raw;
     pe_duration_months := _months_between ps (Some pe_for_duration);
     pe_skills := _skill_items_from_ids lang registry (pr_skills pr) |}.

(** [pr_months]. *)
Definition pr_months (E : pyenv) (pr : project) : Z :=
  or_zero (_months_between (_parse_date E (pr_start pr))
             (Some (date_or (_parse_date E (pr_end pr)) (today E)))).

(** One round of the loop [for sid in (pr.get('skills') or [])] on the
    accumulator of that skill. *)
Definition stat_update (E : pyenv) (pr : project) (st : skill_stat) : skill_stat :=
  let ps := _parse_date E (pr_start pr) in
  let end_for_last := date_or (_parse_date E (pr_end pr)) (today E) in
  {| st_months := st_months st + pr_months E pr;
     st_first :=
       match ps with
       | Some p =>
           match st_first st with
           | None => Some p
           | Some f => if date_ltb p f then Some p else Some f
           end
       | None => st_first st
       end;
     st_last :=
       match st_last st with
       | None => Some end_for_last
       | Some l => if date_ltb l end_for_last then Some end_for_last else Some l
       end |}.

Definition stat_init : skill_stat := mk_stat 0 None None.

(** [skill_stats.setdefault(str(sid), {...})] followed by the updates of
    the accumulator it returns. *)
Definition accumulate_skill (E : pyenv) (pr : project)
    (stats : pydict skill_stat) (sid : string) : pydict skill_stat :=
  let st := match Dict.get sid stats with Some st => st | None => stat_init end in
  Dict.set sid (stat_update E pr st) stats.

(** [by_employer.setdefault(emp_key, []).append(entry)]. *)
Definition append_entry (emp_key : string) (entry : project_entry)
    (by_employer : pydict (list project_entry)) : pydict (list project_entry) :=
  let old := match Dict.get emp_key by_employer with Some l => l | None => [] end in
  Dict.set emp_key (old ++ [entry])%list by_employer.

(** The two tests at the head of the loop over the projects: the project
    goes on when its id is not excluded and its employer reference is
    true. *)
Definition retained (exclude_projects : list string) (kv : string * project) : bool :=
  negb (Text.mem (fst kv) exclude_projects) && text_truthy (pr_employer (snd kv)).

Definition loop_state : Type :=
  (pydict (list project_entry) * pydict skill_stat)%type.

(** The body of [for pid, pr in (projects_raw or {}).items()]. *)
Definition project_step (E : pyenv) (lang : string) (registry : pydict skill_meta)
    (exclude_projects : list string) (acc : loop_state) (kv : string * project)
  : loop_state :=
  let '(pid, pr) := kv in
  if Text.mem pid exclude_projects then acc
  else
    match pr_employer pr with
    | None => acc
    | Some emp_key =>
        if String.eqb emp_key "" then acc
        else
          let entry := project_entry_of E lang registry pr in
          let stats := fold_left (accumulate_skill E pr) (pr_skills pr) (snd acc) in
          (append_entry emp_key entry (fst acc), stats)
    end.

Definition projects_loop (E : pyenv) (lang : string) (registry : pydict skill_meta)
    (exclude_projects : list string) (projects : pydict project) : loop_state :=
  fold_left (project_step E lang registry exclude_projects) projects ([], []).

(** ** [expand_intermediate]: employers, order, annotation, metrics *)

(** [[d for d in ds if d]]. *)
Fixpoint somes {A : Type} (l : list (option A)) : list A :=
  match l with
  | [] => []
  | Some a :: l' => a :: somes l'
  | None :: l' => somes l'
  end.

Definition date_min (a b : date) : date := if date_ltb b a then b else a.
Definition date_max (a b : date) : date := if date_ltb a b then b else a.

(** [min(ds)] and [max(ds)]; [None] is the [ValueError] on an empty
    list. *)
Definition py_min (ds : list date) : option date :=
  match ds with
  | [] => None
  | d :: rest => Some (fold_left date_min rest d)
  end.

Definition py_max (ds : list date) : option date :=
  match ds with
  | [] => None
  | d :: rest => Some (fold_left date_max rest d)
  end.

(** [p.get('end') in (None, '',)]. *)
Definition end_open (p : project_entry) : bool :=
  match pe_end p with
  | None => true
  | Some s => String.eqb s ""
  end.

(** The body of [for ekey, emp in employers_raw.items()]: [Ok None] is
    the [continue], [Raise] the [ValueError] of [min]. *)
Definition employer_entry (E : pyenv) (lang : string)
    (by_employer : pydict (list project_entry)) (kv : string * employer)
  : result (option experience_entry) :=
  let '(ekey, emp) := kv in
  let projects := match Dict.get ekey by_employer with Some l => l | None => [] end in
  match projects with
  | [] => Ok None
  | _ :: _ =>
      let start_dates :=
        map (fun p => _parse_date E (pe_start p))
            (filter (fun p => text_truthy (pe_start p)) projects) in
      let end_dates_raw :=
        map (fun p => _parse_date E (pe_end p))
            (filter (fun p => text_truthy (pe_end p)) projects) in
      let any_ongoing := existsb end_open projects in
      emp_start <-
        match start_dates with
        | [] => Ok None
        | _ :: _ =>
            match py_min (somes start_dates) with
            | Some d => Ok (Some d)
            | None => Raise "ValueError: min() iterable argument is empty"
            end
        end ;;
      let '(emp_end, end_for_duration) :=
        if any_ongoing || (match end_dates_raw with [] => true | _ => false end)
        then (None, today E)
        else
          let emp_end := py_max (somes end_dates_raw) in
          (emp_end, date_or emp_end (today E)) in
      Ok (Some {| ex_employer := tr lang (em_name emp);
                  ex_start := _fmt_ym emp_start;
                  ex_end := _fmt_ym emp_end;
                  ex_duration_months :=
                    _months_between emp_start (Some end_for_duration);
                  ex_projects := projects |})
  end.

(** The loop over the employers: entries in the order of
    [employers_raw], the first [Raise] ends it. *)
Fixpoint employers_loop (E : pyenv) (lang : string)
    (by_employer : pydict (list project_entry)) (employers : pydict employer)
  : result (list experience_entry) :=
  match employers with
  | [] => Ok []
  | kv :: rest =>
      e <- employer_entry E lang by_employer kv ;;
      es <- employers_loop E lang by_employer rest ;;
      Ok (match e with Some x => x :: es | None => es end)
  end.

(** The key of the sort, a tuple of four integers. *)
Definition sort_key : Type := (Z * Z * Z * Z)%type.

(** [_sort_key]. *)
Definition _sort_key (E : pyenv) (e : experience_entry) : sort_key :=
  let end_d := date_or (_parse_date E (ex_end e)) (today E) in
  let start_d := date_or (_parse_date E (ex_start e)) end_d in
  (- year end_d, - month end_d, - year start_d, - month start_d).

(** [k1 <= k2] on tuples: lexicographic. *)
Definition key_leb (k1 k2 : sort_key) : bool :=
  let '(a1, b1, c1, d1) := k1 in
  let '(a2, b2, c2, d2) := k2 in
  (a1 <? a2) || ((a1 =? a2) &&
  ((b1 <? b2) || ((b1 =? b2) &&
  ((c1 <? c2) || ((c1 =? c2) && (d1 <=? d2)))))).

(** [xs.sort(key=key)] is a stable sort into ascending order of the keys;
    its result is the one of any stable sort, here insertion from the
    right, an element going in front of the first one whose key is not
    smaller. *)
Section Sort.
Context {A : Type} (key : A -> sort_key).

Fixpoint insert_by_key (x : A) (l : list A) : list A :=
  match l with
  | [] => [x]
  | y :: l' =>
      if key_leb (key x) (key y) then x :: y :: l'
      else y :: insert_by_key x l'
  end.

Fixpoint sort_by_key (l : list A) : list A :=
  match l with
  | [] => []
  | x :: l' => insert_by_key x (sort_by_key l')
  end.
End Sort.

(** Rounding of the quotient [n / d] ([0 <= n], [0 < d]) to the nearest
    integer, ties to the even one: what [round] returns on the quotients
    met here, whose ties are exact in binary. *)
Definition round_half_even (n d : Z) : Z :=
  let q := n / d in
  let r := n mod d in
  if 2 * r <? d then q
  else if d <? 2 * r then q + 1
  else if Z.even q then q else q + 1.

(** The annotation of one item of a group. *)
Definition annotate_item (stats : pydict skill_stat) (it : skill_item) : annotated_item :=
  let st := Dict.get (si_id it) stats in
  let months := match st with Some s => st_months s | None => 0 end in
  {| ai_item := it;
     ai_months := months;
     ai_years10 := if months =? 0 then 0 else round_half_even (10 * months) 12;
     ai_first_used := match st with Some s => _fmt_ym (st_first s) | None => None end;
     ai_last_used := match st with Some s => _fmt_ym (st_last s) | None => None end |}.

(** The group of the output, with its items annotated. *)
Definition group_out_of (lang : string) (registry : pydict skill_meta)
    (stats : pydict skill_stat) (g : skill_group) : group_out :=
  {| go_id := g_id g;
     go_group := tr lang (py_or (g_name g) (g_id g));
     go_items :=
       map (fun sid => annotate_item stats (skill_item_of lang registry sid))
           (g_items g) |}.

(** The state of the scan behind the metrics:
    [(earliest_start, latest_end_for_duration, total_projects)]. *)
Definition scan_state : Type := (option date * option date * Z)%type.

Definition metrics_step (E : pyenv) (acc : scan_state) (p : project_entry) : scan_state :=
  let '(earliest_start, latest_end, total_projects) := acc in
  let ps := _parse_date E (pe_start p) in
  let pe_span := date_or (_parse_date E (pe_end p)) (today E) in
  (match ps with
   | Some d =>
       match earliest_start with
       | None => Some d
       | Some e => if date_ltb d e then Some d else Some e
       end
   | None => earliest_start
   end,
   match latest_end with
   | None => Some pe_span
   | Some l => if date_ltb l pe_span then Some pe_span else Some l
   end,
   total_projects + 1).

Definition metrics_scan (E : pyenv) (experience : list experience_entry) : scan_state :=
  fold_left (fun acc e => fold_left (metrics_step E) (ex_projects e) acc)
            experience (None, None, 0).

Definition metrics_of (E : pyenv) (experience : list experience_entry) : metrics :=
  let '(earliest_start, latest_end, total_projects) := metrics_scan E experience in
  let months_total := or_zero (_months_between earliest_start latest_end) in
  {| m_experience_years := Z.max (round_half_even months_total 12) 0;
     m_companies := Z.of_nat (List.length experience);
     m_projects := total_projects |}.

(** The attributes of the renderer that [expand_intermediate] reads. *)
Record renderer : Type := mk_renderer {
  data : raw_document;
  language : option string;
  exclude_projects : list string
}.

(** [Renderer.expand_intermediate]. *)
Definition expand_intermediate (E : pyenv) (self : renderer) : result intermediate :=
  let raw := data self in
  let lang := resolve_lang (language self) in
  let registry := skills_registry raw in
  let '(by_employer, skill_stats) :=
    projects_loop E lang registry (exclude_projects self) (projects_raw raw) in
  unsorted <- employers_loop E lang by_employer (employers_raw raw) ;;
  let experience := sort_by_key (_sort_key E) unsorted in
  Ok {| im_lang := lang;
        im_locale := _to_locale lang;
        im_skills := map (group_out_of lang registry skill_stats) (skills_groups raw);
        im_experience := experience;
        im_metrics := metrics_of E experience |}.

(** ** The projects behind the output

    The vocabulary in which the properties of [expand_intermediate] are
    stated: the projects that pass the two tests of the loop, the ones of
    them that name a given employer, and the ones that list a given
    skill. *)

Definition kept_projects (excl : list string) (projects : pydict project)
  : pydict project :=
  filter (retained excl) projects.

Definition references_employer (ekey : string) (kv : string * project) : bool :=
  match pr_employer (snd kv) with
  | Some k => String.eqb k ekey
  | None => false
  end.

(** The entries of the kept projects that name [ekey], in document
    order. *)
Definition entries_for (E : pyenv) (lang : string) (registry : pydict skill_meta)
    (excl : list string) (projects : pydict project) (ekey : string)
  : list project_entry :=
  map (fun kv => project_entry_of E lang registry (snd kv))
      (filter (references_employer ekey) (kept_projects excl projects)).

(** The renderer with another set of projects. *)
Definition with_projects (self : renderer) (projects : pydict project) : renderer :=
  {| data := {| skills_registry := skills_registry (data self);
                skills_groups := skills_groups (data self);
                projects_raw := projects;
                employers_raw := employers_raw (data self) |};
     language := language self;
     exclude_projects := exclude_projects self |}.

(** How often [sid] occurs in the skill list of a project. *)
Definition occurrences (sid : string) (pr : project) : nat :=
  count_occ string_dec (pr_skills pr) sid.

Definition uses_skill (sid : string) (kv : string * project) : bool :=
  Text.mem sid (pr_skills (snd kv)).

(** One update of the accumulator of a skill, which may not exist yet. *)
Definition upd (E : pyenv) (pr : project) (o : option skill_stat) : option skill_stat :=
  Some (stat_update E pr (match o with Some st => st | None => stat_init end)).

(** A list of entries grown at its end, absent while it is empty. *)
Definition grow {A : Type} (o : option (list A)) (l : list A) : option (list A) :=
  match l with
  | [] => o
  | _ :: _ => Some ((match o with Some x => x | None => [] end) ++ l)%list
  end.

(** ** The order of the experience list *)

(** [k1 >= k2] on tuples of four integers, lexicographic. *)
Definition lex_geb (k1 k2 : sort_key) : bool :=
  let '(a1, b1, c1, d1) := k1 in
  let '(a2, b2, c2, d2) := k2 in
  (a2 <? a1) || ((a1 =? a2) &&
  ((b2 <? b1) || ((b1 =? b2) &&
  ((c2 <? c1) || ((c1 =? c2) && (d2 <=? d1)))))).

(** The tuple [(end.year, end.month, start.year, start.month)] of an
    entry as [_sort_key] fills it in: today for an absent end, and for
    an absent start the end just obtained. *)
Definition chrono_key (E : pyenv) (e : experience_entry) : sort_key :=
  let end_d := date_or (_parse_date E (ex_end e)) (today E) in
  let start_d := date_or (_parse_date E (ex_start e)) end_d in
  (year end_d, month end_d, year start_d, month start_d).

(** The same tuple as the specification words it: today for an absent
    end and today for an absent start. *)
Definition spec_chrono_key (E : pyenv) (e : experience_entry) : sort_key :=
  let end_d := date_or (_parse_date E (ex_end e)) (today E) in
  let start_d := date_or (_parse_date E (ex_start e)) (today E) in
  (year end_d, month end_d, year start_d, month start_d).

(** A list in descending order of a key: every entry is at least every
    later one. *)
Definition descending (key : experience_entry -> sort_key)
    (l : list experience_entry) : Prop :=
  StronglySorted (fun a b => lex_geb (key a) (key b) = true) l.

(** The entry [expand_intermediate] builds for one employer of the
    document, before the sort. *)
Definition experience_of_employer (E : pyenv) (self : renderer)
    (kv : string * employer) : result (option experience_entry) :=
  let lang := resolve_lang (language self) in
  let by_employer :=
    fst (projects_loop E lang (skills_registry (data self))
           (exclude_projects self) (projects_raw (data self))) in
  employer_entry E lang by_employer kv.

(** ** Printed dates *)

(** The field is what [_fmt_ym] prints for a date in range, or [None]. *)
Definition printed (s : option string) : Prop :=
  exists d : option date,
    (forall x, d = Some x -> valid_date x = true) /\ s = _fmt_ym d.

Definition entry_printed (p : project_entry) : Prop :=
  printed (pe_start p) /\ printed (pe_end p).

Definition first_of_month (d : date) : date := mkdate (year d) (month d) 1.

(** The year and month in which an entry ends, today's for an entry
    without end. *)
Definition end_month (E : pyenv) (e : experience_entry) : Z * Z :=
  let end_d := date_or (_parse_date E (ex_end e)) (today E) in
  (year end_d, month end_d).

(** [(y1, m1) <= (y2, m2)]. *)
Definition month_leb (a b : Z * Z) : bool :=
  (fst a <? fst b) || ((fst a =? fst b) && (snd a <=? snd b)).

(** ** Sample documents *)

Definition sample_today : date := mkdate 2026 11 4.
Definition sample_env : pyenv := env_at sample_today.

(** Two employers with one project each. Both projects end in March
    2027; the first has no start, the second starts in December 2026. *)
Definition two_engagements : renderer :=
  {| data :=
       {| skills_registry := [];
          skills_groups := [];
          projects_raw :=
            [("a", mk_project (VStr "A") (Some "acme") None (Some "2027-03") []);
             ("b", mk_project (VStr "B") (Some "beta") (Some "2026-12")
                              (Some "2027-03") [])];
          employers_raw :=
            [("acme", mk_employer (VStr "Acme")); ("beta", mk_employer (VStr "Beta"))] |};
     language := None;
     exclude_projects := [] |}.

(** A document with three projects and two employers: [p1] is excluded
    by id, [p2] names no employer, [p3] has been running at [acme] since
    May 2024; [beta] is named by [p1] only. *)
Definition sample_cv : renderer :=
  {| data :=
       {| skills_registry :=
            [("py", mk_skill_meta (VDict [("en", VStr "Python")]) (VStr "expert"))];
          skills_groups := [mk_skill_group (VStr "lang") VNone ["py"; "sql"]];
          projects_raw :=
            [("p1", mk_project (VStr "One") (Some "beta") (Some "2020-01")
                               (Some "2021-01") ["py"]);
             ("p2", mk_project (VStr "Two") None (Some "2021-02")
                               (Some "2022-02") ["py"; "sql"]);
             ("p3", mk_project (VStr "Three") (Some "acme") (Some "2024-05-20")
                               (Some "present") ["py"])];
          employers_raw :=
            [("acme", mk_employer (VStr "Acme")); ("beta", mk_employer (VStr "Beta"))] |};
     language := Some "en_US";
     exclude_projects := ["p1"] |}.

(** ** Skill usage, stated over the kept projects *)

(** The two comparisons of [stat_update], on their own. *)
Definition first_step (ps : option date) (f : option date) : option date :=
  match ps with
  | Some p =>
      match f with
      | None => Some p
      | Some f => if date_ltb p f then Some p else Some f
      end
  | None => f
  end.

Definition last_step (e : date) (l : option date) : option date :=
  match l with
  | None => Some e
  | Some l => if date_ltb l e then Some e else Some l
  end.

Definition months_of (o : option skill_stat) : Z :=
  match o with Some st => st_months st | None => 0 end.

Definition first_of (o : option skill_stat) : option date :=
  match o with Some st => st_first st | None => None end.

Definition last_of (o : option skill_stat) : option date :=
  match o with Some st => st_last st | None => None end.

(** The projects that list the skill. *)
Definition skill_projects (sid : string) (ps : pydict project) : pydict project :=
  filter (uses_skill sid) ps.

(** The duration of a project in months, written out: from its start to
    its end, today standing in for an end that is absent or does not
    read as a date, and zero without a start that reads as a date. The
    months between the two are the calendar months, one less when the
    day of the end is before the day of the start, and never less than
    zero. *)
Definition duration_of (E : pyenv) (pr : project) : Z :=
  match _parse_date E (pr_start pr) with
  | None => 0
  | Some s =>
      let e := match _parse_date E (pr_end pr) with
               | Some e => e
               | None => today E
               end in
      Z.max ((year e - year s) * 12 + (month e - month s)
             - (if day e <? day s then 1 else 0)) 0
  end.

(** The months of a skill: the duration of a project once for every
    occurrence of the skill in its list. *)
Definition skill_months (E : pyenv) (sid : string) (ps : pydict project) : Z :=
  fold_right
    (fun kv acc => Z.of_nat (occurrences sid (snd kv)) * duration_of E (snd kv) + acc)
    0 ps.

(** The months of a skill as the specification words them: the sum of
    the durations of the projects that reference the skill. *)
Definition spec_skill_months (E : pyenv) (sid : string) (ps : pydict project) : Z :=
  fold_right (fun kv acc => duration_of E (snd kv) + acc) 0 (skill_projects sid ps).

(** The concrete starts of the projects that list the skill. *)
Definition skill_starts (E : pyenv) (sid : string) (ps : pydict project) : list date :=
  somes (map (fun kv => _parse_date E (pr_start (snd kv))) (skill_projects sid ps)).

(** Their ends, today for a project without one. *)
Definition skill_ends (E : pyenv) (sid : string) (ps : pydict project) : list date :=
  map (fun kv => date_or (_parse_date E (pr_end (snd kv))) (today E))
      (skill_projects sid ps).

(** [o] is the minimum of [l]: [None] for the empty list. *)
Definition is_least (o : option date) (l : list date) : Prop :=
  match o with
  | None => l = []
  | Some d => In d l /\ forall x, In x l -> date_leb d x = true
  end.

(** [o] is the maximum of [l]: [None] for the empty list. *)
Definition is_greatest (o : option date) (l : list date) : Prop :=
  match o with
  | None => l = []
  | Some d => In d l /\ forall x, In x l -> date_leb x d = true
  end.

(** What the accumulator of a skill holds after the projects [ps]. *)
Definition summarizes (E : pyenv) (sid : string) (o : option skill_stat)
    (ps : pydict project) : Prop :=
  months_of o = skill_months E sid ps /\
  is_least (first_of o) (skill_starts E sid ps) /\
  is_greatest (last_of o) (skill_ends E sid ps).

(** One employer and two projects of six and four months that both use
    the skill [py]. *)
Definition six_and_four : renderer :=
  {| data :=
       {| skills_registry := [];
          skills_groups := [mk_skill_group (VStr "lang") VNone ["py"]];
          projects_raw :=
            [("p1", mk_project (VStr "One") (Some "acme") (Some "2020-01")
                               (Some "2020-07") ["py"]);
             ("p2", mk_project (VStr "Two") (Some "acme") (Some "2021-03")
                               (Some "2021-07") ["py"])];
          employers_raw := [("acme", mk_employer (VStr "Acme"))] |};
     language := None;
     exclude_projects := [] |}.

(** One project of six months whose skill list names [py] twice. *)
Definition skill_listed_twice : renderer :=
  {| data :=
       {| skills_registry := [];
          skills_groups := [mk_skill_group (VStr "lang") VNone ["py"]];
          projects_raw :=
            [("p1", mk_project (VStr "One") (Some "acme") (Some "2020-01")
                               (Some "2020-07") ["py"; "py"])];
          employers_raw := [("acme", mk_employer (VStr "Acme"))] |};
     language := None;
     exclude_projects := [] |}.

(** ** Paths and bytes *)

(** A [bytes] object, one character for a byte. *)
Definition bytes : Type := string.

Definition LF : string := String "010" EmptyString.

Module Path.

(** [s[n:]]. *)
Fixpoint drop (n : nat) (s : string) : string :=
  match n, s with
  | O, _ => s
  | S n', String _ s' => drop n' s'
  | S _, EmptyString => EmptyString
  end.

Fixpoint ends_with_slash (s : string) : bool :=
  match s with
  | EmptyString => false
  | String c EmptyString => Ascii.eqb c "/"
  | String _ s' => ends_with_slash s'
  end.

(** [os.path.isabs]. *)
Definition is_abs (p : string) : bool := String.prefix "/" p.

(** [os.path.join(a, b)] of [posixpath]. *)
Definition join (a b : string) : string :=
  if String.prefix "/" b then b
  else if String.eqb a "" || ends_with_slash a then a ++ b
  else a ++ "/" ++ b.

(** The text after the last slash, given the text read since the last
    slash seen. *)
Fixpoint basename_from (cur : string) (p : string) : string :=
  match p with
  | EmptyString => cur
  | String c p' =>
      if Ascii.eqb c "/" then basename_from EmptyString p'
      else basename_from (cur ++ String c EmptyString) p'
  end.

(** [os.path.basename]. *)
Definition basename (p : string) : string := basename_from EmptyString p.

(** The text up to and including the last slash. *)
Definition head (p : string) : string :=
  substring 0 (String.length p - String.length (basename p)) p.

Fixpoint rstrip_slash (s : string) : string :=
  match s with
  | EmptyString => EmptyString
  | String c s' =>
      match rstrip_slash s' with
      | EmptyString => if Ascii.eqb c "/" then EmptyString else String c EmptyString
      | r => String c r
      end
  end.

(** [os.path.dirname] of [posixpath]: the head without its trailing
    slashes, unless it consists of slashes only. *)
Definition dirname (p : string) : string :=
  let h := head p in
  if Text.all_chars (fun c => Ascii.eqb c "/") h then h else rstrip_slash h.

End Path.

(** ** The end of [render]: exit status, log, artifact *)

(** What the interpreter does with text in [render]:
    [int(b.decode('utf-8').strip())] ([None] where this raises),
    [b.decode('utf-8', errors='ignore')] and [s.splitlines()]. *)
Record pytext : Type := mk_pytext {
  int_of_bytes : bytes -> option Z;
  decode_ignore : bytes -> string;
  splitlines : string -> list string
}.

(** The dictionary [run_in_docker] returns, [result] in [render] and
    [res] below. [returncode] is the value of
    [result.get('returncode')]. *)
Record run_result : Type := mk_run_result {
  stdout : string;
  stderr : string;
  outputs : pydict bytes;
  image : string;
  returncode : option Z;
  build_stdout : string;
  build_stderr : string
}.

(** [b or d] on an optional [bytes]: [None] and [b''] are false. *)
Definition bytes_or (o : option bytes) (d : bytes) : bytes :=
  match o with
  | Some b => if String.eqb b "" then d else b
  | None => d
  end.

Definition bytes_truthy (o : option bytes) : bool :=
  match o with
  | Some b => negb (String.eqb b "")
  | None => false
  end.

(** The resolution of the exit status in [render]: the [try] around the
    reading of [exit.code], and in its handler
    [int(result.get('returncode') or 0)]. *)
Definition resolve_exit_code (T : pytext) (res : run_result) : Z :=
  let outputs_map := outputs res in
  let code_s := bytes_or (Dict.get "exit.code" outputs_map) "0" in
  match int_of_bytes T code_s with
  | Some n => n
  | None =>
      match returncode res with
      | Some n => n
      | None => 0
      end
  end.

(** The status as the comment above that code and the specification
    word it: the status file when it is there and reads as an integer,
    else the return code of the container, else zero. *)
Definition spec_exit_code (T : pytext) (res : run_result) : Z :=
  match Dict.get "exit.code" (outputs res) with
  | Some b =>
      match int_of_bytes T b with
      | Some n => n
      | None => match returncode res with Some n => n | None => 0 end
      end
  | None => match returncode res with Some n => n | None => 0 end
  end.

(** [chosen_log]. *)
Definition chosen_log (res : run_result) : bytes :=
  let log_bytes := bytes_or (Dict.get "build.log" (outputs res)) "" in
  let mainlog_bytes := bytes_or (Dict.get "main.log" (outputs res)) "" in
  if (0 <? String.length log_bytes)%nat then log_bytes else mainlog_bytes.



(** An instance of the interpreter for ASCII text. *)

(** The digits of an integer literal: single underscores may stand
    between digits. [prev] tells whether the last character was a
    digit. *)
Fixpoint int_digits (prev : bool) (acc : Z) (s : string) : option Z :=
  match s with
  | EmptyString => if prev then Some acc else None
  | String c s' =>
      if Text.is_digit c
      then int_digits true (10 * acc + Z.of_nat (nat_of_ascii c - 48)) s'
      else if Ascii.eqb c "_" && prev then int_digits false acc s'
      else None
  end.

(** [int(s)] on ASCII text. *)
Definition ascii_int (s : string) : option Z :=
  match Text.strip s with
  | String "-" ds => option_map Z.opp (int_digits false 0 ds)
  | String "+" ds => int_digits false 0 ds
  | ds => int_digits false 0 ds
  end.

Definition is_linebreak (c : ascii) : bool :=
  let n := nat_of_ascii c in
  ((10 <=? n) && (n <=? 13) || (28 <=? n) && (n <=? 30))%nat.

(** [s.splitlines()] on ASCII text; [cur] is the line read so far. *)
Fixpoint splitlines_from (cur : string) (s : string) : list string :=
  match s with
  | EmptyString => if String.eqb cur "" then [] else [cur]
  | String c s' =>
      if is_linebreak c then
        match s' with
        | String c' s'' =>
            if Ascii.eqb c "013" && Ascii.eqb c' "010"
            then cur :: splitlines_from EmptyString s''
            else cur :: splitlines_from EmptyString s'
        | EmptyString => [cur]
        end
      else splitlines_from (cur ++ String c EmptyString) s'
  end.

Definition ascii_text : pytext :=
  {| int_of_bytes := ascii_int;
     decode_ignore := fun b => b;
     splitlines := splitlines_from EmptyString |}.

(** A run whose status file says [0] and that produced a document,
    and a result without status file whose return code is [3]. *)
Definition sample_success : run_result :=
  {| stdout := ""; stderr := "";
     outputs := [("main.pdf", "%PDF-1.5"); ("build.log", "== env ==" ++ LF);
                 ("exit.code", "0" ++ LF)];
     image := "cv:latest"; returncode := Some 0;
     build_stdout := ""; build_stderr := "" |}.

Definition sample_no_status_file : run_result :=
  {| stdout := ""; stderr := "";
     outputs := [];
     image := "cv:latest"; returncode := Some 3;
     build_stdout := ""; build_stderr := "" |}.

(** A run that left the status [1] and no log, and printed one line to
    its standard error. *)
Definition sample_no_logs : run_result :=
  {| stdout := ""; stderr := "sh: 1: pdflatex: not found";
     outputs := [("exit.code", "1" ++ LF)];
     image := "cv:latest"; returncode := Some 0;
     build_stdout := "Successfully built"; build_stderr := "" |}.

(** ** [run_in_docker]: the workspace *)

(** A value of the [files] mapping: a [bytes] object, [None], or
    anything else, given by the text [str] returns for it. *)
Inductive content : Type :=
| CBytes (b : bytes)
| CNone
| CText (text : string).

(** The calls that write to the host: [os.makedirs(path, exist_ok=True)],
    and the writing of a file opened with ['wb'] or with ['w'] and
    [encoding='utf-8']. *)
Inductive fs_op : Type :=
| MakeDirs (path : string)
| WriteBytes (path : string) (b : bytes)
| WriteText (path : string) (text : string).

(** What [run_in_docker] asks of the host. Before the container runs:
    whether the host carries out a call that writes, after the calls
    carried out before it ([accepts done op]; [false] where the call
    raises). After the container has run:
    [glob.glob(pattern, recursive=True)], [os.path.isdir],
    [list(os.walk(top))], the content of a file opened for reading
    ([None] where that raises) and [os.path.relpath(path, start)]. *)
Record host : Type := mk_host {
  accepts : list fs_op -> fs_op -> bool;
  glob : string -> list string;
  isdir : string -> bool;
  walk : string -> list (string * list string * list string);
  read_bytes : string -> option bytes;
  relpath : string -> string -> string
}.

Definition mount_dir : string := "/workspace".

(** [str(rel).lstrip('/').replace('\\', '/')]. *)
Definition normalize_key (rel : string) : string :=
  Text.replace_char "\" "/" (Text.lstrip_char "/" rel).

Definition write_op (host_path : string) (c : content) : fs_op :=
  match c with
  | CBytes b => WriteBytes host_path b
  | CNone => WriteText host_path ""
  | CText text => WriteText host_path text
  end.

(** The body of [for rel, content in (files or {}).items()]. *)
Definition materialize_one (tmpdir : string) (kv : string * content) : list fs_op :=
  let rel := normalize_key (fst kv) in
  let host_path := Path.join tmpdir rel in
  [MakeDirs (Path.dirname host_path); write_op host_path (snd kv)].

(** The calls of the loop over [files], in its order: what it carries
    out when none of them raises. The first call that raises ends the
    loop, see [carry_out]. *)
Definition materialize (tmpdir : string) (files : pydict content) : list fs_op :=
  flat_map (materialize_one tmpdir) files.

Definition op_path (op : fs_op) : string :=
  match op with
  | MakeDirs path => path
  | WriteBytes path _ => path
  | WriteText path _ => path
  end.

(** A call that raises on every host: [os.makedirs('')], and [open] for
    writing of the empty path or of a path that ends in a slash. *)
Definition raises_always (op : fs_op) : bool :=
  match op with
  | MakeDirs path => String.eqb path ""
  | WriteBytes path _ => String.eqb path "" || Path.ends_with_slash path
  | WriteText path _ => String.eqb path "" || Path.ends_with_slash path
  end.

(** The calls carried out one after the other, [done] being the ones
    carried out before: all of them, or the ones before the first that
    raises, with the message of its [OSError]. *)
Fixpoint carry_out (H : host) (done ops : list fs_op) : list fs_op * option string :=
  match ops with
  | [] => (done, None)
  | op :: rest =>
      if raises_always op || negb (accepts H done op)
      then (done, Some ("OSError: " ++ op_path op))
      else carry_out H (done ++ [op])%list rest
  end.

(** The place inside the workspace where the specification has the
    content of a key. *)
Definition spec_host_path (tmpdir key : string) : string :=
  tmpdir ++ "/" ++ normalize_key key.

(** A loop whose body may raise. *)
Fixpoint fold_result {A B : Type} (f : A -> B -> result A) (l : list B) (a : A)
  : result A :=
  match l with
  | [] => Ok a
  | x :: l' => a' <- f a x ;; fold_result f l' a'
  end.

(** [collected[relp] = fh.read()] for the file [p]. *)
Definition collect_file (H : host) (tmpdir : string) (collected : pydict bytes)
    (p : string) : result (pydict bytes) :=
  let relp := relpath H p tmpdir in
  match read_bytes H p with
  | Some b => Ok (Dict.set relp b collected)
  | None => Raise ("OSError: " ++ p)
  end.

(** The files [os.walk(m)] leads to, [os.path.join(root, f)] for every
    [f] of every [(root, _dirs, files_in_dir)], in its order. *)
Definition walk_files (H : host) (m : string) : list string :=
  flat_map (fun t => map (Path.join (fst (fst t))) (snd t)) (walk H m).

(** The body of [for m in matches]. *)
Definition collect_match (H : host) (tmpdir : string) (collected : pydict bytes)
    (m : string) : result (pydict bytes) :=
  if isdir H m then fold_result (collect_file H tmpdir) (walk_files H m) collected
  else collect_file H tmpdir collected m.

(** The pattern relative to the workspace; [None] is the [continue]. *)
Definition rel_pattern (pattern : string) : option string :=
  if String.prefix (mount_dir ++ "/") pattern
  then Some (Path.drop (String.length mount_dir + 1) pattern)
  else if String.prefix "/" pattern then None
  else Some pattern.


(** The body of [for pattern in outputs or []]. *)
Definition collect_pattern (H : host) (tmpdir : string) (collected : pydict bytes)
    (pattern : string) : result (pydict bytes) :=
  match rel_pattern pattern with
  | None => Ok collected
  | Some rel =>
      fold_result (collect_match H tmpdir) (glob H (Path.join tmpdir rel)) collected
  end.

Definition collect_outputs (H : host) (tmpdir : string) (outputs : list string)
  : result (pydict bytes) :=
  fold_result (collect_pattern H tmpdir) outputs [].

(** A finished [subprocess.run]. *)
Record completed : Type := mk_completed {
  cp_returncode : Z;
  cp_stdout : string;
  cp_stderr : string
}.

Definition failed_message (what : string) (proc : completed) : string :=
  what ++ " failed (code " ++ Text.str_of_Z (cp_returncode proc) ++ ")." ++ LF
       ++ "STDOUT:" ++ LF ++ cp_stdout proc ++ LF
       ++ "STDERR:" ++ LF ++ cp_stderr proc.

(** [BaseRenderer.run_in_docker], given what it finds on the host: whether
    the [docker] command and the Dockerfile exist, the tag of the image,
    the temporary directory, and how the build and the run ended. It
    returns what it has written and its result. A call of the loop over
    [files] that raises ends the method with that error, before the
    container runs. *)
Definition run_in_docker (H : host) (docker_found dockerfile_found : bool)
    (df_path image_tag tmpdir : string) (build_proc run_proc : completed)
    (files : pydict content) (outputs_wanted : list string)
  : list fs_op * result run_result :=
  if negb docker_found then
    ([], Raise "Docker CLI not found. Install Docker Desktop for Mac and ensure `docker` is on PATH.")
  else if negb dockerfile_found then
    ([], Raise ("Dockerfile not found: `" ++ df_path ++ "`."))
  else if negb (cp_returncode build_proc =? 0) then
    ([], Raise (failed_message "Docker build" build_proc))
  else
    let '(written, failure) := carry_out H [] (materialize tmpdir files) in
    match failure with
    | Some m => (written, Raise m)
    | None =>
        if negb (cp_returncode run_proc =? 0) then
          (written, Raise (failed_message "Docker run" run_proc))
        else
          (written,
           collected <- collect_outputs H tmpdir outputs_wanted ;;
           Ok {| stdout := cp_stdout run_proc;
                 stderr := cp_stderr run_proc;
                 outputs := collected;
                 image := image_tag;
                 returncode := Some (cp_returncode run_proc);
                 build_stdout := cp_stdout build_proc;
                 build_stderr := cp_stderr build_proc |})
    end.

(** A result that [run_in_docker] returns, on some host and for some
    arguments. *)
Definition returned (res : run_result) : Prop :=
  exists (H : host) (docker_found dockerfile_found : bool)
         (df_path image_tag tmpdir : string) (build_proc run_proc : completed)
         (files : pydict content) (outputs_wanted : list string)
         (written : list fs_op),
    run_in_docker H docker_found dockerfile_found df_path image_tag tmpdir
      build_proc run_proc files outputs_wanted = (written, Ok res).

(** The [outputs] that [render] asks [run_in_docker] for. *)
Definition render_outputs : list string :=
  ["main.pdf"; "build.log"; "main.log"; "exit.code"].


(** A workspace after a run: [main.pdf], and a directory [aux] with a
    file and a subdirectory with another file. *)
Definition sample_tmpdir : string := "/tmp/cv-work-k3".

Definition sample_files : pydict bytes :=
  [("/tmp/cv-work-k3/main.pdf", "%PDF-1.5");
   ("/tmp/cv-work-k3/aux/a.txt", "A");
   ("/tmp/cv-work-k3/aux/deep/b.txt", "B")].

Definition sample_host : host :=
  {| accepts := fun _ _ => true;
     glob := fun pat =>
       if String.eqb pat "/tmp/cv-work-k3/main.pdf"
          || String.eqb pat "/tmp/cv-work-k3/aux" then [pat] else [];
     isdir := fun p => String.eqb p "/tmp/cv-work-k3/aux";
     walk := fun top =>
       if String.eqb top "/tmp/cv-work-k3/aux"
       then [(top, ["deep"], ["a.txt"]); (top ++ "/deep", [], ["b.txt"])]
       else [];
     read_bytes := fun p => Dict.get p sample_files;
     relpath := fun p start => Path.drop (String.length start + 1) p |}.

(** A workspace after a run that left its status [1] and nothing
    else. *)
Definition sample_status_host : host :=
  {| accepts := fun _ _ => true;
     glob := fun pat =>
       if String.eqb pat "/tmp/cv-work-k3/exit.code" then [pat] else [];
     isdir := fun _ => false;
     walk := fun _ => [];
     read_bytes := fun p =>
       if String.eqb p "/tmp/cv-work-k3/exit.code" then Some ("1" ++ LF) else None;
     relpath := fun p start => Path.drop (String.length start + 1) p |}.

(** ** Names: the slug, the file stem, the image tag *)

Definition is_upper (c : ascii) : bool :=
  let n := nat_of_ascii c in ((65 <=? n) && (n <=? 90))%nat.

(** [ch.isalnum() and ch.isascii()]. *)
Definition is_alnum (c : ascii) : bool :=
  Text.is_digit c || Text.is_lower c || is_upper c.

(** [s.lstrip(chars)] and [s.rstrip(chars)], the set of characters given
    by its test. *)
Fixpoint lstrip_if (p : ascii -> bool) (s : string) : string :=
  match s with
  | String c s' => if p c then lstrip_if p s' else s
  | EmptyString => EmptyString
  end.

Fixpoint rstrip_if (p : ascii -> bool) (s : string) : string :=
  match s with
  | EmptyString => EmptyString
  | String c s' =>
      match rstrip_if p s' with
      | EmptyString => if p c then EmptyString else String c EmptyString
      | r => String c r
      end
  end.

Definition strip_if (p : ascii -> bool) (s : string) : string :=
  rstrip_if p (lstrip_if p s).

Definition is_dash (c : ascii) : bool := Ascii.eqb c "-".

(** [re.sub('-{2,}', '-', s)]: of a run of hyphens one is left. *)
Fixpoint squeeze_dashes (s : string) : string :=
  match s with
  | EmptyString => EmptyString
  | String c s' =>
      if is_dash c && String.prefix "-" s' then squeeze_dashes s'
      else String c (squeeze_dashes s')
  end.

Definition slug_char (c : ascii) : ascii :=
  if is_alnum c then Text.lower_char c else "-"%char.

(** [_slugify] of [render]. *)
Definition _slugify (s : string) : string :=
  let r := strip_if is_dash (squeeze_dashes (Text.map_chars slug_char s)) in
  if String.eqb r "" then "cv" else r.

(** [s.split(sep)[0]] for a one-character separator. *)
Fixpoint before_char (a : ascii) (s : string) : string :=
  match s with
  | EmptyString => EmptyString
  | String c s' => if Ascii.eqb c a then EmptyString else String c (before_char a s')
  end.

(** [lang_token] of [render]. *)
Definition lang_token (language : option string) : string :=
  let lang :=
    match language with
    | Some l => if String.eqb l "" then "en" else l
    | None => "en"
    end in
  let t := Text.lower (before_char "-" (Text.replace_char "_" "-" lang)) in
  if String.eqb t "" then "en" else t.

(** [s[:n]]. *)
Definition take (n : nat) (s : string) : string := substring 0 n s.

(** The [stem] of the file names of [render], from the resolved
    [basename] (the attribute, else the name of the person, else [cv]),
    the attribute [config_hash], the language and today's date. *)
Definition stem_of (basename : string) (config_hash language : option string)
    (today : date) : string :=
  let base_slug := _slugify basename in
  let day_part :=
    Text.fmt_0d 4 (year today) ++ "-" ++ Text.fmt_0d 2 (month today)
      ++ "-" ++ Text.fmt_0d 2 (day today) in
  match config_hash with
  | Some h =>
      if String.eqb h "" then base_slug ++ "-" ++ lang_token language ++ "-" ++ day_part
      else base_slug ++ "-" ++ take 8 h ++ "-" ++ lang_token language ++ "-" ++ day_part
  | None => base_slug ++ "-" ++ lang_token language ++ "-" ++ day_part
  end.

(** What the interpreter knows about the characters of a base name,
    which [run_in_docker] does not restrict to ASCII: [ch.isalnum()] and
    [s.lower()]. *)
Record pychars : Type := mk_pychars {
  str_isalnum : ascii -> bool;
  str_lower : string -> string
}.

Definition is_ascii (c : ascii) : bool := (nat_of_ascii c <? 128)%nat.

(** On ASCII text the two are the functions above. *)
Definition chars_ok (U : pychars) : Prop :=
  (forall c, is_ascii c = true -> str_isalnum U c = is_alnum c) /\
  (forall s, Text.all_chars is_ascii s = true -> str_lower U s = Text.lower s).

(** The interpreter on ASCII text. *)
Definition ascii_chars : pychars :=
  {| str_isalnum := is_alnum; str_lower := Text.lower |}.

(** The interpreter on the characters below U+0100, a character standing
    for the code point of its number: the letters, the superscript
    digits and the fractions of that range are alphanumeric, and the
    capital letters from U+00C0 to U+00DE have their small letter 32
    places up. *)
Definition latin1_isalnum (c : ascii) : bool :=
  let n := nat_of_ascii c in
  (is_alnum c || (n =? 170) || (n =? 178) || (n =? 179) || (n =? 181)
   || (n =? 185) || (n =? 186) || (188 <=? n) && (n <=? 190)
   || (192 <=? n) && (n <=? 214) || (216 <=? n) && (n <=? 246) || (248 <=? n))%nat.

Definition latin1_lower_char (c : ascii) : ascii :=
  let n := nat_of_ascii c in
  if (is_upper c || (192 <=? n) && (n <=? 214) || (216 <=? n) && (n <=? 222))%nat
  then ascii_of_nat (n + 32) else c.

Definition latin1_chars : pychars :=
  {| str_isalnum := latin1_isalnum;
     str_lower := Text.map_chars latin1_lower_char |}.

(** [ch if ch.isalnum() or ch in '-._' else '-']. *)
Definition tag_char (U : pychars) (c : ascii) : ascii :=
  if str_isalnum U c || Ascii.eqb c "-" || Ascii.eqb c "." || Ascii.eqb c "_"
  then c else "-"%char.

Definition is_dash_or_dot (c : ascii) : bool := Ascii.eqb c "-" || Ascii.eqb c ".".

(** The name of the image in [run_in_docker], the tag without
    [:latest]. *)
Definition image_name (U : pychars) (basename : option string) : string :=
  let base :=
    str_lower U (match basename with
                 | Some b => if String.eqb b "" then "cv" else b
                 | None => "cv"
                 end) in
  let safe := strip_if is_dash_or_dot (Text.map_chars (tag_char U) base) in
  if String.eqb safe "" then "cv" else safe.

(** [image_tag] of [run_in_docker]. *)
Definition image_tag_of (U : pychars) (basename : option string) : string :=
  image_name U basename ++ ":latest".

(** ** The filters of the template *)

(** The month table is usable: [isinstance(months_list, (list, tuple))
    and len(months_list) == 12]. [None] stands for a value that is no
    list, the entries for their texts. *)
Definition month_table (months_list : option (list string)) : option (list string) :=
  match months_list with
  | Some l => if (List.length l =? 12)%nat then Some l else None
  | None => None
  end.

(** [_fmt_ym_label] of [render]; the second argument of the filter, the
    language, has no part in the result. *)
Definition _fmt_ym_label (E : pyenv) (months_list : option (list string))
    (value : option string) : string :=
  match value with
  | None => ""
  | Some v =>
      let s := Text.strip v in
      if String.eqb s "" then ""
      else
        match fullmatch_ym s with
        | Some (y, mm) =>
            match month_table months_list with
            | Some l =>
                let i := Z.max (Z.min (Text.digits_value mm) 12) 1 - 1 in
                nth (Z.to_nat i) l "" ++ " " ++ Text.str_of_Z (Text.digits_value y)
            | None => s
            end
        | None =>
            if fullmatch_y s then s
            else
              match fromisoformat E s with
              | Some d =>
                  match month_table months_list with
                  | Some l =>
                      nth (Z.to_nat (month d - 1)) l "" ++ " " ++ Text.str_of_Z (year d)
                  | None => s
                  end
              | None => s
              end
        end
  end.

(** [s.replace(a, r)] for a one-character [a], and more generally the
    text in which every character is replaced by a text of its own. *)
Fixpoint replace_each (f : ascii -> string) (s : string) : string :=
  match s with
  | EmptyString => EmptyString
  | String c s' => f c ++ replace_each f s'
  end.

Definition replace_with (a : ascii) (r : string) : string -> string :=
  replace_each (fun c => if Ascii.eqb c a then r else String c EmptyString).

(** The class [[&%$#_{}]]. *)
Definition is_tex_special (c : ascii) : bool :=
  Text.mem (String c EmptyString) ["&"; "%"; "$"; "#"; "_"; "{"; "}"].

(** [_tex_escape] of [render]: the backslashes, then the class of
    special characters, then the tilde, then the circumflex. *)
Definition _tex_escape (value : option string) : string :=
  let s := match value with Some v => v | None => "" end in
  if String.eqb s "" then ""
  else
    let s1 := replace_with "\" "\textbackslash{}" s in
    let s2 :=
      replace_each (fun c => if is_tex_special c
                             then String "\" (String c EmptyString)
                             else String c EmptyString) s1 in
    replace_with "^" "\textasciicircum{}" (replace_with "~" "\textasciitilde{}" s2).

(** What [_tex_escape] makes of one character. *)
Definition tex_char (c : ascii) : string :=
  if Ascii.eqb c "\" then "\textbackslash\{\}"
  else if is_tex_special c then String "\" (String c EmptyString)
  else if Ascii.eqb c "~" then "\textasciitilde{}"
  else if Ascii.eqb c "^" then "\textasciicircum{}"
  else String c EmptyString.

(** ** The log file of [render] *)

(** The diagnostic text written when no log came back. [keys_text] is
    the text of [sorted(list(result.keys()))], [cmd] the command. *)
Definition diag_text (exit_code : Z) (keys_text : string) (cmd : list string)
    (res : run_result) : string :=
  let head :=
    ["No logs were captured from Docker (build.log and main.log are empty or missing).";
     "Exit code recorded: " ++ Text.str_of_Z exit_code ++ ".";
     "Available output keys: " ++ keys_text;
     "Command: " ++ Text.join " " cmd ++ ".";
     "Hints: container working directory might be non-writable; pdflatex may be missing; or outputs weren't found."] in
  let docker_out := if String.eqb (stdout res) "" then build_stdout res else stdout res in
  let docker_err := if String.eqb (stderr res) "" then build_stderr res else stderr res in
  let with_out :=
    if String.eqb docker_out "" then head
    else (head ++ [(LF ++ "--- docker stdout ---" ++ LF ++ docker_out)%string])%list in
  let with_err :=
    if String.eqb docker_err "" then with_out
    else (with_out ++ [(LF ++ "--- docker stderr ---" ++ LF ++ docker_err)%string])%list in
  Text.join LF with_err ++ LF.

(** What [render] writes to the log file. *)
Definition log_written (T : pytext) (keys_text : string) (cmd : list string)
    (res : run_result) : bytes :=
  let chosen := chosen_log res in
  if (0 <? String.length chosen)%nat then chosen
  else diag_text (resolve_exit_code T res) keys_text cmd res.

(** ** The files [render] hands to the container *)

(** [s.endswith(suffix)]. *)
Fixpoint ends_with (suffix s : string) : bool :=
  String.eqb s suffix ||
  match s with
  | String _ s' => ends_with suffix s'
  | EmptyString => false
  end.

(** The body of the loop over the files of the template directory;
    [full] is [os.path.join(dirpath, fname)]. *)
Definition template_file_step (H : host) (template_dir : string)
    (files : pydict content) (full : string) : result (pydict content) :=
  let rel := relpath H full template_dir in
  if ends_with ".j2" rel || String.eqb rel "main.tex" then Ok files
  else
    match read_bytes H full with
    | Some b => Ok (Dict.set rel (CBytes b) files)
    | None => Raise ("OSError: " ++ full)
    end.

(** [files]: the rendered text under [main.tex], then the files that
    [os.walk(template_dir)] leads to. *)
Definition container_files (H : host) (template_dir rendered_tex : string)
  : result (pydict content) :=
  fold_result (template_file_step H template_dir) (walk_files H template_dir)
    [("main.tex", CText rendered_tex)].

(** A template directory: the template, a class file, a stale
    [main.tex] and a directory with a style file. *)
Definition sample_template_dir : string := "/srv/cv/template".

Definition sample_template_host : host :=
  {| accepts := fun _ _ => true;
     glob := fun _ => [];
     isdir := fun _ => false;
     walk := fun top =>
       if String.eqb top "/srv/cv/template"
       then [(top, ["fonts"], ["main.tex.j2"; "cv.cls"; "main.tex"]);
             (top ++ "/fonts", [], ["lato.sty"])]
       else [];
     read_bytes := fun p =>
       Dict.get p [("/srv/cv/template/main.tex.j2", "\documentclass{cv}");
                   ("/srv/cv/template/cv.cls", "% class");
                   ("/srv/cv/template/main.tex", "% stale");
                   ("/srv/cv/template/fonts/lato.sty", "% lato")];
     relpath := fun p start => Path.drop (String.length start + 1) p |}.

(** ** The projects of the experience list *)

(** The project entries the scan of the metrics meets, in its order. *)
Definition listed_projects (experience : list experience_entry) : list project_entry :=
  flat_map ex_projects experience.

(** Their concrete starts. *)
Definition listed_starts (E : pyenv) (experience : list experience_entry) : list date :=
  somes (map (fun p => _parse_date E (pe_start p)) (listed_projects experience)).

(** Their ends, today for an entry without one. *)
Definition listed_ends (E : pyenv) (experience : list experience_entry) : list date :=
  map (fun p => date_or (_parse_date E (pe_end p)) (today E))
      (listed_projects experience).

(** ** Counting and comparing, for the statements on the output *)

(** [k1 == k2] on the keys of the sort. *)
Definition key_eqb (k1 k2 : sort_key) : bool :=
  let '(a1, b1, c1, d1) := k1 in
  let '(a2, b2, c2, d2) := k2 in
  (a1 =? a2) && (b1 =? b2) && (c1 =? c2) && (d1 =? d2).

(** The project names one of the employers of the document. *)
Definition names_declared (employers : pydict employer) (kv : string * project) : bool :=
  existsb (fun ek => references_employer (fst ek) kv) employers.

(** The employer is named by one of the projects. *)
Definition is_named (projects : pydict project) (ek : string * employer) : bool :=
  existsb (references_employer (fst ek)) projects.

(** ** Shapes of names *)

(** The first and the last character of a text pass a test. *)
Definition head_is (p : ascii -> bool) (s : string) : bool :=
  match s with
  | String c _ => p c
  | EmptyString => false
  end.

Fixpoint last_is (p : ascii -> bool) (s : string) : bool :=
  match s with
  | EmptyString => false
  | String c EmptyString => p c
  | String _ s' => last_is p s'
  end.

(** No two hyphens in a row. *)
Fixpoint no_double_dash (s : string) : bool :=
  match s with
  | EmptyString => true
  | String c s' => negb (is_dash c && head_is is_dash s') && no_double_dash s'
  end.

(** A digit, a lower-case letter or a hyphen. *)
Definition is_slug_char (c : ascii) : bool :=
  Text.is_digit c || Text.is_lower c || is_dash c.

(** A digit, a lower-case letter, a hyphen, a dot or an underscore. *)
Definition is_tag_char (c : ascii) : bool :=
  Text.is_digit c || Text.is_lower c || Ascii.eqb c "-" || Ascii.eqb c "."
  || Ascii.eqb c "_".

(** A character the interpreter has as alphanumeric, a hyphen, a dot or
    an underscore. *)
Definition kept_in_tag (U : pychars) (c : ascii) : bool :=
  str_isalnum U c || Ascii.eqb c "-" || Ascii.eqb c "." || Ascii.eqb c "_".

(** ** Escaped text *)

(** No tilde and no circumflex, and an ampersand, percent sign, dollar
    sign, hash or underscore only behind a backslash; [prev] tells
    whether the character before was a backslash. *)
Fixpoint tex_safe_from (prev : bool) (s : string) : bool :=
  match s with
  | EmptyString => true
  | String c s' =>
      negb (Ascii.eqb c "~" || Ascii.eqb c "^")
      && (prev || negb (Text.mem (String c EmptyString) ["&"; "%"; "$"; "#"; "_"]))
      && tex_safe_from (Ascii.eqb c "\") s'
  end.

(** A character [_tex_escape] has nothing to do with. *)
Definition is_plain (c : ascii) : bool :=
  negb (Ascii.eqb c "\" || is_tex_special c || Ascii.eqb c "~" || Ascii.eqb c "^").

(** ** Ranges for exhaustive checks *)

(** [[s; s + 1; ...]], [n] numbers. *)
Fixpoint zrange (n : nat) (s : Z) : list Z :=
  match n with
  | O => []
  | S k => s :: zrange k (s + 1)
  end.

(** A field of [w] digits that reads back as [n]. *)
Definition prints_as (w : nat) (n : Z) : bool :=
  let s := Text.fmt_0d w n in
  (String.length s =? w)%nat && Text.all_chars Text.is_digit s
  && (Text.digits_value s =? n).

(* ================================================================== *)
(** * Theorems *)
(* ================================================================== *)

(** ** The localizer *)

(** C3. Localization of a value [v] against a language code: a mapping
    that contains the code yields the value stored under it; otherwise a
    mapping that contains [en] yields that value; otherwise a non-empty
    mapping yields its first value in insertion order; the empty mapping
    yields [None]; a value that is not a mapping is returned unchanged.
    In particular [{fr: X, en: Y}] against [ru] yields [Y] and [{fr: X}]
    against [ru] yields [X]. *)
Theorem tr_contract (lang : string) :
  (forall items x, Dict.get lang items = Some x -> tr lang (VDict items) = x) /\
  (forall items y, Dict.get lang items = None ->
     Dict.get "en" items = Some y -> tr lang (VDict items) = y) /\
  (forall k x rest, Dict.get lang ((k, x) :: rest) = None ->
     Dict.get "en" ((k, x) :: rest) = None ->
     tr lang (VDict ((k, x) :: rest)) = x) /\
  tr lang (VDict []) = VNone /\
  (forall v, is_dict v = false -> tr lang v = v) /\
  (forall X Y, tr "ru" (VDict [("fr", X); ("en", Y)]) = Y) /\
  (forall X, tr "ru" (VDict [("fr", X)]) = X).
Proof.
  split; [intros items x H; unfold tr; now rewrite H |].
  split; [intros items y H1 H2; unfold tr; now rewrite H1, H2 |].
  split; [intros k x rest H1 H2; unfold tr; now rewrite H1, H2 |].
  split; [reflexivity |].
  split; [| split; reflexivity].
  intros v Hv. destruct v; try reflexivity. discriminate Hv.
Qed.

Lemma tr_contract_witness :
  tr "pl" (VDict [("pl", VStr "Inzynier"); ("en", VStr "Engineer")]) = VStr "Inzynier" /\
  tr "pl" (VDict [("ru", VInt 1); ("en", VInt 2)]) = VInt 2 /\
  tr "pl" (VDict [("ru", VInt 1); ("fr", VInt 2)]) = VInt 1 /\
  tr "pl" (VInt 7) = VInt 7.
Proof.
  destruct (tr_contract "pl") as (H1 & H2 & H3 & _ & H5 & _).
  split; [apply H1; reflexivity |].
  split; [apply H2; reflexivity |].
  split; [apply H3; reflexivity |].
  apply H5. reflexivity.
Defined.

(** ** Durations *)

(** C4. [_months_between a b] is [None] when either bound is missing;
    otherwise it is [(b.year - a.year) * 12 + (b.month - a.month)], less
    one when [b.day < a.day], and never below zero. Hence the result is
    non-negative for concrete dates (in particular when [a <= b]), and it
    is zero when the two dates are equal. *)
Theorem months_between_contract :
  (forall b, _months_between None b = None) /\
  (forall a, _months_between a None = None) /\
  (forall a b,
     _months_between (Some a) (Some b) =
     Some (Z.max ((year b - year a) * 12 + (month b - month a)
                  - (if day b <? day a then 1 else 0)) 0)) /\
  (forall a b n, date_leb a b = true ->
     _months_between (Some a) (Some b) = Some n -> 0 <= n) /\
  (forall a b, date_leb a b = true ->
     exists n, _months_between (Some a) (Some b) = Some n /\ 0 <= n) /\
  (forall a, _months_between (Some a) (Some a) = Some 0).
Proof.
  split; [reflexivity |].
  split; [intros [a|]; reflexivity |].
  split; [reflexivity |].
  split; [intros a b n _ H; simpl in H; injection H as <-; lia |].
  split.
  - intros a b _. simpl. eexists. split; [reflexivity | lia].
  - intros a. simpl. rewrite Z.ltb_irrefl. f_equal. lia.
Qed.

Lemma months_between_contract_witness :
  (exists n, _months_between (Some (mkdate 2020 1 31)) (Some (mkdate 2020 3 1))
             = Some n /\ 0 <= n) /\
  _months_between (Some (mkdate 2020 1 31)) (Some (mkdate 2020 3 1)) = Some 1.
Proof.
  destruct months_between_contract as (_ & _ & H3 & _ & H5 & _).
  split.
  - apply H5. reflexivity.
  - rewrite H3. reflexivity.
Defined.

(** ** Text and dates: printing a date and reading it back *)

Lemma zrange_In (n : nat) : forall s y,
  s <= y < s + Z.of_nat n -> In y (zrange n s).
Proof.
  induction n as [|n IH]; intros s y H.
  - lia.
  - cbn [zrange]. destruct (Z.eq_dec s y) as [->|Hne]; [now left | right].
    apply IH. lia.
Qed.

Lemma prints_as_years :
  forallb (prints_as 4) (zrange (Z.to_nat 9999) 1) = true.
Proof. vm_compute. reflexivity. Qed.

Lemma prints_as_months :
  forallb (prints_as 2) (zrange 12 1) = true.
Proof. vm_compute. reflexivity. Qed.

Lemma prints_as_year (y : Z) : 1 <= y <= 9999 -> prints_as 4 y = true.
Proof.
  intros H. pose proof prints_as_years as Hall.
  rewrite forallb_forall in Hall. apply Hall. apply zrange_In. lia.
Qed.

Lemma prints_as_month (m : Z) : 1 <= m <= 12 -> prints_as 2 m = true.
Proof.
  intros H. pose proof prints_as_months as Hall.
  rewrite forallb_forall in Hall. apply Hall. apply zrange_In. lia.
Qed.

(** What the reader needs to know of a digit. *)
Lemma digit_char (c : ascii) :
  Text.is_digit c = true ->
  Text.is_space c = false /\ Text.lower_char c = c /\
  Ascii.eqb c "n" = false /\ Ascii.eqb c "p" = false /\
  Ascii.eqb c "c" = false /\ Ascii.eqb c "o" = false /\
  Ascii.eqb c "-" = false.
Proof.
  destruct c as [[] [] [] [] [] [] [] []]; vm_compute; intros H;
    try discriminate H; repeat split.
Qed.

Lemma valid_date_bounds (d : date) :
  valid_date d = true ->
  1 <= year d <= 9999 /\ 1 <= month d <= 12 /\ 1 <= day d.
Proof.
  unfold valid_date. rewrite !andb_true_iff, !Z.leb_le. lia.
Qed.

Lemma first_of_month_valid (y m : Z) :
  1 <= y <= 9999 -> 1 <= m <= 12 -> valid_date (mkdate y m 1) = true.
Proof.
  intros Hy Hm. unfold valid_date. cbn [year month day].
  rewrite !andb_true_iff, !Z.leb_le.
  repeat split; try lia.
  unfold days_in_month.
  destruct (m =? 2); [destruct (is_leap y); lia |].
  destruct ((m =? 4) || (m =? 6) || (m =? 9) || (m =? 11)); lia.
Qed.

(** The text [_fmt_ym] prints: four digits, a hyphen, two digits. *)
Lemma fmt_ym_shape (d : date) :
  valid_date d = true ->
  exists a b c e f g,
    fmt_ym d =
      String a (String b (String c (String e
        (String "-" (String f (String g EmptyString)))))) /\
    Text.all_chars Text.is_digit
      (String a (String b (String c (String e (String f (String g EmptyString))))))
      = true /\
    Text.digits_value (String a (String b (String c (String e EmptyString)))) = year d /\
    Text.digits_value (String f (String g EmptyString)) = month d.
Proof.
  intros Hv. apply valid_date_bounds in Hv. destruct Hv as (Hy & Hm & _).
  pose proof (prints_as_year _ Hy) as Py. pose proof (prints_as_month _ Hm) as Pm.
  unfold prints_as in Py, Pm. unfold fmt_ym.
  destruct (Text.fmt_0d 4 (year d)) as [|a [|b [|c [|e [|? ?]]]]]; try discriminate Py.
  destruct (Text.fmt_0d 2 (month d)) as [|f [|g [|? ?]]]; try discriminate Pm.
  rewrite !andb_true_iff in Py, Pm.
  destruct Py as ((_ & Dy) & Vy). destruct Pm as ((_ & Dm) & Vm).
  apply Z.eqb_eq in Vy, Vm.
  exists a, b, c, e, f, g. split; [reflexivity |].
  split; [| split; assumption].
  cbn [Text.all_chars] in *. rewrite !andb_true_iff in *.
  tauto.
Qed.

(** Reading back what [_fmt_ym] printed gives the first day of the same
    month. *)
Lemma parse_fmt_ym (E : pyenv) (d : date) :
  valid_date d = true ->
  _parse_date E (Some (fmt_ym d)) = Some (mkdate (year d) (month d) 1).
Proof.
  intros Hv. destruct (fmt_ym_shape d Hv) as (a & b & c & e & f & g & Hs & Hd & Hy & Hm).
  apply valid_date_bounds in Hv. destruct Hv as (By & Bm & _).
  cbn [Text.all_chars] in Hd. rewrite !andb_true_iff in Hd.
  destruct Hd as (Ha & Hb & Hc & He & Hf & Hg & _).
  destruct (digit_char a Ha) as (Sa & La & An & Ap & Ac & Ao & _).
  destruct (digit_char b Hb) as (_ & Lb & _).
  destruct (digit_char c Hc) as (_ & Lc & _).
  destruct (digit_char e He) as (_ & Le & _).
  destruct (digit_char f Hf) as (_ & Lf & _).
  destruct (digit_char g Hg) as (Sg & Lg & _).
  unfold _parse_date. rewrite Hs.
  assert (Hstrip : Text.strip
      (String a (String b (String c (String e
        (String "-" (String f (String g EmptyString)))))))
      = String a (String b (String c (String e
        (String "-" (String f (String g EmptyString))))))).
  { unfold Text.strip. cbn [Text.lstrip]. rewrite Sa.
    cbn [Text.rstrip]. rewrite Sg. reflexivity. }
  rewrite Hstrip.
  assert (Hsent : Text.mem (Text.lower
      (String a (String b (String c (String e
        (String "-" (String f (String g EmptyString)))))))) sentinels = false).
  { unfold Text.lower. cbn [Text.map_chars]. rewrite La.
    unfold Text.mem, sentinels. cbn [existsb String.eqb].
    rewrite An, Ap, Ac, Ao. reflexivity. }
  rewrite Hsent. cbn [String.eqb orb].
  assert (Hfm : fullmatch_ym
      (String a (String b (String c (String e
        (String "-" (String f (String g EmptyString)))))))
      = Some (String a (String b (String c (String e EmptyString))),
              String f (String g EmptyString))).
  { unfold fullmatch_ym. cbn [String.length Nat.eqb substring String.eqb
      Ascii.eqb Bool.eqb andb Text.all_chars].
    rewrite Ha, Hb, Hc, He, Hf, Hg. reflexivity. }
  rewrite Hfm, Hy, Hm. unfold new_date.
  now rewrite first_of_month_valid.
Qed.

Lemma fmt_ym_nonempty (d : date) :
  valid_date d = true -> String.eqb (fmt_ym d) "" = false.
Proof.
  intros Hv. destruct (fmt_ym_shape d Hv) as (a & b & c & e & f & g & Hs & _).
  rewrite Hs. reflexivity.
Qed.

(** Every date [_parse_date] returns is in range. *)
Lemma parse_date_valid (E : pyenv) (s : option string) (d : date) :
  env_ok E -> _parse_date E s = Some d -> valid_date d = true.
Proof.
  intros [_ Hiso] H. unfold _parse_date in H.
  destruct s as [s|]; [|discriminate].
  destruct (String.eqb (Text.strip s) "" || Text.mem (Text.lower (Text.strip s)) sentinels);
    [discriminate|].
  assert (Hnew : forall y m dd, new_date y m dd = Some d -> valid_date d = true).
  { intros y m dd Hn. unfold new_date in Hn.
    destruct (valid_date (mkdate y m dd)) eqn:Hv; [|discriminate].
    now injection Hn as <-. }
  destruct (fullmatch_ym (Text.strip s)) as [[y m]|]; [now apply Hnew in H |].
  destruct (fullmatch_y (Text.strip s)); [now apply Hnew in H |].
  now apply Hiso in H.
Qed.

(** ** Dictionaries *)

Lemma get_set {V : Type} (k k' : string) (v : V) (d : pydict V) :
  Dict.get k (Dict.set k' v d) = if String.eqb k k' then Some v else Dict.get k d.
Proof.
  induction d as [|[k0 v0] d IH]; cbn [Dict.set Dict.get].
  - reflexivity.
  - destruct (String.eqb_spec k' k0) as [->|Hne]; cbn [Dict.get].
    + destruct (String.eqb k k0); reflexivity.
    + destruct (String.eqb_spec k k0) as [->|Hne'].
      * destruct (String.eqb_spec k0 k') as [->|_]; [contradiction | reflexivity].
      * exact IH.
Qed.

Lemma grow_grow {A : Type} (o : option (list A)) (l1 l2 : list A) :
  grow (grow o l1) l2 = grow o (l1 ++ l2).
Proof.
  destruct l1 as [|a l1]; [reflexivity |].
  destruct l2 as [|b l2]; cbn [grow app].
  - now rewrite app_nil_r.
  - destruct (l1 ++ b :: l2)%list eqn:Hl.
    + destruct l1; discriminate Hl.
    + rewrite <- Hl. f_equal. now rewrite <- app_assoc.
Qed.

Lemma iter_shift {A : Type} (f : A -> A) (n : nat) (x : A) :
  Nat.iter n f (f x) = f (Nat.iter n f x).
Proof. now rewrite <- Nat.iter_succ_r, Nat.iter_succ. Qed.

Lemma mem_In (s : string) (xs : list string) :
  Text.mem s xs = true <-> In s xs.
Proof.
  unfold Text.mem. rewrite existsb_exists. split.
  - intros (x & Hx & He). apply String.eqb_eq in He. now subst.
  - intros H. exists s. split; [assumption | apply String.eqb_refl].
Qed.

(** ** The loop over the projects *)

Section ProjectsLoop.
Variables (E : pyenv) (lang : string) (registry : pydict skill_meta).
Variable excl : list string.

Let step := project_step E lang registry excl.

Lemma retained_false_step (acc : loop_state) (kv : string * project) :
  retained excl kv = false -> step acc kv = acc.
Proof.
  destruct kv as [pid pr]. unfold retained, step, project_step. cbn [fst snd].
  destruct (Text.mem pid excl); [reflexivity |].
  cbn [negb andb]. unfold text_truthy.
  destruct (pr_employer pr) as [k|]; [|reflexivity].
  destruct (String.eqb k ""); [reflexivity | discriminate].
Qed.

Lemma retained_true_step (acc : loop_state) (pid : string) (pr : project) :
  retained excl (pid, pr) = true ->
  exists k, pr_employer pr = Some k /\
    step acc (pid, pr) =
      (append_entry k (project_entry_of E lang registry pr) (fst acc),
       fold_left (accumulate_skill E pr) (pr_skills pr) (snd acc)).
Proof.
  unfold retained, step, project_step. cbn [fst snd].
  destruct (Text.mem pid excl); [discriminate |].
  cbn [negb andb]. unfold text_truthy.
  destruct (pr_employer pr) as [k|]; [|discriminate].
  destruct (String.eqb k ""); [discriminate |].
  intros _. exists k. split; reflexivity.
Qed.

(** A project that fails one of the two tests leaves no trace in the
    state of the loop. *)
Lemma loop_skips_dropped (projects : pydict project) : forall acc,
  fold_left step projects acc = fold_left step (kept_projects excl projects) acc.
Proof.
  induction projects as [|kv rest IH]; intros acc; [reflexivity |].
  cbn [fold_left kept_projects filter].
  destruct (retained excl kv) eqn:Hr.
  - cbn [fold_left]. apply IH.
  - rewrite retained_false_step by assumption. apply IH.
Qed.

Lemma step_by_employer (acc : loop_state) (kv : string * project) (ekey : string) :
  Dict.get ekey (fst (step acc kv)) =
  grow (Dict.get ekey (fst acc)) (entries_for E lang registry excl [kv] ekey).
Proof.
  unfold entries_for, kept_projects. cbn [filter].
  destruct (retained excl kv) eqn:Hr.
  - destruct kv as [pid pr].
    destruct (retained_true_step acc pid pr Hr) as (k & Hk & ->).
    cbn [fst filter]. unfold references_employer at 1. cbn [snd]. rewrite Hk.
    unfold append_entry. rewrite get_set.
    destruct (String.eqb_spec ekey k) as [->|Hne].
    + rewrite String.eqb_refl. reflexivity.
    + destruct (String.eqb_spec k ekey) as [->|_]; [contradiction | reflexivity].
  - rewrite retained_false_step by assumption. reflexivity.
Qed.

Lemma entries_for_cons (kv : string * project) (rest : pydict project) (ekey : string) :
  entries_for E lang registry excl (kv :: rest) ekey =
  (entries_for E lang registry excl [kv] ekey
   ++ entries_for E lang registry excl rest ekey)%list.
Proof.
  unfold entries_for, kept_projects. cbn [filter].
  destruct (retained excl kv); cbn [filter]; [|reflexivity].
  destruct (references_employer ekey kv); reflexivity.
Qed.

Lemma loop_by_employer (projects : pydict project) (ekey : string) : forall acc,
  Dict.get ekey (fst (fold_left step projects acc)) =
  grow (Dict.get ekey (fst acc)) (entries_for E lang registry excl projects ekey).
Proof.
  induction projects as [|kv rest IH]; intros acc; [reflexivity |].
  cbn [fold_left]. rewrite IH, step_by_employer, grow_grow.
  now rewrite <- entries_for_cons.
Qed.

(** The list filed under an employer key is the list of the entries of
    the kept projects that name it. *)
Lemma by_employer_get (projects : pydict project) (ekey : string) :
  Dict.get ekey (fst (projects_loop E lang registry excl projects)) =
  grow None (entries_for E lang registry excl projects ekey).
Proof. unfold projects_loop. now rewrite loop_by_employer. Qed.

Lemma skills_loop_get (pr : project) (sid : string) (skills : list string) :
  forall stats,
  Dict.get sid (fold_left (accumulate_skill E pr) skills stats) =
  Nat.iter (count_occ string_dec skills sid) (upd E pr) (Dict.get sid stats).
Proof.
  induction skills as [|s skills IH]; intros stats; [reflexivity |].
  cbn [fold_left count_occ]. rewrite IH.
  unfold accumulate_skill. rewrite get_set.
  destruct (string_dec s sid) as [->|Hne].
  - rewrite String.eqb_refl, Nat.iter_succ, <- iter_shift. reflexivity.
  - destruct (String.eqb_spec sid s) as [->|_]; [contradiction | reflexivity].
Qed.

Lemma step_stats (acc : loop_state) (kv : string * project) (sid : string) :
  Dict.get sid (snd (step acc kv)) =
  if retained excl kv
  then Nat.iter (occurrences sid (snd kv)) (upd E (snd kv)) (Dict.get sid (snd acc))
  else Dict.get sid (snd acc).
Proof.
  destruct (retained excl kv) eqn:Hr.
  - destruct kv as [pid pr].
    destruct (retained_true_step acc pid pr Hr) as (k & _ & ->).
    cbn [snd]. apply skills_loop_get.
  - now rewrite retained_false_step.
Qed.

(** The accumulator of a skill after the loop: one update for every
    occurrence of the skill in the list of a kept project, in document
    order. *)
Lemma loop_stats (projects : pydict project) (sid : string) : forall acc,
  Dict.get sid (snd (fold_left step projects acc)) =
  fold_left (fun o kv => Nat.iter (occurrences sid (snd kv)) (upd E (snd kv)) o)
            (kept_projects excl projects) (Dict.get sid (snd acc)).
Proof.
  induction projects as [|kv rest IH]; intros acc; [reflexivity |].
  cbn [fold_left kept_projects filter]. rewrite IH, step_stats.
  destruct (retained excl kv); reflexivity.
Qed.

End ProjectsLoop.

(** ** The sort *)

Ltac bool_to_prop :=
  repeat first
    [ rewrite orb_true_iff in * | rewrite andb_true_iff in *
    | rewrite orb_false_iff in * | rewrite andb_false_iff in *
    | rewrite Z.ltb_lt in * | rewrite Z.leb_le in * | rewrite Z.eqb_eq in *
    | rewrite Z.ltb_ge in * | rewrite Z.leb_gt in * | rewrite Z.eqb_neq in * ].

Lemma key_leb_total (k1 k2 : sort_key) :
  key_leb k1 k2 = false -> key_leb k2 k1 = true.
Proof.
  destruct k1 as [[[a1 b1] c1] d1], k2 as [[[a2 b2] c2] d2].
  unfold key_leb. intros H. bool_to_prop. lia.
Qed.

Lemma key_leb_trans (k1 k2 k3 : sort_key) :
  key_leb k1 k2 = true -> key_leb k2 k3 = true -> key_leb k1 k3 = true.
Proof.
  destruct k1 as [[[a1 b1] c1] d1], k2 as [[[a2 b2] c2] d2],
           k3 as [[[a3 b3] c3] d3].
  unfold key_leb. intros H1 H2. bool_to_prop. lia.
Qed.

Lemma key_leb_neg (a1 b1 c1 d1 a2 b2 c2 d2 : Z) :
  key_leb (- a1, - b1, - c1, - d1) (- a2, - b2, - c2, - d2) =
  lex_geb (a1, b1, c1, d1) (a2, b2, c2, d2).
Proof.
  unfold key_leb, lex_geb.
  destruct (Z.ltb_spec (- a1) (- a2)), (Z.ltb_spec a2 a1); try lia; cbn [orb];
  destruct (Z.eqb_spec (- a1) (- a2)), (Z.eqb_spec a1 a2); try lia; cbn [andb];
    try reflexivity;
  destruct (Z.ltb_spec (- b1) (- b2)), (Z.ltb_spec b2 b1); try lia; cbn [orb];
  destruct (Z.eqb_spec (- b1) (- b2)), (Z.eqb_spec b1 b2); try lia; cbn [andb];
    try reflexivity;
  destruct (Z.ltb_spec (- c1) (- c2)), (Z.ltb_spec c2 c1); try lia; cbn [orb];
  destruct (Z.eqb_spec (- c1) (- c2)), (Z.eqb_spec c1 c2); try lia; cbn [andb];
    try reflexivity;
  destruct (Z.leb_spec (- d1) (- d2)), (Z.leb_spec d2 d1); try lia; reflexivity.
Qed.

(** Ascending order of [_sort_key] is descending order of the tuple. *)
Lemma sort_key_chrono (E : pyenv) (a b : experience_entry) :
  key_leb (_sort_key E a) (_sort_key E b) =
  lex_geb (chrono_key E a) (chrono_key E b).
Proof. unfold _sort_key, chrono_key. apply key_leb_neg. Qed.

Section SortFacts.
Context {A : Type} (key : A -> sort_key).

Let le (a b : A) : Prop := key_leb (key a) (key b) = true.

Lemma insert_perm (x : A) (l : list A) :
  Permutation (insert_by_key key x l) (x :: l).
Proof.
  induction l as [|y l IH]; cbn [insert_by_key]; [reflexivity |].
  destruct (key_leb (key x) (key y)); [reflexivity |].
  rewrite IH. apply perm_swap.
Qed.

Lemma sort_perm (l : list A) : Permutation (sort_by_key key l) l.
Proof.
  induction l as [|x l IH]; cbn [sort_by_key]; [reflexivity |].
  rewrite insert_perm. now constructor.
Qed.

Lemma insert_sorted (x : A) (l : list A) :
  StronglySorted le l -> StronglySorted le (insert_by_key key x l).
Proof.
  induction l as [|y l IH]; intros Hs; cbn [insert_by_key].
  - repeat constructor.
  - destruct (key_leb (key x) (key y)) eqn:Hxy.
    + constructor; [assumption |].
      constructor; [exact Hxy |].
      apply StronglySorted_inv in Hs. destruct Hs as [_ Hall].
      rewrite Forall_forall in *. intros z Hz.
      eapply key_leb_trans; [exact Hxy | now apply Hall].
    + apply StronglySorted_inv in Hs. destruct Hs as [Hs Hall].
      constructor; [now apply IH |].
      rewrite Forall_forall in *. intros z Hz.
      apply (Permutation_in _ (insert_perm x l)) in Hz.
      destruct Hz as [<-|Hz]; [now apply key_leb_total | now apply Hall].
Qed.

Lemma sort_sorted (l : list A) : StronglySorted le (sort_by_key key l).
Proof.
  induction l as [|x l IH]; cbn [sort_by_key]; [constructor |].
  now apply insert_sorted.
Qed.

End SortFacts.

(** ** The entries of the projects *)

Lemma ongoing_is_none (E : pyenv) (raw : option string) :
  ongoing raw (_parse_date E raw) = is_none (_parse_date E raw).
Proof.
  unfold ongoing. destruct raw as [s|]; [|reflexivity].
  destruct (Text.mem s ("" :: sentinels)) eqn:Hm; [|reflexivity].
  apply mem_In in Hm. unfold sentinels in Hm. cbn [In] in Hm.
  destruct Hm as [<-|[<-|[<-|[<-|[<-|[]]]]]]; reflexivity.
Qed.

Lemma entry_start (E : pyenv) (lang : string) (registry : pydict skill_meta)
    (pr : project) :
  pe_start (project_entry_of E lang registry pr) = _fmt_ym (_parse_date E (pr_start pr)).
Proof. reflexivity. Qed.

Lemma entry_end (E : pyenv) (lang : string) (registry : pydict skill_meta)
    (pr : project) :
  pe_end (project_entry_of E lang registry pr) = _fmt_ym (_parse_date E (pr_end pr)).
Proof.
  cbn [project_entry_of pe_end]. rewrite ongoing_is_none.
  destruct (_parse_date E (pr_end pr)); reflexivity.
Qed.

Lemma entry_of_printed (E : pyenv) (lang : string) (registry : pydict skill_meta)
    (pr : project) :
  env_ok E -> entry_printed (project_entry_of E lang registry pr).
Proof.
  intros HE. split.
  - exists (_parse_date E (pr_start pr)). split; [|apply entry_start].
    intros x Hx. eapply parse_date_valid; eassumption.
  - exists (_parse_date E (pr_end pr)). split; [|apply entry_end].
    intros x Hx. eapply parse_date_valid; eassumption.
Qed.

Lemma printed_truthy (s : option string) :
  printed s -> text_truthy s = negb (is_none s).
Proof.
  intros (d & Hv & ->). destruct d as [d|]; [|reflexivity].
  cbn. now rewrite fmt_ym_nonempty by now apply Hv.
Qed.

Lemma printed_parse (E : pyenv) (s : option string) :
  printed s -> is_none (_parse_date E s) = is_none s.
Proof.
  intros (d & Hv & ->). destruct d as [d|]; [|reflexivity].
  cbn [_fmt_ym option_map]. rewrite parse_fmt_ym by now apply Hv. reflexivity.
Qed.

Lemma entries_for_printed (E : pyenv) (lang : string) (registry : pydict skill_meta)
    (excl : list string) (projects : pydict project) (ekey : string) :
  env_ok E -> Forall entry_printed (entries_for E lang registry excl projects ekey).
Proof.
  intros HE. unfold entries_for. apply Forall_forall. intros p Hp.
  apply in_map_iff in Hp. destruct Hp as (kv & <- & _).
  now apply entry_of_printed.
Qed.

(** ** The loop over the employers *)

Lemma months_between_nonneg (a b : option date) (n : Z) :
  _months_between a b = Some n -> 0 <= n.
Proof.
  destruct a as [a|], b as [b|]; cbn [_months_between]; try discriminate.
  intros H. injection H as <-. lia.
Qed.

Section EmployersLoop.
Variables (E : pyenv) (lang : string).
Variable by_employer : pydict (list project_entry).

Lemma somes_nonempty {A : Type} (l : list (option A)) :
  l <> [] -> Forall (fun o => is_none o = false) l -> somes l <> [].
Proof.
  destruct l as [|[a|] l]; intros Hne Hall; [contradiction | discriminate |].
  apply Forall_inv in Hall. discriminate Hall.
Qed.

Lemma start_dates_read (projects : list project_entry) :
  Forall entry_printed projects ->
  Forall (fun o => is_none o = false)
    (map (fun p => _parse_date E (pe_start p))
         (filter (fun p => text_truthy (pe_start p)) projects)).
Proof.
  intros Hall. apply Forall_forall. intros o Ho.
  apply in_map_iff in Ho. destruct Ho as (p & <- & Hp).
  apply filter_In in Hp. destruct Hp as [Hin Ht].
  rewrite Forall_forall in Hall. destruct (Hall p Hin) as [Hs _].
  rewrite printed_parse by assumption.
  rewrite printed_truthy in Ht by assumption.
  now destruct (is_none (pe_start p)).
Qed.

(** With printed dates in the project entries, the body of the loop
    does not raise. *)
Lemma employer_entry_returns (kv : string * employer) :
  (forall l, Dict.get (fst kv) by_employer = Some l -> Forall entry_printed l) ->
  exists r, employer_entry E lang by_employer kv = Ok r.
Proof.
  destruct kv as [ekey emp]. cbn [fst]. intros Hp. unfold employer_entry.
  destruct (Dict.get ekey by_employer) as [[|p ps]|]; try (eexists; reflexivity).
  specialize (Hp _ eq_refl). apply start_dates_read in Hp.
  destruct (map _ (filter _ (p :: ps))) as [|o l] eqn:Hsd.
  - cbn [bind]. destruct (_ || _); eexists; reflexivity.
  - destruct (py_min (somes (o :: l))) eqn:Hmin.
    + cbn [bind]. destruct (_ || _); eexists; reflexivity.
    + exfalso. apply (somes_nonempty (o :: l)); [discriminate | assumption |].
      unfold py_min in Hmin. now destruct (somes (o :: l)).
Qed.

(** What an entry that the body of the loop returns is made of. *)
Lemma employer_entry_inv (kv : string * employer) (e : experience_entry) :
  employer_entry E lang by_employer kv = Ok (Some e) ->
  Dict.get (fst kv) by_employer = Some (ex_projects e) /\
  ex_projects e <> [] /\
  ex_employer e = tr lang (em_name (snd kv)) /\
  exists emp_start emp_end,
    ex_start e = _fmt_ym emp_start /\
    ex_end e = _fmt_ym emp_end /\
    ex_duration_months e =
      _months_between emp_start (Some (date_or emp_end (today E))) /\
    (existsb end_open (ex_projects e) = true -> emp_end = None).
Proof.
  destruct kv as [ekey emp]. cbn [fst snd]. unfold employer_entry.
  destruct (Dict.get ekey by_employer) as [[|p ps]|]; try discriminate.
  set (projects := p :: ps).
  destruct (match map _ (filter _ projects) with [] => _ | _ :: _ => _ end)
    as [emp_start|m] eqn:Hstart; [|discriminate].
  cbn [bind].
  destruct (existsb end_open projects
            || match map _ (filter _ projects) with [] => true | _ => false end)
    eqn:Hopen; intros H; injection H as <-; cbn.
  - repeat split; try discriminate.
    exists emp_start, None. repeat split.
  - repeat split; try discriminate.
    eexists emp_start, _. repeat split.
    intros Hany. apply orb_false_iff in Hopen. destruct Hopen as [Hopen _].
    subst projects. cbn [existsb] in Hopen. congruence.
Qed.

Lemma employers_loop_returns (employers : pydict employer) :
  (forall kv, In kv employers -> exists r, employer_entry E lang by_employer kv = Ok r) ->
  exists es, employers_loop E lang by_employer employers = Ok es.
Proof.
  induction employers as [|kv rest IH]; intros H; [eexists; reflexivity |].
  cbn [employers_loop].
  destruct (H kv (or_introl eq_refl)) as [r ->]. cbn [bind].
  destruct IH as [es ->]; [intros kv' Hin; apply H; now right |].
  cbn [bind]. eexists; reflexivity.
Qed.

(** The list the loop returns holds the entries of the employers, one
    for every employer whose round did not [continue]. *)
Lemma employers_loop_In (employers : pydict employer) : forall es,
  employers_loop E lang by_employer employers = Ok es ->
  forall e, In e es <->
    exists kv, In kv employers /\ employer_entry E lang by_employer kv = Ok (Some e).
Proof.
  induction employers as [|kv rest IH]; intros es H e.
  - injection H as <-. split; [intros [] | intros (kv & [] & _)].
  - cbn [employers_loop] in H.
    destruct (employer_entry E lang by_employer kv) as [r|m] eqn:Hkv; [|discriminate].
    cbn [bind] in H.
    destruct (employers_loop E lang by_employer rest) as [es'|m] eqn:Hrest;
      [|discriminate].
    cbn [bind] in H. injection H as <-. specialize (IH es' eq_refl e).
    split.
    + intros Hin. destruct r as [x|].
      * destruct Hin as [<-|Hin].
        -- exists kv. split; [now left | assumption].
        -- apply IH in Hin. destruct Hin as (kv' & Hin' & He).
           exists kv'. split; [now right | assumption].
      * apply IH in Hin. destruct Hin as (kv' & Hin' & He).
        exists kv'. split; [now right | assumption].
    + intros (kv' & [<-|Hin'] & He).
      * rewrite Hkv in He. injection He as ->. now left.
      * assert (In e es') as Hin by (apply IH; eauto).
        destruct r; [now right | assumption].
Qed.

End EmployersLoop.

(** ** [expand_intermediate] as a whole *)

Lemma grow_None {A : Type} (l l' : list A) :
  grow None l = Some l' -> l' = l /\ l <> [].
Proof.
  destruct l as [|a l]; cbn [grow]; [discriminate |].
  intros H. injection H as <-. split; [reflexivity | discriminate].
Qed.

Lemma expand_inv (E : pyenv) (self : renderer) (out : intermediate) :
  expand_intermediate E self = Ok out ->
  let lang := resolve_lang (language self) in
  let registry := skills_registry (data self) in
  let st := projects_loop E lang registry (exclude_projects self)
              (projects_raw (data self)) in
  exists unsorted,
    employers_loop E lang (fst st) (employers_raw (data self)) = Ok unsorted /\
    im_experience out = sort_by_key (_sort_key E) unsorted /\
    im_skills out =
      map (group_out_of lang registry (snd st)) (skills_groups (data self)) /\
    im_metrics out = metrics_of E (im_experience out) /\
    im_lang out = lang.
Proof.
  intros H. cbv zeta. unfold expand_intermediate in H.
  destruct (projects_loop E (resolve_lang (language self))
              (skills_registry (data self)) (exclude_projects self)
              (projects_raw (data self))) as [by_employer skill_stats].
  cbn [fst snd].
  destruct (employers_loop E (resolve_lang (language self)) by_employer
              (employers_raw (data self))) as [unsorted|m]; [|discriminate].
  cbn [bind] in H. injection H as <-. exists unsorted. repeat split.
Qed.

(** With a clock and a date reader that stay in range,
    [expand_intermediate] returns. *)
Lemma expand_returns (E : pyenv) (self : renderer) :
  env_ok E -> exists out, expand_intermediate E self = Ok out.
Proof.
  intros HE. unfold expand_intermediate.
  set (lang := resolve_lang (language self)).
  set (registry := skills_registry (data self)).
  destruct (projects_loop E lang registry (exclude_projects self)
              (projects_raw (data self))) as [by_employer skill_stats] eqn:Hloop.
  destruct (employers_loop_returns E lang by_employer (employers_raw (data self)))
    as [es ->].
  - intros kv _. apply employer_entry_returns. intros l Hl.
    replace by_employer with
      (fst (projects_loop E lang registry (exclude_projects self)
              (projects_raw (data self)))) in Hl by now rewrite Hloop.
    rewrite by_employer_get in Hl. apply grow_None in Hl. destruct Hl as [-> _].
    now apply entries_for_printed.
  - cbn [bind]. eexists; reflexivity.
Qed.

Lemma In_sorted_experience (E : pyenv) (self : renderer) (out : intermediate)
    (e : experience_entry) :
  expand_intermediate E self = Ok out ->
  (In e (im_experience out) <->
   exists kv, In kv (employers_raw (data self)) /\
     experience_of_employer E self kv = Ok (Some e)).
Proof.
  intros H. destruct (expand_inv E self out H) as (unsorted & Hl & Hs & _).
  rewrite Hs. unfold experience_of_employer.
  rewrite <- (employers_loop_In _ _ _ _ _ Hl e).
  split; intros Hin.
  - eapply Permutation_in; [apply sort_perm | exact Hin].
  - eapply Permutation_in; [apply Permutation_sym, sort_perm | exact Hin].
Qed.

(** ** Kept and dropped projects *)

Lemma references_employer_iff (ekey : string) (kv : string * project) :
  references_employer ekey kv = true <-> pr_employer (snd kv) = Some ekey.
Proof.
  unfold references_employer. destruct (pr_employer (snd kv)) as [k|].
  - rewrite String.eqb_eq. split; congruence.
  - split; discriminate.
Qed.

Lemma In_entries_for (E : pyenv) (lang : string) (registry : pydict skill_meta)
    (excl : list string) (projects : pydict project) (ekey : string)
    (p : project_entry) :
  In p (entries_for E lang registry excl projects ekey) <->
  exists kv, In kv (kept_projects excl projects) /\
    pr_employer (snd kv) = Some ekey /\
    p = project_entry_of E lang registry (snd kv).
Proof.
  unfold entries_for. rewrite in_map_iff. split.
  - intros (kv & <- & Hin). apply filter_In in Hin. destruct Hin as [Hin Hr].
    exists kv. rewrite <- references_employer_iff. auto.
  - intros (kv & Hin & Hr & ->). exists kv. split; [reflexivity |].
    apply filter_In. rewrite references_employer_iff. auto.
Qed.

(** The project list of the entry of an employer, and when there is an
    entry. *)
Lemma experience_of_employer_projects (E : pyenv) (self : renderer)
    (kv : string * employer) (e : experience_entry) :
  experience_of_employer E self kv = Ok (Some e) ->
  ex_projects e =
    entries_for E (resolve_lang (language self)) (skills_registry (data self))
      (exclude_projects self) (projects_raw (data self)) (fst kv) /\
  ex_projects e <> [].
Proof.
  unfold experience_of_employer. intros H.
  apply employer_entry_inv in H. destruct H as (Hget & Hne & _).
  rewrite by_employer_get in Hget. apply grow_None in Hget.
  destruct Hget as [Heq _]. split; [exact Heq | exact Hne].
Qed.

Lemma experience_of_employer_some (E : pyenv) (self : renderer)
    (kv : string * employer) (p : string * project) :
  env_ok E ->
  In p (kept_projects (exclude_projects self) (projects_raw (data self))) ->
  pr_employer (snd p) = Some (fst kv) ->
  exists e, experience_of_employer E self kv = Ok (Some e).
Proof.
  intros HE Hin Hemp. unfold experience_of_employer.
  set (lang := resolve_lang (language self)).
  set (registry := skills_registry (data self)).
  set (by_employer := fst (projects_loop E lang registry (exclude_projects self)
                             (projects_raw (data self)))).
  assert (Hget : exists l, Dict.get (fst kv) by_employer = Some l /\ l <> [] /\
                           Forall entry_printed l).
  { subst by_employer. rewrite by_employer_get.
    pose proof (entries_for_printed E lang registry (exclude_projects self)
                  (projects_raw (data self)) (fst kv) HE) as Hpr.
    assert (Hmem : In (project_entry_of E lang registry (snd p))
              (entries_for E lang registry (exclude_projects self)
                 (projects_raw (data self)) (fst kv))).
    { apply In_entries_for. exists p. auto. }
    destruct (entries_for E lang registry (exclude_projects self)
                (projects_raw (data self)) (fst kv)) as [|x l]; [destruct Hmem |].
    exists (x :: l). repeat split; [discriminate | assumption]. }
  destruct Hget as (l & Hget & Hne & Hpr).
  destruct (employer_entry_returns E lang by_employer kv) as [r Hr].
  { intros l' Hl'. congruence. }
  destruct r as [e|]; [now exists e |].
  exfalso. destruct kv as [ekey emp]. cbn [fst] in Hget.
  unfold employer_entry in Hr. rewrite Hget in Hr.
  destruct l as [|x l]; [contradiction |].
  destruct (match map _ (filter _ (x :: l)) with [] => _ | _ :: _ => _ end);
    cbn [bind] in Hr; [|discriminate].
  destruct (_ || _); discriminate Hr.
Qed.

Lemma metrics_step_count (E : pyenv) (ps : list project_entry) :
  forall acc, snd (fold_left (metrics_step E) ps acc) = snd acc + Z.of_nat (List.length ps).
Proof.
  induction ps as [|p ps IH]; intros acc; cbn [fold_left List.length].
  - lia.
  - rewrite IH. destruct acc as [[a b] n]. cbn [metrics_step snd]. lia.
Qed.

Lemma metrics_projects_count (E : pyenv) (experience : list experience_entry) :
  m_projects (metrics_of E experience) =
  Z.of_nat (List.length (flat_map ex_projects experience)).
Proof.
  unfold metrics_of.
  assert (H : forall acc,
    snd (fold_left (fun acc e => fold_left (metrics_step E) (ex_projects e) acc)
                   experience acc)
    = snd acc + Z.of_nat (List.length (flat_map ex_projects experience))).
  { induction experience as [|e es IH]; intros acc; cbn [fold_left flat_map].
    - cbn. lia.
    - rewrite IH, metrics_step_count, length_app. lia. }
  specialize (H (None, None, 0)). unfold metrics_scan.
  destruct (fold_left
              (fun acc e => fold_left (metrics_step E) (ex_projects e) acc)
              experience (None, None, 0)) as [[a b] n].
  cbn [snd] in H. cbn [m_projects]. lia.
Qed.

(** C1. A project whose id is excluded, or whose employer reference is
    absent or empty, leaves no trace in what [expand_intermediate]
    returns: the result is the one for the document without these
    projects; the project list of every experience entry is the list of
    the entries of the kept projects that name its employer;
    [metrics.projects] counts the projects of these lists. An employer of
    the document has an entry in the experience list if and only if a
    kept project names it. *)
Theorem dropped_projects_leave_no_trace (E : pyenv) (self : renderer) :
  let excl := exclude_projects self in
  let lang := resolve_lang (language self) in
  let registry := skills_registry (data self) in
  let kept := kept_projects excl (projects_raw (data self)) in
  expand_intermediate E self = expand_intermediate E (with_projects self kept) /\
  (forall sid,
     Dict.get sid (snd (projects_loop E lang registry excl (projects_raw (data self)))) =
     Dict.get sid (snd (projects_loop E lang registry excl kept))) /\
  (forall out, expand_intermediate E self = Ok out ->
     (forall e, In e (im_experience out) ->
        exists kv, In kv (employers_raw (data self)) /\
          experience_of_employer E self kv = Ok (Some e) /\
          ex_projects e =
            entries_for E lang registry excl (projects_raw (data self)) (fst kv) /\
          forall p, In p (ex_projects e) ->
            exists kp, In kp kept /\ pr_employer (snd kp) = Some (fst kv) /\
              p = project_entry_of E lang registry (snd kp)) /\
     m_projects (im_metrics out) =
       Z.of_nat (List.length (flat_map ex_projects (im_experience out)))) /\
  (env_ok E ->
   (exists out, expand_intermediate E self = Ok out) /\
   forall out, expand_intermediate E self = Ok out ->
   forall kv, In kv (employers_raw (data self)) ->
     ((exists e, experience_of_employer E self kv = Ok (Some e) /\
                 In e (im_experience out)) <->
      (exists p, In p kept /\ pr_employer (snd p) = Some (fst kv)))).
Proof.
  intros excl lang registry kept.
  assert (Hloop : projects_loop E lang registry excl (projects_raw (data self)) =
                  projects_loop E lang registry excl kept).
  { unfold projects_loop. apply loop_skips_dropped. }
  split; [| split; [| split]].
  - unfold expand_intermediate, with_projects.
    cbn [data language exclude_projects skills_registry skills_groups
         projects_raw employers_raw].
    fold excl lang registry. now rewrite Hloop.
  - intros sid. now rewrite Hloop.
  - intros out Hout. split.
    + intros e He. apply (In_sorted_experience E self out e Hout) in He.
      destruct He as (kv & Hkv & Hent). exists kv.
      destruct (experience_of_employer_projects E self kv e Hent) as [Hps _].
      split; [exact Hkv |]. split; [exact Hent |]. split; [exact Hps |].
      intros p Hp. rewrite Hps in Hp. now apply In_entries_for in Hp.
    + destruct (expand_inv E self out Hout) as (_ & _ & _ & _ & Hm & _).
      rewrite Hm. apply metrics_projects_count.
  - intros HE. split; [now apply expand_returns |].
    intros out Hout kv Hkv. split.
    + intros (e & Hent & _).
      destruct (experience_of_employer_projects E self kv e Hent) as [Hps Hne].
      destruct (ex_projects e) as [|p ps] eqn:Hl; [contradiction |].
      assert (Hp : In p (entries_for E lang registry excl
                           (projects_raw (data self)) (fst kv)))
        by (unfold lang, registry, excl; rewrite <- Hps; now left).
      apply In_entries_for in Hp. destruct Hp as (kp & Hin & Hemp & _).
      now exists kp.
    + intros (p & Hin & Hemp).
      destruct (experience_of_employer_some E self kv p HE Hin Hemp) as [e He].
      exists e. split; [assumption |].
      apply (In_sorted_experience E self out e Hout). now exists kv.
Qed.

Lemma iso_ymd_valid (s : string) (d : date) :
  iso_ymd s = Some d -> valid_date d = true.
Proof.
  unfold iso_ymd, new_date. destruct (_ && _); [|discriminate].
  destruct (valid_date _) eqn:Hv; [|discriminate].
  intros H. now injection H as <-.
Qed.

Lemma sample_env_ok : env_ok sample_env.
Proof. split; [reflexivity | exact iso_ymd_valid]. Qed.

Lemma dropped_projects_witness :
  exists out,
    expand_intermediate sample_env sample_cv = Ok out /\
    (exists e, experience_of_employer sample_env sample_cv
                 ("acme", mk_employer (VStr "Acme")) = Ok (Some e) /\
               In e (im_experience out)) /\
    m_projects (im_metrics out) = 1.
Proof.
  destruct (dropped_projects_leave_no_trace sample_env sample_cv)
    as (_ & _ & Hcount & Hiff).
  eexists. split; [reflexivity |]. split.
  - apply (proj2 (Hiff sample_env_ok)); [reflexivity | cbn; auto |].
    exists ("p3", mk_project (VStr "Three") (Some "acme") (Some "2024-05-20")
                             (Some "present") ["py"]).
    split; [cbn; auto | reflexivity].
  - rewrite (proj2 (Hcount _ eq_refl)). reflexivity.
Defined.

(** ** Projects and employers without end *)

(** C5. A project whose end is absent, empty, one of the words [now],
    [present], [current], [ongoing], or unreadable has [None] as the
    [end] of its entry and a duration counted up to today. An employer
    of the document with such a kept project has an entry, among whose
    projects that one is; its [end] is [None] and its duration is counted
    from its start up to today. No duration in the result is negative. *)
Theorem ongoing_runs_to_today (E : pyenv) (self : renderer) (out : intermediate) :
  env_ok E ->
  expand_intermediate E self = Ok out ->
  let excl := exclude_projects self in
  let lang := resolve_lang (language self) in
  let registry := skills_registry (data self) in
  (_parse_date E None = None /\
   forall s, In s ("" :: sentinels) -> _parse_date E (Some s) = None) /\
  (forall pr, _parse_date E (pr_end pr) = None ->
     pe_end (project_entry_of E lang registry pr) = None /\
     pe_duration_months (project_entry_of E lang registry pr) =
       _months_between (_parse_date E (pr_start pr)) (Some (today E))) /\
  (forall kv p,
     In kv (employers_raw (data self)) ->
     In p (kept_projects excl (projects_raw (data self))) ->
     pr_employer (snd p) = Some (fst kv) ->
     _parse_date E (pr_end (snd p)) = None ->
     exists e,
       experience_of_employer E self kv = Ok (Some e) /\
       In e (im_experience out) /\
       In (project_entry_of E lang registry (snd p)) (ex_projects e) /\
       ex_end e = None /\
       exists emp_start,
         ex_start e = _fmt_ym emp_start /\
         ex_duration_months e = _months_between emp_start (Some (today E))) /\
  (forall e, In e (im_experience out) ->
     (forall n, ex_duration_months e = Some n -> 0 <= n) /\
     (forall p n, In p (ex_projects e) -> pe_duration_months p = Some n -> 0 <= n)).
Proof.
  intros HE Hout excl lang registry.
  split; [| split; [| split]].
  - split; [reflexivity |].
    intros s Hs. unfold sentinels in Hs. cbn [In] in Hs.
    destruct Hs as [<-|[<-|[<-|[<-|[<-|[]]]]]]; reflexivity.
  - intros pr Hend. rewrite entry_end, Hend.
    cbn [project_entry_of pe_duration_months]. rewrite Hend. split; reflexivity.
  - intros kv p Hkv Hp Hemp Hend.
    destruct (experience_of_employer_some E self kv p HE Hp Hemp) as [e He].
    exists e. split; [exact He |].
    split; [apply (In_sorted_experience E self out e Hout); now exists kv |].
    destruct (experience_of_employer_projects E self kv e He) as [Hps _].
    assert (Hin : In (project_entry_of E lang registry (snd p)) (ex_projects e)).
    { rewrite Hps. apply In_entries_for. exists p. auto. }
    split; [exact Hin |].
    unfold experience_of_employer in He. apply employer_entry_inv in He.
    destruct He as (_ & _ & _ & emp_start & emp_end & Hs & He & Hd & Hopen).
    assert (Hnone : emp_end = None).
    { apply Hopen. apply existsb_exists.
      exists (project_entry_of E lang registry (snd p)). split; [exact Hin |].
      unfold end_open. now rewrite entry_end, Hend. }
    subst emp_end. split; [exact He |]. exists emp_start. split; assumption.
  - intros e He. apply (In_sorted_experience E self out e Hout) in He.
    destruct He as (kv & _ & He). split.
    + intros n Hn. unfold experience_of_employer in He.
      apply employer_entry_inv in He.
      destruct He as (_ & _ & _ & emp_start & emp_end & _ & _ & Hd & _).
      rewrite Hd in Hn. now apply months_between_nonneg in Hn.
    + intros p n Hp Hn.
      destruct (experience_of_employer_projects E self kv e He) as [Hps _].
      rewrite Hps in Hp. apply In_entries_for in Hp.
      destruct Hp as (kp & _ & _ & ->).
      cbn [project_entry_of pe_duration_months] in Hn.
      now apply months_between_nonneg in Hn.
Qed.

Lemma ongoing_runs_to_today_witness :
  exists out e,
    expand_intermediate sample_env sample_cv = Ok out /\
    In e (im_experience out) /\ ex_end e = None /\
    ex_duration_months e = Some 30.
Proof.
  eexists.
  destruct (ongoing_runs_to_today sample_env sample_cv _ sample_env_ok eq_refl)
    as (_ & _ & Hemp & _).
  destruct (Hemp ("acme", mk_employer (VStr "Acme"))
              ("p3", mk_project (VStr "Three") (Some "acme") (Some "2024-05-20")
                                (Some "present") ["py"]))
    as (e & He & Hin & _ & Hend & _);
    [cbn; auto | cbn; auto | reflexivity | reflexivity |].
  exists e. split; [reflexivity |]. split; [exact Hin |]. split; [exact Hend |].
  vm_compute in He. injection He as <-. reflexivity.
Defined.

(** ** The order on dates *)

Ltac date_order :=
  unfold date_leb, date_ltb in *;
  repeat rewrite negb_true_iff in *; repeat rewrite negb_false_iff in *;
  bool_to_prop; lia.

Lemma date_leb_refl (a : date) : date_leb a a = true.
Proof. date_order. Qed.

Lemma date_leb_trans (a b c : date) :
  date_leb a b = true -> date_leb b c = true -> date_leb a c = true.
Proof. intros H1 H2. date_order. Qed.

Lemma date_ltb_leb (a b : date) : date_ltb a b = true -> date_leb a b = true.
Proof. intros H. date_order. Qed.

Lemma date_ltb_false_leb (a b : date) : date_ltb a b = false -> date_leb b a = true.
Proof. intros H. date_order. Qed.

(** ** Skill usage *)

Lemma somes_app {A : Type} (l1 l2 : list (option A)) :
  somes (l1 ++ l2) = (somes l1 ++ somes l2)%list.
Proof.
  induction l1 as [|[a|] l1 IH]; cbn [somes app]; [reflexivity | | exact IH].
  now rewrite IH.
Qed.

Lemma is_least_step (f : option date) (l : list date) (p : date) :
  is_least f l -> is_least (first_step (Some p) f) (l ++ [p])%list.
Proof.
  destruct f as [f|]; cbn [first_step is_least].
  - intros [Hin Hle]. destruct (date_ltb p f) eqn:Hlt; split.
    + apply in_or_app. right. now left.
    + intros x Hx. apply in_app_or in Hx. destruct Hx as [Hx|[<-|[]]].
      * eapply date_leb_trans; [apply date_ltb_leb; exact Hlt | now apply Hle].
      * apply date_leb_refl.
    + apply in_or_app. now left.
    + intros x Hx. apply in_app_or in Hx. destruct Hx as [Hx|[<-|[]]].
      * now apply Hle.
      * now apply date_ltb_false_leb.
  - intros ->. split; [now left |].
    intros x [<-|[]]. apply date_leb_refl.
Qed.

Lemma is_greatest_step (g : option date) (l : list date) (e : date) :
  is_greatest g l -> is_greatest (last_step e g) (l ++ [e])%list.
Proof.
  destruct g as [g|]; cbn [last_step is_greatest].
  - intros [Hin Hge]. destruct (date_ltb g e) eqn:Hlt; split.
    + apply in_or_app. right. now left.
    + intros x Hx. apply in_app_or in Hx. destruct Hx as [Hx|[<-|[]]].
      * eapply date_leb_trans; [now apply Hge | apply date_ltb_leb; exact Hlt].
      * apply date_leb_refl.
    + apply in_or_app. now left.
    + intros x Hx. apply in_app_or in Hx. destruct Hx as [Hx|[<-|[]]].
      * now apply Hge.
      * now apply date_ltb_false_leb.
  - intros ->. split; [now left |].
    intros x [<-|[]]. apply date_leb_refl.
Qed.

Lemma first_step_idem (ps f : option date) :
  first_step ps (first_step ps f) = first_step ps f.
Proof.
  destruct ps as [p|]; [|reflexivity]. destruct f as [f|]; cbn [first_step].
  - destruct (date_ltb p f) eqn:Hlt; cbn [first_step].
    + replace (date_ltb p p) with false by (symmetry; date_order). reflexivity.
    + now rewrite Hlt.
  - replace (date_ltb p p) with false by (symmetry; date_order). reflexivity.
Qed.

Lemma last_step_idem (e : date) (l : option date) :
  last_step e (last_step e l) = last_step e l.
Proof.
  destruct l as [l|]; cbn [last_step].
  - destruct (date_ltb l e) eqn:Hlt; cbn [last_step].
    + replace (date_ltb e e) with false by (symmetry; date_order). reflexivity.
    + now rewrite Hlt.
  - replace (date_ltb e e) with false by (symmetry; date_order). reflexivity.
Qed.

(** [pr_months] is the duration written out. *)
Lemma pr_months_duration (E : pyenv) (pr : project) :
  pr_months E pr = duration_of E pr.
Proof.
  unfold pr_months, duration_of.
  destruct (_parse_date E (pr_start pr)) as [s|]; [| reflexivity].
  destruct (_parse_date E (pr_end pr)) as [e|]; reflexivity.
Qed.

Section SkillUsage.
Variables (E : pyenv) (sid : string).

Let start_of (pr : project) : option date := _parse_date E (pr_start pr).
Let end_of (pr : project) : date := date_or (_parse_date E (pr_end pr)) (today E).

Lemma upd_fields (pr : project) (o : option skill_stat) :
  months_of (upd E pr o) = months_of o + pr_months E pr /\
  first_of (upd E pr o) = first_step (start_of pr) (first_of o) /\
  last_of (upd E pr o) = last_step (end_of pr) (last_of o).
Proof. destruct o as [st|]; repeat split. Qed.

(** [n + 1] updates with the same project: the months add up, the two
    dates are those of one update. *)
Lemma iter_upd_fields (pr : project) (n : nat) (o : option skill_stat) :
  months_of (Nat.iter (S n) (upd E pr) o)
    = months_of o + Z.of_nat (S n) * pr_months E pr /\
  first_of (Nat.iter (S n) (upd E pr) o) = first_step (start_of pr) (first_of o) /\
  last_of (Nat.iter (S n) (upd E pr) o) = last_step (end_of pr) (last_of o).
Proof.
  induction n as [|n IH].
  - cbn [Nat.iter nat_rect]. destruct (upd_fields pr o) as (Hm & Hf & Hl).
    repeat split; [lia | assumption | assumption].
  - rewrite Nat.iter_succ. destruct IH as (Hm & Hf & Hl).
    destruct (upd_fields pr (Nat.iter (S n) (upd E pr) o)) as (Hm' & Hf' & Hl').
    rewrite Hm', Hf', Hl', Hm, Hf, Hl, first_step_idem, last_step_idem.
    repeat split. lia.
Qed.

Lemma occurrences_zero (pr : project) (pid : string) :
  occurrences sid pr = 0%nat <-> uses_skill sid (pid, pr) = false.
Proof.
  unfold occurrences, uses_skill. cbn [snd].
  rewrite <- count_occ_not_In, <- mem_In.
  destruct (Text.mem sid (pr_skills pr)); split; congruence.
Qed.

Lemma skill_months_app (l1 l2 : pydict project) :
  skill_months E sid (l1 ++ l2)%list
  = skill_months E sid l1 + skill_months E sid l2.
Proof.
  unfold skill_months. induction l1 as [|kv l1 IH]; cbn [fold_right app]; lia.
Qed.

Lemma summarizes_step (o : option skill_stat) (l : pydict project)
    (kv : string * project) :
  summarizes E sid o l ->
  summarizes E sid (Nat.iter (occurrences sid (snd kv)) (upd E (snd kv)) o)
             (l ++ [kv])%list.
Proof.
  intros (Hm & Hf & Hl). destruct kv as [pid pr]. cbn [snd].
  unfold summarizes, skill_starts, skill_ends, skill_projects.
  rewrite skill_months_app, filter_app, !map_app, somes_app.
  cbn [filter]. destruct (occurrences sid pr) as [|n] eqn:Hocc.
  - apply (occurrences_zero pr pid) in Hocc as Huse. rewrite Huse.
    cbn [Nat.iter nat_rect map somes]. rewrite !app_nil_r.
    unfold skill_months at 2. cbn [fold_right snd]. rewrite Hocc.
    repeat split; [lia | assumption | assumption].
  - assert (Huse : uses_skill sid (pid, pr) = true).
    { destruct (uses_skill sid (pid, pr)) eqn:Hu; [reflexivity |].
      apply (occurrences_zero pr pid) in Hu. congruence. }
    rewrite Huse. destruct (iter_upd_fields pr n o) as (Hm' & Hf' & Hl').
    rewrite Hm', Hf', Hl', pr_months_duration. cbn [map snd].
    unfold skill_months at 2. cbn [fold_right snd]. rewrite Hocc.
    split; [lia |]. split.
    + fold (start_of pr). destruct (start_of pr) as [p|]; cbn [somes].
      * now apply is_least_step.
      * rewrite app_nil_r. exact Hf.
    + now apply is_greatest_step.
Qed.

Lemma summarizes_fold (ps : pydict project) : forall l o,
  summarizes E sid o l ->
  summarizes E sid
    (fold_left (fun o kv => Nat.iter (occurrences sid (snd kv)) (upd E (snd kv)) o)
               ps o)
    (l ++ ps)%list.
Proof.
  induction ps as [|kv ps IH]; intros l o H; cbn [fold_left].
  - now rewrite app_nil_r.
  - replace (l ++ kv :: ps)%list with ((l ++ [kv]) ++ ps)%list
      by now rewrite <- app_assoc.
    apply IH. now apply summarizes_step.
Qed.

(** The accumulator of the skill after the loop over the projects
    summarizes the kept ones. *)
Lemma loop_summarizes (lang : string) (registry : pydict skill_meta)
    (excl : list string) (projects : pydict project) :
  summarizes E sid
    (Dict.get sid (snd (projects_loop E lang registry excl projects)))
    (kept_projects excl projects).
Proof.
  unfold projects_loop. rewrite loop_stats. cbn [snd Dict.get].
  apply (summarizes_fold (kept_projects excl projects) [] None).
  repeat split.
Qed.

Lemma spec_months_when_listed_once (ps : pydict project) :
  (forall kv, In kv ps -> (occurrences sid (snd kv) <= 1)%nat) ->
  skill_months E sid ps = spec_skill_months E sid ps.
Proof.
  unfold skill_months, spec_skill_months, skill_projects.
  induction ps as [|[pid pr] ps IH]; intros H; [reflexivity |].
  cbn [fold_right filter snd].
  rewrite IH by (intros kv Hkv; apply H; now right).
  specialize (H (pid, pr) (or_introl eq_refl)). cbn [snd] in H.
  destruct (occurrences sid pr) as [|[|n]] eqn:Hocc; [| | lia].
  - apply (occurrences_zero pr pid) in Hocc. rewrite Hocc. lia.
  - destruct (uses_skill sid (pid, pr)) eqn:Hu.
    + cbn [fold_right snd]. lia.
    + apply (occurrences_zero pr pid) in Hu. congruence.
Qed.

End SkillUsage.

(** C8, as the code has it. For a skill of a group of the output:
    [months] is the sum of the durations of the kept projects, each
    counted once for every occurrence of the skill in its skill list (so
    it is the sum over the projects that reference the skill when no list
    names the skill twice), the duration of a project being the months
    from its start to its end, with today for an end that is absent or
    not a date, and zero without a concrete start ([duration_of]);
    [first_used] prints the least concrete start
    of the kept projects that list the skill, and is [None] without one;
    [last_used] prints the greatest end of these projects, today standing
    in for a missing end; [years] is [months / 12] rounded to one
    decimal. *)
Theorem skill_annotation (E : pyenv) (self : renderer) (out : intermediate) :
  expand_intermediate E self = Ok out ->
  let kept := kept_projects (exclude_projects self) (projects_raw (data self)) in
  forall g it, In g (im_skills out) -> In it (go_items g) ->
    let sid := si_id (ai_item it) in
    ai_months it = skill_months E sid kept /\
    ((forall kv, In kv kept -> (occurrences sid (snd kv) <= 1)%nat) ->
     ai_months it = spec_skill_months E sid kept) /\
    (exists first,
       is_least first (skill_starts E sid kept) /\
       ai_first_used it = _fmt_ym first) /\
    (exists last,
       is_greatest last (skill_ends E sid kept) /\
       ai_last_used it = _fmt_ym last) /\
    ai_years10 it = round_half_even (10 * ai_months it) 12.
Proof.
  intros Hout kept g it Hg Hit.
  destruct (expand_inv E self out Hout) as (_ & _ & _ & Hskills & _).
  rewrite Hskills in Hg. apply in_map_iff in Hg. destruct Hg as (g0 & <- & _).
  cbn [group_out_of go_items] in Hit. apply in_map_iff in Hit.
  destruct Hit as (sid0 & <- & _).
  cbn [annotate_item ai_item skill_item_of si_id ai_months ai_first_used
       ai_last_used ai_years10].
  pose proof (loop_summarizes E sid0 (resolve_lang (language self))
                (skills_registry (data self)) (exclude_projects self)
                (projects_raw (data self))) as (Hm & Hf & Hl).
  fold kept in Hm, Hf, Hl.
  set (st := Dict.get sid0 _) in *.
  assert (Hmonths : match st with Some s => st_months s | None => 0 end
                    = skill_months E sid0 kept) by exact Hm.
  split; [exact Hmonths |].
  split; [intros Hocc; rewrite Hmonths; now apply spec_months_when_listed_once |].
  split; [exists (first_of st); split; [exact Hf | now destruct st] |].
  split; [exists (last_of st); split; [exact Hl | now destruct st] |].
  destruct (Z.eqb_spec (match st with Some s => st_months s | None => 0 end) 0)
    as [->|_]; reflexivity.
Qed.

Lemma skill_annotation_witness :
  (exists out g it,
     expand_intermediate sample_env six_and_four = Ok out /\
     In g (im_skills out) /\ In it (go_items g) /\
     si_id (ai_item it) = "py" /\ ai_months it = 10 /\
     ai_months it =
       spec_skill_months sample_env "py"
         (kept_projects (exclude_projects six_and_four)
                        (projects_raw (data six_and_four)))) /\
  (exists out g it,
     expand_intermediate sample_env sample_cv = Ok out /\
     In g (im_skills out) /\ In it (go_items g) /\
     si_id (ai_item it) = "py" /\
     today sample_env = mkdate 2026 11 4 /\
     ai_months it = 29 /\ ai_first_used it = Some "2024-05" /\
     ai_last_used it = Some "2026-11" /\
     ai_months it =
       skill_months sample_env "py"
         (kept_projects (exclude_projects sample_cv) (projects_raw (data sample_cv)))).
Proof.
  split.
  - eexists. eexists. eexists.
    split; [reflexivity |]. split; [now left |]. split; [now left |].
    split; [reflexivity |].
    destruct (skill_annotation sample_env six_and_four _ eq_refl _ _
                (or_introl eq_refl) (or_introl eq_refl)) as (Hm & Hspec & _).
    split.
    + rewrite Hm. reflexivity.
    + apply Hspec. intros kv [<-|[<-|[]]]; vm_compute; lia.
  - eexists. eexists. eexists.
    split; [reflexivity |]. split; [now left |]. split; [now left |].
    split; [reflexivity |]. split; [reflexivity |]. split; [reflexivity |].
    split; [reflexivity |]. split; [reflexivity |].
    exact (proj1 (skill_annotation sample_env sample_cv _ eq_refl _ _
                    (or_introl eq_refl) (or_introl eq_refl))).
Defined.

(** C8, as the specification words it, fails: a project of six months
    whose skill list names the skill twice adds twelve months to it, while
    the durations of the projects that reference the skill sum up to
    six. *)
Lemma skill_months_counterexample :
  exists out g it,
    expand_intermediate sample_env skill_listed_twice = Ok out /\
    In g (im_skills out) /\ In it (go_items g) /\
    si_id (ai_item it) = "py" /\
    ai_months it = 12 /\
    spec_skill_months sample_env "py"
      (kept_projects (exclude_projects skill_listed_twice)
                     (projects_raw (data skill_listed_twice))) = 6 /\
    ai_months it <>
    spec_skill_months sample_env "py"
      (kept_projects (exclude_projects skill_listed_twice)
                     (projects_raw (data skill_listed_twice))).
Proof.
  eexists. eexists. eexists.
  split; [reflexivity |]. split; [now left |]. split; [now left |].
  split; [reflexivity |]. split; [reflexivity |]. split; [reflexivity |].
  vm_compute. discriminate.
Qed.

(** ** The order of the experience list *)

Lemma StronglySorted_split {A : Type} (R : A -> A -> Prop) (l1 : list A) :
  forall x l2, StronglySorted R (l1 ++ x :: l2) ->
  (forall y, In y l1 -> R y x) /\ (forall z, In z l2 -> R x z).
Proof.
  induction l1 as [|a l1 IH]; intros x l2 Hs; cbn [app] in Hs.
  - apply StronglySorted_inv in Hs. destruct Hs as [_ Hall].
    rewrite Forall_forall in Hall. split; [intros y [] | exact Hall].
  - apply StronglySorted_inv in Hs. destruct Hs as [Hs Hall].
    destruct (IH x l2 Hs) as [H1 H2]. split; [|exact H2].
    intros y [<-|Hy]; [|now apply H1].
    rewrite Forall_forall in Hall. apply Hall. apply in_or_app. right. now left.
Qed.

Lemma lex_geb_end_month (E : pyenv) (a b : experience_entry) :
  lex_geb (chrono_key E a) (chrono_key E b) = true ->
  month_leb (end_month E b) (end_month E a) = true.
Proof.
  unfold chrono_key, end_month, lex_geb, month_leb. cbn [fst snd].
  intros H. bool_to_prop. lia.
Qed.

(** C6, as the code has it. The experience list holds the entries of the
    employers in descending order of the tuple
    [(end.year, end.month, start.year, start.month)], in which today
    stands in for an absent end and the end so obtained for an absent
    start. The entries in front of an entry without end finish in the
    current month or later, the entries behind it in the current month or
    earlier. *)
Theorem experience_sorted (E : pyenv) (self : renderer) (out : intermediate) :
  expand_intermediate E self = Ok out ->
  descending (chrono_key E) (im_experience out) /\
  (forall l1 e l2, im_experience out = (l1 ++ e :: l2)%list -> ex_end e = None ->
     (forall e', In e' l1 ->
        month_leb (year (today E), month (today E)) (end_month E e') = true) /\
     (forall e', In e' l2 ->
        month_leb (end_month E e') (year (today E), month (today E)) = true)).
Proof.
  intros H. destruct (expand_inv E self out H) as (unsorted & _ & Hs & _).
  assert (Hd : descending (chrono_key E) (im_experience out)).
  { rewrite Hs. unfold descending.
    eapply StronglySorted_ind with
      (P := StronglySorted (fun a b => lex_geb (chrono_key E a) (chrono_key E b) = true));
      [ constructor | | apply (sort_sorted (_sort_key E) unsorted) ].
    intros a l _ IH Hall. constructor; [exact IH |].
    rewrite Forall_forall in *. intros x Hx.
    rewrite <- sort_key_chrono. now apply Hall. }
  split; [exact Hd |].
  intros l1 e l2 Hsplit Hend. unfold descending in Hd. rewrite Hsplit in Hd.
  apply StronglySorted_split in Hd. destruct Hd as [H1 H2].
  assert (He : end_month E e = (year (today E), month (today E))).
  { unfold end_month. rewrite Hend. reflexivity. }
  rewrite <- He. split; intros e' He'.
  - apply lex_geb_end_month. now apply H1.
  - apply lex_geb_end_month. now apply H2.
Qed.

Lemma experience_sorted_witness :
  exists out,
    expand_intermediate sample_env two_engagements = Ok out /\
    descending (chrono_key sample_env) (im_experience out).
Proof.
  eexists. split; [reflexivity |].
  apply (experience_sorted sample_env two_engagements). reflexivity.
Defined.

(** C6, as the specification words it, fails: with today's date put in
    for the absent start, the entry that ends in March 2027 and has no
    start would have to follow the one that ends in the same month and
    starts in December 2026; the code puts it in front. *)
Lemma experience_order_counterexample :
  exists out,
    expand_intermediate sample_env two_engagements = Ok out /\
    ~ descending (spec_chrono_key sample_env) (im_experience out).
Proof.
  eexists. split; [reflexivity |].
  intros Hd. apply StronglySorted_inv in Hd. destruct Hd as [_ Hall].
  apply Forall_inv in Hall. vm_compute in Hall. discriminate Hall.
Qed.

(** ** The end of [render] *)

Lemma append_assoc (a b c : string) : (a ++ b) ++ c = a ++ b ++ c.
Proof. induction a as [|x a IH]; cbn; [reflexivity | now rewrite IH]. Qed.




Lemma nonempty_length (s : string) : s <> "" -> (0 <? String.length s)%nat = true.
Proof. destruct s; [now intros H | reflexivity]. Qed.

Lemma bytes_or_falsy (o : option bytes) : bytes_truthy o = false -> bytes_or o "" = "".
Proof.
  destruct o as [b|]; cbn [bytes_truthy bytes_or]; [| reflexivity].
  intros Hb. apply negb_false_iff in Hb. now rewrite Hb.
Qed.

Lemma bytes_or_truthy (b : bytes) : b <> "" -> bytes_or (Some b) "" = b.
Proof.
  intros Hb. cbn [bytes_or]. destruct (String.eqb_spec b ""); [contradiction | reflexivity].
Qed.


(** With the status file there and not empty, the code follows the
    rule. *)
Lemma resolve_exit_code_file (T : pytext) (res : run_result) (b : bytes) :
  Dict.get "exit.code" (outputs res) = Some b -> b <> "" ->
  resolve_exit_code T res = spec_exit_code T res /\
  (forall n, int_of_bytes T b = Some n -> resolve_exit_code T res = n) /\
  (int_of_bytes T b = None ->
   resolve_exit_code T res = match returncode res with Some n => n | None => 0 end).
Proof.
  intros Hb Hne. unfold resolve_exit_code, spec_exit_code. rewrite Hb.
  cbn [bytes_or]. destruct (String.eqb_spec b "") as [->|_]; [contradiction |].
  split; [reflexivity |]. split.
  - intros n ->. reflexivity.
  - intros ->. reflexivity.
Qed.

(** Without the status file, or with an empty one, the code reads the
    literal [b'0'] and does not look at the return code. *)
Lemma resolve_exit_code_no_file (T : pytext) (res : run_result) :
  bytes_truthy (Dict.get "exit.code" (outputs res)) = false ->
  int_of_bytes T "0" = Some 0 ->
  resolve_exit_code T res = 0.
Proof.
  intros Hf H0. unfold resolve_exit_code.
  destruct (Dict.get "exit.code" (outputs res)) as [b|]; cbn [bytes_or].
  - cbn [bytes_truthy] in Hf. apply negb_false_iff in Hf. rewrite Hf.
    now rewrite H0.
  - now rewrite H0.
Qed.

(** Outside [render]: on a result without status file and with a return
    code other than zero, the resolution gives zero where the rule of
    the comment gives the return code. [run_in_docker] never returns
    such a result, see [run_in_docker_returncode]. *)
Lemma missing_status_file_resolves_to_zero :
  Dict.get "exit.code" (outputs sample_no_status_file) = None /\
  returncode sample_no_status_file = Some 3 /\
  resolve_exit_code ascii_text sample_no_status_file = 0 /\
  spec_exit_code ascii_text sample_no_status_file = 3.
Proof. repeat split. Qed.







(** ** [run_in_docker]: collecting the outputs *)

Lemma fold_result_invariant {A B : Type} (P : A -> Prop) (f : A -> B -> result A)
    (l : list B) :
  (forall a x a', P a -> f a x = Ok a' -> P a') ->
  forall a a', P a -> fold_result f l a = Ok a' -> P a'.
Proof.
  intros Hstep. induction l as [|x l IH]; intros a a' Ha H; cbn [fold_result] in H.
  - now injection H as <-.
  - destruct (f a x) as [a1|m] eqn:Hf; [|discriminate]. cbn [bind] in H.
    eapply IH; [eapply Hstep; eassumption | exact H].
Qed.

(** What the body establishes for its element still holds at the end of
    the loop, when later rounds keep it. *)
Lemma fold_result_each {A B : Type} (Q : B -> A -> Prop) (f : A -> B -> result A)
    (l : list B) :
  (forall a x a', f a x = Ok a' -> Q x a') ->
  (forall y a x a', Q y a -> f a x = Ok a' -> Q y a') ->
  forall a a', fold_result f l a = Ok a' -> forall x, In x l -> Q x a'.
Proof.
  intros Hnew Hkeep. induction l as [|y l IH]; intros a a' H x Hx; [destruct Hx |].
  cbn [fold_result] in H.
  destruct (f a y) as [a1|m] eqn:Hf; [|discriminate]. cbn [bind] in H.
  destruct Hx as [<-|Hx]; [| now apply (IH a1 a' H)].
  apply (fold_result_invariant (Q y) f l (Hkeep y) a1 a'); [| exact H].
  eapply Hnew; eassumption.
Qed.

Lemma fold_result_returns {A B : Type} (f : A -> B -> result A) (l : list B) :
  (forall a x, exists a', f a x = Ok a') ->
  forall a, exists a', fold_result f l a = Ok a'.
Proof.
  intros Hf. induction l as [|x l IH]; intros a; cbn [fold_result].
  - eexists; reflexivity.
  - destruct (Hf a x) as [a1 ->]. cbn [bind]. apply IH.
Qed.

Lemma prefix_app (a b : string) : String.prefix a (a ++ b) = true.
Proof.
  induction a as [|c a IH]; cbn [append String.prefix]; [now destruct b |].
  destruct (ascii_dec c c) as [_|Hne]; [exact IH | now elim Hne].
Qed.

Lemma drop_app (a b : string) : Path.drop (String.length a) (a ++ b) = b.
Proof. induction a as [|c a IH]; [reflexivity | exact IH]. Qed.

Lemma rel_pattern_mounted (p : string) : rel_pattern ("/workspace/" ++ p) = Some p.
Proof.
  unfold rel_pattern. change (mount_dir ++ "/") with "/workspace/".
  rewrite prefix_app.
  change (String.length mount_dir + 1)%nat with (String.length "/workspace/").
  now rewrite drop_app.
Qed.


Lemma rel_pattern_relative (p : string) :
  String.prefix "/" p = false -> rel_pattern p = Some p.
Proof.
  intros Hp. unfold rel_pattern. change (mount_dir ++ "/") with "/workspace/".
  destruct (String.prefix "/workspace/" p) eqn:Hm; [| now rewrite Hp].
  destruct p as [|c p]; [discriminate Hm |].
  cbn [String.prefix] in Hm, Hp. destruct (ascii_dec "/" c); [| discriminate Hm].
  destruct p; discriminate Hp.
Qed.


Lemma fold_result_returns_in {A B : Type} (f : A -> B -> result A) (l : list B) :
  (forall a x, In x l -> exists a', f a x = Ok a') ->
  forall a, exists a', fold_result f l a = Ok a'.
Proof.
  induction l as [|x l IH]; intros Hf a; cbn [fold_result].
  - eexists; reflexivity.
  - destruct (Hf a x (or_introl eq_refl)) as [a1 ->]. cbn [bind].
    apply IH. intros a' y Hy. apply Hf. now right.
Qed.

(** The files of a walk, triple by triple. *)
Lemma walk_files_In (H : host) (m f : string) :
  In f (walk_files H m) <->
  exists root dirs files_in_dir name,
    In (root, dirs, files_in_dir) (walk H m) /\ In name files_in_dir /\
    f = Path.join root name.
Proof.
  unfold walk_files. rewrite in_flat_map. split.
  - intros ([[root dirs] fs] & Hw & Hf). cbn [fst snd] in Hf.
    apply in_map_iff in Hf. destruct Hf as (name & <- & Hn).
    now exists root, dirs, fs, name.
  - intros (root & dirs & fs & name & Hw & Hn & ->).
    exists (root, dirs, fs). split; [exact Hw |]. cbn [fst snd].
    apply in_map. exact Hn.
Qed.

Section Collect.
Variables (H : host) (tmpdir : string).















End Collect.


(** ** [run_in_docker]: writing the input files *)

Lemma lstrip_char_head (a : ascii) (s : string) :
  match Text.lstrip_char a s with
  | String c _ => Ascii.eqb c a = false
  | EmptyString => True
  end.
Proof.
  induction s as [|c s IH]; cbn [Text.lstrip_char]; [exact I |].
  destruct (Ascii.eqb c a) eqn:Hc; [exact IH | exact Hc].
Qed.

Lemma prefix_char (a : ascii) (s : string) :
  String.prefix (String a EmptyString) s =
  match s with String c _ => Ascii.eqb a c | EmptyString => false end.
Proof.
  destruct s as [|c s]; cbn [String.prefix]; [reflexivity |].
  destruct (ascii_dec a c) as [->|Hne].
  - rewrite Ascii.eqb_refl. now destruct s.
  - symmetry. now apply Ascii.eqb_neq.
Qed.

(** The normalized key is absolute exactly when the key, without its
    leading slashes, begins with a backslash. *)
Lemma normalize_key_abs (key : string) :
  String.prefix "/" (normalize_key key) =
  String.prefix "\" (Text.lstrip_char "/" key).
Proof.
  unfold normalize_key. pose proof (lstrip_char_head "/" key) as Hh.
  rewrite !prefix_char.
  destruct (Text.lstrip_char "/" key) as [|c s]; [reflexivity |].
  unfold Text.replace_char. cbn [Text.map_chars].
  destruct (Ascii.eqb_spec c "\") as [->|Hne]; [reflexivity |].
  rewrite Ascii.eqb_sym, Hh. symmetry. apply Ascii.eqb_neq. congruence.
Qed.

Lemma join_relative (a b : string) :
  String.prefix "/" b = false -> a <> "" -> Path.ends_with_slash a = false ->
  Path.join a b = a ++ "/" ++ b.
Proof.
  intros Hb Ha Hs. unfold Path.join. rewrite Hb, Hs.
  destruct (String.eqb_spec a "") as [->|_]; [contradiction | reflexivity].
Qed.

Lemma materialize_app (tmpdir : string) (l1 l2 : pydict content) :
  materialize tmpdir (l1 ++ l2)%list
  = (materialize tmpdir l1 ++ materialize tmpdir l2)%list.
Proof. unfold materialize. apply flat_map_app. Qed.

(** What the loop over [files] does. For every key the parent
    directories of [os.path.join(tmpdir, rel)] are made and the content
    is written to that path, [rel] being the key without its leading
    slashes and with every backslash turned into a slash: bytes as they
    are, [None] as the empty text, anything else as its text, in UTF-8.
    When [rel] does not begin with a slash, which is when the key without
    its leading slashes does not begin with a backslash, the path is
    [tmpdir/rel], inside the workspace, as for [/a/b]; otherwise the path
    is [rel] itself. *)
Lemma materialize_contract (tmpdir : string) :
  (forall key c files, In (key, c) files ->
     exists before after,
       materialize tmpdir files =
         (before
          ++ [MakeDirs (Path.dirname (Path.join tmpdir (normalize_key key)));
              write_op (Path.join tmpdir (normalize_key key)) c]
          ++ after)%list) /\
  (forall key,
     normalize_key key = Text.replace_char "\" "/" (Text.lstrip_char "/" key)) /\
  (forall key,
     String.prefix "\" (Text.lstrip_char "/" key) = false ->
     tmpdir <> "" -> Path.ends_with_slash tmpdir = false ->
     Path.join tmpdir (normalize_key key) = spec_host_path tmpdir key) /\
  (forall key,
     String.prefix "\" (Text.lstrip_char "/" key) = true ->
     Path.join tmpdir (normalize_key key) = normalize_key key /\
     Path.is_abs (normalize_key key) = true) /\
  (tmpdir <> "" -> Path.ends_with_slash tmpdir = false ->
   Path.join tmpdir (normalize_key "/a/b") = tmpdir ++ "/a/b") /\
  (forall path b, write_op path (CBytes b) = WriteBytes path b) /\
  (forall path text, write_op path (CText text) = WriteText path text) /\
  (forall path, write_op path CNone = WriteText path "").
Proof.
  split; [| split; [| split; [| split; [| split]]]].
  - intros key c files Hin. apply in_split in Hin. destruct Hin as (l1 & l2 & ->).
    exists (materialize tmpdir l1), (materialize tmpdir l2).
    rewrite materialize_app. reflexivity.
  - reflexivity.
  - intros key Hrel Hne Hs. unfold spec_host_path.
    apply join_relative; [| assumption | assumption].
    now rewrite normalize_key_abs.
  - intros key Habs. rewrite <- normalize_key_abs in Habs.
    unfold Path.join, Path.is_abs. rewrite Habs. split; reflexivity.
  - intros Hne Hs. now apply join_relative.
  - repeat split.
Qed.

Lemma materialize_contract_example :
  Path.join sample_tmpdir (normalize_key "/a/b") = "/tmp/cv-work-k3/a/b" /\
  Path.join sample_tmpdir (normalize_key "fonts\lato.sty")
    = spec_host_path sample_tmpdir "fonts\lato.sty" /\
  exists before after,
    materialize sample_tmpdir [("main.tex", CText "\documentclass{article}");
                               ("/a/b", CBytes "x")] =
      (before ++ [MakeDirs "/tmp/cv-work-k3/a"; WriteBytes "/tmp/cv-work-k3/a/b" "x"]
       ++ after)%list.
Proof.
  destruct (materialize_contract sample_tmpdir) as (Hops & _ & Hin & _ & Hab & _).
  split; [apply Hab; [discriminate | reflexivity] |].
  split; [apply Hin; [reflexivity | discriminate | reflexivity] |].
  apply (Hops "/a/b" (CBytes "x")). right. now left.
Defined.

(** C10. Every key of [files] is to be written at its normalized path
    inside the workspace. The key [\a] is not: it has no leading slash
    to strip, its backslash becomes a slash, and [os.path.join] then
    drops the workspace, so that the content goes to [/a] on the host,
    while a key with a leading slash, such as [/a], stays inside. *)
Theorem materialize_backslash_escapes :
  materialize sample_tmpdir [("/a", CBytes "x")]
    = [MakeDirs "/tmp/cv-work-k3"; WriteBytes "/tmp/cv-work-k3/a" "x"] /\
  materialize sample_tmpdir [("\a", CBytes "x")]
    = [MakeDirs "/"; WriteBytes "/a" "x"] /\
  spec_host_path sample_tmpdir "\a" = "/tmp/cv-work-k3//a" /\
  String.prefix (sample_tmpdir ++ "/") "/a" = false /\
  ~ In (WriteBytes (spec_host_path sample_tmpdir "\a") "x")
       (materialize sample_tmpdir [("\a", CBytes "x")]).
Proof.
  split; [reflexivity |].
  split; [reflexivity |]. split; [reflexivity |]. split; [reflexivity |].
  cbn. intros [H|[H|[]]]; discriminate H.
Qed.

(** Calls that were all carried out. *)
Lemma carry_out_none (H : host) (ops : list fs_op) : forall done w,
  carry_out H done ops = (w, None) -> w = (done ++ ops)%list.
Proof.
  induction ops as [|op ops IH]; intros done w; cbn [carry_out].
  - intros Hw. injection Hw as <-. now rewrite app_nil_r.
  - destruct (raises_always op || negb (accepts H done op)); [discriminate |].
    intros Hw. rewrite (IH _ _ Hw), <- app_assoc. reflexivity.
Qed.

(** What stands behind a result of [run_in_docker]. *)
Lemma run_in_docker_inv (H : host) (docker_found dockerfile_found : bool)
    (df_path image_tag tmpdir : string) (build_proc run_proc : completed)
    (files : pydict content) (outputs_wanted : list string)
    (written : list fs_op) (res : run_result) :
  run_in_docker H docker_found dockerfile_found df_path image_tag tmpdir
    build_proc run_proc files outputs_wanted = (written, Ok res) ->
  docker_found = true /\ dockerfile_found = true /\
  cp_returncode build_proc = 0 /\
  carry_out H [] (materialize tmpdir files) = (written, None) /\
  cp_returncode run_proc = 0 /\
  exists c,
    collect_outputs H tmpdir outputs_wanted = Ok c /\
    res = {| stdout := cp_stdout run_proc;
             stderr := cp_stderr run_proc;
             outputs := c;
             image := image_tag;
             returncode := Some (cp_returncode run_proc);
             build_stdout := cp_stdout build_proc;
             build_stderr := cp_stderr build_proc |}.
Proof.
  unfold run_in_docker.
  destruct docker_found; [|discriminate]. cbn [negb].
  destruct dockerfile_found; [|discriminate]. cbn [negb].
  destruct (Z.eqb_spec (cp_returncode build_proc) 0) as [Hb|]; [|discriminate].
  cbn [negb].
  destruct (carry_out H [] (materialize tmpdir files)) as [w [m|]]; [discriminate |].
  destruct (Z.eqb_spec (cp_returncode run_proc) 0) as [Hr|]; [|discriminate].
  cbn [negb].
  destruct (collect_outputs H tmpdir outputs_wanted) as [c|m]; [|discriminate].
  cbn [bind]. intros Hrun. injection Hrun as -> <-.
  repeat (split; [reflexivity || assumption |]). exists c. split; reflexivity.
Qed.

(** [run_in_docker] returns only after a run that ended with code zero,
    and hands that code on. *)
Lemma run_in_docker_returncode (H : host) (docker_found dockerfile_found : bool)
    (df_path image_tag tmpdir : string) (build_proc run_proc : completed)
    (files : pydict content) (outputs_wanted : list string) (res : run_result) :
  snd (run_in_docker H docker_found dockerfile_found df_path image_tag tmpdir
         build_proc run_proc files outputs_wanted) = Ok res ->
  returncode res = Some 0.
Proof.
  destruct (run_in_docker H docker_found dockerfile_found df_path image_tag tmpdir
              build_proc run_proc files outputs_wanted) as [w r] eqn:Hrun.
  cbn [snd]. intros ->.
  destruct (run_in_docker_inv _ _ _ _ _ _ _ _ _ _ _ _ Hrun)
    as (_ & _ & _ & _ & Hr & c & _ & ->).
  cbn [returncode]. now rewrite Hr.
Qed.

(** A call that raises on every host ends the loop over [files]: the
    calls after it are not carried out and the method raises. *)
Lemma carry_out_stops (H : host) (ops1 : list fs_op) (op : fs_op) (ops2 : list fs_op) :
  raises_always op = true ->
  forall done, exists w m,
    carry_out H done (ops1 ++ op :: ops2) = (w, Some m) /\
    exists ops, (done ++ ops1 = w ++ ops)%list.
Proof.
  intros Hop. induction ops1 as [|o ops1 IH]; intros done; cbn [app carry_out].
  - rewrite Hop. cbn [orb]. eexists. eexists. split; [reflexivity |].
    exists []. reflexivity.
  - destruct (raises_always o || negb (accepts H done o)).
    + eexists. eexists. split; [reflexivity |]. exists (o :: ops1). reflexivity.
    + destruct (IH (done ++ [o])%list) as (w & m & Hc & ops & Hops).
      exists w, m. split; [exact Hc |]. exists ops.
      rewrite <- Hops, <- app_assoc. reflexivity.
Qed.

(** A key that ends in a slash names a directory: [open] raises, the
    files after it are not written and the container does not run. *)
Lemma directory_key_raises :
  run_in_docker sample_host true true "/srv/cv/Dockerfile" "cv:latest" sample_tmpdir
    (mk_completed 0 "" "") (mk_completed 0 "" "")
    [("a/", CBytes "x"); ("main.tex", CText "\documentclass{cv}")] ["main.pdf"]
  = ([MakeDirs "/tmp/cv-work-k3/a"], Raise "OSError: /tmp/cv-work-k3/a/") /\
  run_in_docker sample_host true true "/srv/cv/Dockerfile" "cv:latest" sample_tmpdir
    (mk_completed 0 "" "") (mk_completed 0 "" "")
    [("", CNone)] ["main.pdf"]
  = ([MakeDirs "/tmp/cv-work-k3"], Raise "OSError: /tmp/cv-work-k3/").
Proof. split; reflexivity. Qed.

(** On a host that accepts the calls, the key [\a] is written to [/a],
    outside the temporary directory, and the method goes on. *)
Lemma backslash_key_written :
  fst (run_in_docker sample_host true true "/srv/cv/Dockerfile" "cv:latest"
         sample_tmpdir (mk_completed 0 "" "") (mk_completed 0 "" "")
         [("\a", CBytes "x")] ["main.pdf"])
  = [MakeDirs "/"; WriteBytes "/a" "x"].
Proof. reflexivity. Qed.

(** ** The exit status that [render] resolves *)

Lemma returned_returncode (res : run_result) : returned res -> returncode res = Some 0.
Proof.
  intros (H & df & tf & dfp & tag & tmp & bp & rp & files & outs & written & Hrun).
  apply (run_in_docker_returncode H df tf dfp tag tmp bp rp files outs).
  now rewrite Hrun.
Qed.

(** C7. The exit status [render] resolves, for an interpreter that reads
    [0] as zero and does not read the empty text as an integer. When the
    status file [exit.code] is among the outputs and reads as an integer,
    that integer is the status. When the file is absent or does not read
    as an integer, the status is the return code of the container: on a
    result that [run_in_docker] has returned, which is what [render]
    works on, that code is zero and so is the status; and a file that is
    there, not empty and unreadable gives the return code on any result.
    Without a return code the status is zero. On every result that
    [run_in_docker] returns the status is therefore the one of the rule:
    status file, else return code, else zero. *)
Theorem exit_status_rule (T : pytext) (res : run_result) :
  int_of_bytes T "0" = Some 0 -> int_of_bytes T "" = None ->
  let file := Dict.get "exit.code" (outputs res) in
  let status := resolve_exit_code T res in
  (forall b n, file = Some b -> int_of_bytes T b = Some n -> status = n) /\
  (returned res ->
     returncode res = Some 0 /\
     (file = None \/ (exists b, file = Some b /\ int_of_bytes T b = None) ->
      returncode res = Some status)) /\
  (forall b rc, file = Some b -> b <> "" -> int_of_bytes T b = None ->
     returncode res = Some rc -> status = rc) /\
  (returncode res = None ->
   file = None \/ (exists b, file = Some b /\ int_of_bytes T b = None) ->
   status = 0) /\
  (returned res \/ returncode res = None -> status = spec_exit_code T res).
Proof.
  intros H0 He file status.
  assert (Hnone : file = None -> status = 0).
  { intros Hf. apply resolve_exit_code_no_file; [| exact H0].
    fold file. now rewrite Hf. }
  assert (Hempty : file = Some "" -> status = 0).
  { intros Hf. apply resolve_exit_code_no_file; [| exact H0].
    fold file. now rewrite Hf. }
  assert (Hbad : forall b, file = Some b -> int_of_bytes T b = None ->
            returncode res = Some 0 \/ returncode res = None -> status = 0).
  { intros b Hf Hb Hrc. destruct (String.eqb_spec b "") as [->|Hne];
      [now apply Hempty |].
    destruct (resolve_exit_code_file T res b Hf Hne) as (_ & _ & Hfall).
    unfold status. rewrite (Hfall Hb). now destruct Hrc as [-> | ->]. }
  split; [| split; [| split; [| split]]].
  - intros b n Hf Hn. destruct (String.eqb_spec b "") as [->|Hne]; [congruence |].
    destruct (resolve_exit_code_file T res b Hf Hne) as (_ & Hint & _).
    now apply Hint.
  - intros Hret. pose proof (returned_returncode res Hret) as Hrc.
    split; [exact Hrc |]. intros [Hf|(b & Hf & Hb)]; rewrite Hrc; f_equal; symmetry.
    + now apply Hnone.
    + apply (Hbad b Hf Hb). now left.
  - intros b rc Hf Hne Hb Hrc.
    destruct (resolve_exit_code_file T res b Hf Hne) as (_ & _ & Hfall).
    unfold status. now rewrite (Hfall Hb), Hrc.
  - intros Hrc [Hf|(b & Hf & Hb)]; [now apply Hnone |].
    apply (Hbad b Hf Hb). now right.
  - intros Hres.
    assert (Hrc : returncode res = Some 0 \/ returncode res = None).
    { destruct Hres as [Hret|Hn]; [left; now apply returned_returncode | now right]. }
    assert (Hzero : match returncode res with Some n => n | None => 0 end = 0).
    { now destruct Hrc as [-> | ->]. }
    unfold spec_exit_code. fold file. destruct file as [b|] eqn:Hf.
    + destruct (int_of_bytes T b) as [n|] eqn:Hb.
      * destruct (String.eqb_spec b "") as [->|Hne]; [congruence |].
        destruct (resolve_exit_code_file T res b Hf Hne) as (_ & Hint & _).
        now apply Hint.
      * rewrite Hzero. now apply (Hbad b).
    + rewrite Hzero. now apply Hnone.
Qed.

Lemma exit_status_rule_witness :
  exists res,
    returned res /\
    Dict.get "exit.code" (outputs res) = Some ("1" ++ LF) /\
    returncode res = Some 0 /\
    resolve_exit_code ascii_text res = 1 /\
    resolve_exit_code ascii_text res = spec_exit_code ascii_text res.
Proof.
  exists sample_no_logs.
  assert (Hret : returned sample_no_logs).
  { exists sample_status_host, true, true, "/srv/cv/Dockerfile", "cv:latest",
           sample_tmpdir, (mk_completed 0 "Successfully built" ""),
           (mk_completed 0 "" "sh: 1: pdflatex: not found"),
           [("main.tex", CText "\documentclass{cv}")], render_outputs.
    eexists. reflexivity. }
  destruct (exit_status_rule ascii_text sample_no_logs eq_refl eq_refl)
    as (Hfile & Hrun & _ & _ & Hrule).
  split; [exact Hret |]. split; [reflexivity |].
  split; [exact (proj1 (Hrun Hret)) |].
  split; [apply (Hfile ("1" ++ LF)); reflexivity | apply Hrule; now left].
Defined.

(* ================================================================== *)
(** * Further properties of the code *)
(* ================================================================== *)

(** ** Language and dates *)

Lemma lower_letter (c : ascii) :
  Text.is_lower c = true ->
  Text.is_space c = false /\ Text.lower_char c = c /\ Ascii.eqb c "_" = false.
Proof.
  destruct c as [[] [] [] [] [] [] [] []]; vm_compute; intros H;
    try discriminate H; repeat split.
Qed.

Lemma match_two_letters_inv (s l : string) :
  match_two_letters s = Some l ->
  exists a b, l = String a (String b EmptyString) /\
    Text.is_lower a = true /\ Text.is_lower b = true.
Proof.
  destruct s as [|a [|b s]]; cbn [match_two_letters]; try discriminate.
  destruct (Text.is_lower a) eqn:Ha; [|discriminate].
  destruct (Text.is_lower b) eqn:Hb; [|discriminate].
  cbn [andb]. intros H. injection H as <-. now exists a, b.
Qed.

(** X1. The language code [expand_intermediate] works with is always two
    lower-case letters, whatever the attribute holds; resolving it again
    changes nothing; and the locale derived from it is one of the three
    of the table. *)
Theorem resolve_lang_two_letters (language : option string) :
  let l := resolve_lang language in
  String.length l = 2%nat /\
  Text.all_chars Text.is_lower l = true /\
  resolve_lang (Some l) = l /\
  In (_to_locale l) ["en_US"; "ru_RU"; "pl_PL"].
Proof.
  intros l.
  assert (Hl : exists a b, l = String a (String b EmptyString) /\
                 Text.is_lower a = true /\ Text.is_lower b = true).
  { unfold l, resolve_lang.
    destruct (match_two_letters _) as [r|] eqn:Hm.
    - now apply match_two_letters_inv in Hm.
    - exists "e"%char, "n"%char. repeat split. }
  destruct Hl as (a & b & -> & Ha & Hb).
  destruct (lower_letter a Ha) as (Sa & La & Ua).
  destruct (lower_letter b Hb) as (Sb & Lb & Ub).
  split; [reflexivity |].
  split; [cbn [Text.all_chars]; now rewrite Ha, Hb |].
  split.
  - unfold resolve_lang. cbn [String.eqb].
    unfold Text.strip. cbn [Text.lstrip]. rewrite Sa. cbn [Text.rstrip]. rewrite Sb.
    unfold Text.lower, Text.replace_char. cbn [Text.map_chars].
    rewrite La, Lb, Ua, Ub. cbn [match_two_letters]. now rewrite Ha, Hb.
  - unfold _to_locale. cbn [Dict.get].
    repeat match goal with
           | |- context [String.eqb ?x ?y] => destruct (String.eqb x y)
           end; cbn; auto.
Qed.

(** X2. What [_fmt_ym] prints for a date in range is seven characters
    long, [_parse_date] reads it back as the first day of the same month,
    and printing that date gives the same text again. *)
Theorem fmt_ym_parse_roundtrip (E : pyenv) (d : date) :
  valid_date d = true ->
  String.length (fmt_ym d) = 7%nat /\
  _parse_date E (_fmt_ym (Some d)) = Some (first_of_month d) /\
  _fmt_ym (_parse_date E (_fmt_ym (Some d))) = _fmt_ym (Some d).
Proof.
  intros Hv.
  destruct (fmt_ym_shape d Hv) as (a & b & c & e & f & g & Hs & _).
  split; [now rewrite Hs |].
  cbn [_fmt_ym option_map]. rewrite (parse_fmt_ym E d Hv).
  split; reflexivity.
Qed.

Lemma fmt_ym_parse_roundtrip_witness :
  _parse_date sample_env (_fmt_ym (Some (mkdate 2024 2 29)))
  = Some (mkdate 2024 2 1).
Proof.
  apply (proj1 (proj2 (fmt_ym_parse_roundtrip sample_env (mkdate 2024 2 29) eq_refl))).
Defined.

(** X3. [_parse_date] never returns a date out of range: whatever the
    text, a date it returns has a year from 1 to 9999, a month from 1 to
    12 and a day that exists in that month. A text such as [2020-13] or
    [2021-02-29] therefore reads as [None]. *)
Theorem parse_date_in_range (E : pyenv) (s : option string) (d : date) :
  env_ok E ->
  _parse_date E s = Some d ->
  1 <= year d <= 9999 /\ 1 <= month d <= 12 /\
  1 <= day d <= days_in_month (year d) (month d) /\
  days_in_month (year d) (month d) <= 31.
Proof.
  intros HE H. pose proof (parse_date_valid E s d HE H) as Hv.
  unfold valid_date in Hv. rewrite !andb_true_iff, !Z.leb_le in Hv.
  repeat split; try lia.
  unfold days_in_month.
  destruct (month d =? 2); [destruct (is_leap (year d)); lia |].
  destruct ((month d =? 4) || (month d =? 6) || (month d =? 9) || (month d =? 11)); lia.
Qed.

Lemma parse_date_in_range_witness :
  1 <= year (mkdate 2024 2 29) <= 9999 /\
  _parse_date sample_env (Some "2021-02-29") = None /\
  _parse_date sample_env (Some "2020-13") = None.
Proof.
  split; [| split; reflexivity].
  apply (parse_date_in_range sample_env (Some " 2024-02-29 ") (mkdate 2024 2 29)
           sample_env_ok eq_refl).
Defined.

(** X4. Between dates of the calendar in order, [_months_between] grows
    with the end, and splitting a span loses at most one month: for
    [a <= b <= c] the months from [a] to [b] are at most those from [a] to
    [c], and the months of the two parts add up to those of the whole or
    to one less. *)
Theorem months_between_split (a b c : date) :
  valid_date a = true -> valid_date b = true -> valid_date c = true ->
  date_leb a b = true -> date_leb b c = true ->
  exists x y z,
    _months_between (Some a) (Some b) = Some x /\
    _months_between (Some b) (Some c) = Some y /\
    _months_between (Some a) (Some c) = Some z /\
    x <= z /\ x + y <= z <= x + y + 1.
Proof.
  intros Va Vb Vc Hab Hbc. cbn [_months_between].
  apply valid_date_bounds in Va, Vb, Vc.
  eexists; eexists; eexists.
  split; [reflexivity |]. split; [reflexivity |]. split; [reflexivity |].
  assert (Hab' : year a < year b \/ year a = year b /\
            (month a < month b \/ month a = month b /\ day a <= day b))
    by (clear Hbc; date_order).
  assert (Hbc' : year b < year c \/ year b = year c /\
            (month b < month c \/ month b = month c /\ day b <= day c))
    by (clear Hab Hab'; date_order).
  clear Hab Hbc.
  destruct (Z.ltb_spec (day b) (day a)), (Z.ltb_spec (day c) (day b)),
           (Z.ltb_spec (day c) (day a)); cbv beta iota; lia.
Qed.

Lemma months_between_split_witness :
  exists x y z,
    _months_between (Some (mkdate 2020 1 31)) (Some (mkdate 2020 2 15)) = Some x /\
    _months_between (Some (mkdate 2020 2 15)) (Some (mkdate 2020 3 1)) = Some y /\
    _months_between (Some (mkdate 2020 1 31)) (Some (mkdate 2020 3 1)) = Some z /\
    x <= z /\ x + y <= z <= x + y + 1.
Proof.
  apply (months_between_split (mkdate 2020 1 31) (mkdate 2020 2 15) (mkdate 2020 3 1));
    reflexivity.
Defined.

(** X5. With a clock and a date reader that stay in range,
    [expand_intermediate] returns: the [min] over the starts of an
    employer's projects is never taken over an empty list, because a
    start the code printed reads back as a date. The result carries the
    resolved language and one group for every group of the document. *)
Theorem expand_intermediate_returns (E : pyenv) (self : renderer) :
  env_ok E ->
  exists out,
    expand_intermediate E self = Ok out /\
    im_lang out = resolve_lang (language self) /\
    List.length (im_skills out) = List.length (skills_groups (data self)).
Proof.
  intros HE. destruct (expand_returns E self HE) as [out Hout].
  exists out. split; [exact Hout |].
  destruct (expand_inv E self out Hout) as (_ & _ & _ & Hs & _ & Hl).
  split; [exact Hl |]. rewrite Hs. apply length_map.
Qed.

Lemma expand_intermediate_returns_witness :
  exists out, expand_intermediate sample_env sample_cv = Ok out /\
    im_lang out = "en".
Proof.
  destruct (expand_intermediate_returns sample_env sample_cv sample_env_ok)
    as (out & Hout & Hl & _).
  exists out. split; [exact Hout | exact Hl].
Defined.

(** ** The experience list: order of equal keys, counts *)

Lemma key_eqb_leb (k1 k2 k : sort_key) :
  key_eqb k1 k = true -> key_eqb k2 k = true -> key_leb k1 k2 = true.
Proof.
  destruct k1 as [[[a1 b1] c1] d1], k2 as [[[a2 b2] c2] d2], k as [[[a b] c] d].
  unfold key_eqb, key_leb. intros H1 H2. bool_to_prop. lia.
Qed.

Section Stable.
Context {A : Type} (key : A -> sort_key) (k : sort_key).

Let same (x : A) : bool := key_eqb (key x) k.

Lemma insert_keeps_order (x : A) (l : list A) :
  filter same (insert_by_key key x l) = filter same (x :: l).
Proof.
  induction l as [|y l IH]; [reflexivity |].
  cbn [insert_by_key]. destruct (key_leb (key x) (key y)) eqn:Hle; [reflexivity |].
  cbn [filter] in *. rewrite IH.
  destruct (same x) eqn:Hx, (same y) eqn:Hy; try reflexivity.
  unfold same in Hx, Hy. rewrite (key_eqb_leb _ _ _ Hx Hy) in Hle. discriminate.
Qed.

Lemma sort_keeps_order (l : list A) :
  filter same (sort_by_key key l) = filter same l.
Proof.
  induction l as [|x l IH]; [reflexivity |].
  cbn [sort_by_key]. rewrite insert_keeps_order. cbn [filter]. now rewrite IH.
Qed.

End Stable.

(** X6. The sort of the experience list loses and invents nothing, and
    it is stable: the list is a permutation of the entries built for the
    employers, and the entries that share a sort key stand in the order
    of their employers in the document. *)
Theorem experience_sort_stable (E : pyenv) (self : renderer) (out : intermediate) :
  expand_intermediate E self = Ok out ->
  exists unsorted,
    employers_loop E (resolve_lang (language self))
      (fst (projects_loop E (resolve_lang (language self))
              (skills_registry (data self)) (exclude_projects self)
              (projects_raw (data self))))
      (employers_raw (data self)) = Ok unsorted /\
    Permutation (im_experience out) unsorted /\
    forall k,
      filter (fun e => key_eqb (_sort_key E e) k) (im_experience out) =
      filter (fun e => key_eqb (_sort_key E e) k) unsorted.
Proof.
  intros H. destruct (expand_inv E self out H) as (unsorted & Hl & Hs & _).
  exists unsorted. split; [exact Hl |]. rewrite Hs.
  split; [apply sort_perm | intros k; apply sort_keeps_order].
Qed.

Lemma experience_sort_stable_witness :
  exists out, expand_intermediate sample_env two_engagements = Ok out /\
    List.length (im_experience out) = 2%nat.
Proof.
  eexists. split; [reflexivity |].
  destruct (experience_sort_stable sample_env two_engagements _ eq_refl)
    as (unsorted & Hl & Hp & _).
  rewrite (Permutation_length Hp).
  vm_compute in Hl. injection Hl as <-. reflexivity.
Defined.

Lemma filter_exclusive_length {A : Type} (f g : A -> bool) (l : list A) :
  (forall x, In x l -> f x = true -> g x = true -> False) ->
  List.length (filter (fun x => f x || g x) l) =
  (List.length (filter f l) + List.length (filter g l))%nat.
Proof.
  induction l as [|x l IH]; intros Hex; [reflexivity |].
  cbn [filter]. specialize (IH (fun y Hy => Hex y (or_intror Hy))).
  pose proof (Hex x (or_introl eq_refl)) as Hx.
  destruct (f x), (g x); cbn [orb List.length]; try lia.
Qed.

Lemma filter_nonempty_existsb {A : Type} (f : A -> bool) (l : list A) :
  match filter f l with [] => false | _ :: _ => true end = existsb f l.
Proof.
  induction l as [|x l IH]; [reflexivity |]. cbn [filter existsb].
  destruct (f x); [reflexivity | exact IH].
Qed.

Section Counts.
Variables (E : pyenv) (lang : string) (registry : pydict skill_meta).
Variables (excl : list string) (projects : pydict project).

Let by_employer := fst (projects_loop E lang registry excl projects).
Let kept := kept_projects excl projects.

(** The list filed under a key, empty when there is none. *)
Let filed (k : string) : list project_entry :=
  match Dict.get k by_employer with Some l => l | None => [] end.

Lemma filed_entries (k : string) :
  filed k = entries_for E lang registry excl projects k.
Proof.
  unfold filed, by_employer. rewrite by_employer_get.
  now destruct (entries_for E lang registry excl projects k).
Qed.

Lemma employer_entry_filed (kv : string * employer) (r : option experience_entry) :
  employer_entry E lang by_employer kv = Ok r ->
  match r with
  | Some e => ex_projects e = filed (fst kv) /\ filed (fst kv) <> []
  | None => filed (fst kv) = []
  end.
Proof.
  destruct r as [e|].
  - intros H. apply employer_entry_inv in H. destruct H as (Hget & Hne & _).
    unfold filed. rewrite Hget. split; [reflexivity | exact Hne].
  - destruct kv as [ekey emp]. cbn [fst]. unfold employer_entry, filed.
    destruct (Dict.get ekey by_employer) as [[|p ps]|]; try reflexivity.
    destruct (match map _ (filter _ (p :: ps)) with [] => _ | _ :: _ => _ end);
      cbn [bind]; [|discriminate].
    destruct (_ || _); discriminate.
Qed.

Lemma employers_loop_projects (employers : pydict employer) : forall es,
  employers_loop E lang by_employer employers = Ok es ->
  flat_map ex_projects es = flat_map (fun kv => filed (fst kv)) employers /\
  List.length es =
    List.length (filter (fun kv => match filed (fst kv) with [] => false | _ => true end)
                        employers).
Proof.
  induction employers as [|kv rest IH]; intros es H.
  - injection H as <-. split; reflexivity.
  - cbn [employers_loop] in H.
    destruct (employer_entry E lang by_employer kv) as [r|m] eqn:Hkv; [|discriminate].
    cbn [bind] in H.
    destruct (employers_loop E lang by_employer rest) as [es'|m]; [|discriminate].
    cbn [bind] in H. injection H as <-. destruct (IH es' eq_refl) as [IH1 IH2].
    apply employer_entry_filed in Hkv. cbn [flat_map filter].
    destruct r as [e|].
    + destruct Hkv as [Hp Hne]. cbn [flat_map List.length]. rewrite Hp, IH1.
      split; [reflexivity |].
      destruct (filed (fst kv)); [contradiction |]. cbn [List.length]. now rewrite IH2.
    + rewrite Hkv. cbn [app]. split; [exact IH1 | exact IH2].
Qed.

Lemma references_exclusive (employers : pydict employer) (k : string)
    (p : string * project) :
  ~ In k (map fst employers) ->
  references_employer k p = true ->
  existsb (fun ek => references_employer (fst ek) p) employers = true -> False.
Proof.
  intros Hk Hr Hex. apply existsb_exists in Hex. destruct Hex as (ek & Hin & Hr').
  apply references_employer_iff in Hr, Hr'. apply Hk.
  replace k with (fst ek) by congruence. now apply in_map.
Qed.

Lemma entries_count (employers : pydict employer) :
  NoDup (map fst employers) ->
  List.length (flat_map (fun kv => filed (fst kv)) employers) =
  List.length (filter (names_declared employers) kept).
Proof.
  induction employers as [|[k emp] rest IH]; intros Hnd.
  - cbn. unfold names_declared. cbn [existsb].
    induction kept as [|p l IHl]; [reflexivity | exact IHl].
  - cbn [map fst] in Hnd. apply NoDup_cons_iff in Hnd. destruct Hnd as [Hk Hnd].
    cbn [flat_map fst]. rewrite length_app, (IH Hnd), filed_entries.
    unfold entries_for. rewrite length_map. fold kept.
    unfold names_declared at 2. cbn [existsb fst].
    rewrite (filter_exclusive_length (references_employer k) (names_declared rest)).
    + reflexivity.
    + intros p _ Hr Hex. eapply references_exclusive; eassumption.
Qed.

Lemma filed_named (ek : string * employer) :
  match filed (fst ek) with [] => false | _ => true end = is_named kept ek.
Proof.
  rewrite filed_entries. unfold entries_for, is_named. fold kept.
  rewrite <- filter_nonempty_existsb.
  now destruct (filter (references_employer (fst ek)) kept).
Qed.

End Counts.

(** X7. What the metrics count. [metrics.companies] is the number of
    employers of the document that a kept project names. When no
    employer key occurs twice in the document, [metrics.projects] is the
    number of kept projects that name an employer of the document: a
    kept project whose employer is not declared is not counted. *)
Theorem metrics_counts (E : pyenv) (self : renderer) (out : intermediate) :
  expand_intermediate E self = Ok out ->
  let kept := kept_projects (exclude_projects self) (projects_raw (data self)) in
  let employers := employers_raw (data self) in
  m_companies (im_metrics out) =
    Z.of_nat (List.length (filter (is_named kept) employers)) /\
  m_companies (im_metrics out) = Z.of_nat (List.length (im_experience out)) /\
  (NoDup (map fst employers) ->
   m_projects (im_metrics out) =
     Z.of_nat (List.length (filter (names_declared employers) kept))).
Proof.
  intros H kept employers.
  destruct (expand_inv E self out H) as (unsorted & Hl & Hs & _ & Hm & _).
  pose proof (sort_perm (_sort_key E) unsorted) as Hperm. rewrite <- Hs in Hperm.
  destruct (employers_loop_projects E _ _ _ _ _ _ Hl) as [Hproj Hlen].
  assert (Hc : m_companies (im_metrics out) = Z.of_nat (List.length (im_experience out))).
  { rewrite Hm. unfold metrics_of.
    now destruct (metrics_scan E (im_experience out)) as [[a b] n]. }
  split; [| split; [exact Hc |]].
  - rewrite Hc, (Permutation_length Hperm), Hlen. f_equal.
    f_equal. apply filter_ext. intros ek. apply filed_named.
  - intros Hnd. rewrite Hm, metrics_projects_count.
    rewrite (Permutation_length (Permutation_flat_map ex_projects Hperm)), Hproj.
    f_equal. now apply entries_count.
Qed.

Lemma metrics_counts_witness :
  exists out, expand_intermediate sample_env sample_cv = Ok out /\
    m_companies (im_metrics out) = 1 /\ m_projects (im_metrics out) = 1.
Proof.
  eexists. split; [reflexivity |].
  destruct (metrics_counts sample_env sample_cv _ eq_refl) as (Hc & _ & Hp).
  split; [rewrite Hc; reflexivity |].
  rewrite Hp; [reflexivity |].
  cbn. repeat constructor; cbn; intuition discriminate.
Defined.

(** ** The span of an employer *)

Lemma fold_min_least (rest : list date) : forall d,
  In (fold_left date_min rest d) (d :: rest) /\
  forall x, In x (d :: rest) -> date_leb (fold_left date_min rest d) x = true.
Proof.
  induction rest as [|y rest IH]; intros d; cbn [fold_left].
  - split; [now left |]. intros x [<-|[]]. apply date_leb_refl.
  - destruct (IH (date_min d y)) as [Hin Hle]. split.
    + destruct Hin as [Hm|Hin]; [| right; now right].
      rewrite <- Hm. unfold date_min. destruct (date_ltb y d); [right | ]; now left.
    + intros x Hx.
      assert (Hd : date_leb (date_min d y) d = true /\ date_leb (date_min d y) y = true).
      { unfold date_min. destruct (date_ltb y d) eqn:Hlt.
        - split; [now apply date_ltb_leb | apply date_leb_refl].
        - split; [apply date_leb_refl | now apply date_ltb_false_leb]. }
      destruct Hd as [Hd Hy].
      pose proof (Hle (date_min d y) (or_introl eq_refl)) as Hm.
      destruct Hx as [<-|[<-|Hx]].
      * eapply date_leb_trans; eassumption.
      * eapply date_leb_trans; eassumption.
      * apply Hle. now right.
Qed.

Lemma fold_max_greatest (rest : list date) : forall d,
  In (fold_left date_max rest d) (d :: rest) /\
  forall x, In x (d :: rest) -> date_leb x (fold_left date_max rest d) = true.
Proof.
  induction rest as [|y rest IH]; intros d; cbn [fold_left].
  - split; [now left |]. intros x [<-|[]]. apply date_leb_refl.
  - destruct (IH (date_max d y)) as [Hin Hle]. split.
    + destruct Hin as [Hm|Hin]; [| right; now right].
      rewrite <- Hm. unfold date_max. destruct (date_ltb d y); [right | ]; now left.
    + intros x Hx.
      assert (Hd : date_leb d (date_max d y) = true /\ date_leb y (date_max d y) = true).
      { unfold date_max. destruct (date_ltb d y) eqn:Hlt.
        - split; [now apply date_ltb_leb | apply date_leb_refl].
        - split; [apply date_leb_refl | now apply date_ltb_false_leb]. }
      destruct Hd as [Hd Hy].
      pose proof (Hle (date_max d y) (or_introl eq_refl)) as Hm.
      destruct Hx as [<-|[<-|Hx]].
      * eapply date_leb_trans; eassumption.
      * eapply date_leb_trans; eassumption.
      * apply Hle. now right.
Qed.

Lemma py_min_least (l : list date) : is_least (py_min l) l.
Proof.
  destruct l as [|d rest]; [reflexivity |]. cbn [py_min is_least].
  apply fold_min_least.
Qed.

Lemma py_max_greatest (l : list date) : is_greatest (py_max l) l.
Proof.
  destruct l as [|d rest]; [reflexivity |]. cbn [py_max is_greatest].
  apply fold_max_greatest.
Qed.

Lemma In_somes {A : Type} (a : A) (l : list (option A)) :
  In a (somes l) <-> In (Some a) l.
Proof.
  induction l as [|[b|] l IH]; cbn [somes In]; [tauto | | ].
  - rewrite IH. split; intros [H|H]; auto; left; congruence.
  - rewrite IH. split; [auto | intros [H|H]; [discriminate | exact H]].
Qed.

Lemma start_choice (starts : list (option date)) (emp_start : option date) :
  match starts with
  | [] => Ok None
  | _ :: _ =>
      match py_min (somes starts) with
      | Some d => Ok (Some d)
      | None => Raise "ValueError: min() iterable argument is empty"
      end
  end = Ok emp_start ->
  emp_start = py_min (somes starts).
Proof.
  destruct starts as [|o l]; [intros H; now injection H as <- |].
  destruct (py_min (somes (o :: l))); [intros H; now injection H as <- | discriminate].
Qed.

Section Span.
Variable E : pyenv.

(** The dates read from one printed field of the entries, as the code
    collects them. *)
Let dates_of (field : project_entry -> option string) (l : list project_entry)
  : list date :=
  somes (map (fun p => _parse_date E (field p))
             (filter (fun p => text_truthy (field p)) l)).

Lemma In_dates_of (field : project_entry -> option string) (l : list project_entry)
    (d : date) :
  (forall p, In p l -> printed (field p)) ->
  (In d (dates_of field l) <->
   exists p, In p l /\ _parse_date E (field p) = Some d).
Proof.
  intros Hpr. unfold dates_of. rewrite In_somes, in_map_iff. split.
  - intros (p & Hp & Hin). apply filter_In in Hin. destruct Hin as [Hin _].
    now exists p.
  - intros (p & Hin & Hp). exists p. split; [exact Hp |].
    apply filter_In. split; [exact Hin |].
    rewrite (printed_truthy _ (Hpr p Hin)).
    pose proof (printed_parse E _ (Hpr p Hin)) as Hn. rewrite Hp in Hn.
    cbn [is_none] in Hn. now rewrite <- Hn.
Qed.

(** A date read from a printed field is the first of its month, and
    printing it gives the field again. *)
Lemma printed_read (s : option string) (d : date) :
  printed s -> _parse_date E s = Some d ->
  valid_date d = true /\ first_of_month d = d /\ s = Some (fmt_ym d).
Proof.
  intros (x & Hv & ->) H. destruct x as [x|]; [|discriminate H].
  cbn [_fmt_ym option_map] in *. rewrite (parse_fmt_ym E x (Hv x eq_refl)) in H.
  injection H as <-. pose proof (valid_date_bounds x (Hv x eq_refl)) as (By & Bm & _).
  split; [now apply first_of_month_valid |]. split; reflexivity.
Qed.

Lemma employer_entry_dates (lang : string) (by_employer : pydict (list project_entry))
    (kv : string * employer) (e : experience_entry) :
  employer_entry E lang by_employer kv = Ok (Some e) ->
  ex_start e = _fmt_ym (py_min (dates_of pe_start (ex_projects e))) /\
  (existsb end_open (ex_projects e) = false ->
   ex_end e = _fmt_ym (py_max (dates_of pe_end (ex_projects e)))).
Proof.
  destruct kv as [ekey emp]. unfold employer_entry, dates_of.
  destruct (Dict.get ekey by_employer) as [[|p ps]|]; try discriminate.
  set (projects := p :: ps).
  set (starts := map (fun p => _parse_date E (pe_start p))
                     (filter (fun p => text_truthy (pe_start p)) projects)).
  set (ends := map (fun p => _parse_date E (pe_end p))
                   (filter (fun p => text_truthy (pe_end p)) projects)).
  destruct (match starts with [] => _ | _ :: _ => _ end) as [emp_start|m] eqn:Hs;
    [|discriminate].
  apply start_choice in Hs. subst emp_start. cbn [bind].
  destruct (existsb end_open projects) eqn:Hopen; cbn [orb].
  - intros H. injection H as <-. cbn [ex_start ex_projects]. split; [reflexivity |].
    fold projects. rewrite Hopen. discriminate.
  - destruct ends as [|o l] eqn:Hends; intros H; injection H as <-;
      cbn [ex_start ex_end ex_projects]; (split; [reflexivity | intros _]).
    + fold projects ends. now rewrite Hends.
    + fold projects ends. now rewrite Hends.
Qed.

(** X8. The span of an employer covers its projects, month by month. The
    start of its entry is the earliest start month among its project
    entries, and is the [start] of one of them. When none of its
    projects is without end, its end is the latest end month among them,
    and is the [end] of one of them. *)
Theorem employer_span (self : renderer) (kv : string * employer)
    (e : experience_entry) :
  env_ok E ->
  experience_of_employer E self kv = Ok (Some e) ->
  (forall p d, In p (ex_projects e) -> _parse_date E (pe_start p) = Some d ->
     exists s, _parse_date E (ex_start e) = Some s /\ date_leb s d = true) /\
  (ex_start e <> None ->
     exists p, In p (ex_projects e) /\ pe_start p = ex_start e) /\
  (existsb end_open (ex_projects e) = false ->
     (forall p d, In p (ex_projects e) -> _parse_date E (pe_end p) = Some d ->
        exists t, _parse_date E (ex_end e) = Some t /\ date_leb d t = true) /\
     (ex_end e <> None ->
        exists p, In p (ex_projects e) /\ pe_end p = ex_end e)).
Proof.
  intros HE He.
  destruct (experience_of_employer_projects E self kv e He) as [Hps _].
  assert (Hpr : Forall entry_printed (ex_projects e)).
  { rewrite Hps. now apply entries_for_printed. }
  rewrite Forall_forall in Hpr.
  assert (Hprs : forall p, In p (ex_projects e) -> printed (pe_start p))
    by (intros p Hp; apply (Hpr p Hp)).
  assert (Hpre : forall p, In p (ex_projects e) -> printed (pe_end p))
    by (intros p Hp; apply (Hpr p Hp)).
  unfold experience_of_employer in He. apply employer_entry_dates in He.
  destruct He as [Hstart Hend].
  assert (Hread : forall field m,
    (forall p, In p (ex_projects e) -> printed (field p)) ->
    In m (dates_of field (ex_projects e)) ->
    _parse_date E (_fmt_ym (Some m)) = Some m /\
    exists p, In p (ex_projects e) /\ field p = _fmt_ym (Some m)).
  { intros field m Hfp Hm. apply (In_dates_of field _ m Hfp) in Hm.
    destruct Hm as (p & Hin & Hp).
    destruct (printed_read _ _ (Hfp p Hin) Hp) as (Hv & Hf & Hs).
    split; [cbn [_fmt_ym option_map]; rewrite (parse_fmt_ym E m Hv);
            unfold first_of_month in Hf; now rewrite Hf |].
    now exists p. }
  pose proof (py_min_least (dates_of pe_start (ex_projects e))) as Hmin.
  split; [| split].
  - intros p d Hp Hd.
    assert (Hin : In d (dates_of pe_start (ex_projects e)))
      by (apply (In_dates_of pe_start _ d Hprs); now exists p).
    destruct (py_min (dates_of pe_start (ex_projects e))) as [m|].
    + destruct Hmin as [Hm Hle]. exists m. rewrite Hstart.
      split; [apply (Hread pe_start m Hprs Hm) | now apply Hle].
    + cbn [is_least] in Hmin. now rewrite Hmin in Hin.
  - intros Hne. destruct (py_min (dates_of pe_start (ex_projects e))) as [m|].
    + destruct Hmin as [Hm _]. rewrite Hstart. apply (Hread pe_start m Hprs Hm).
    + now rewrite Hstart in Hne.
  - intros Hopen. specialize (Hend Hopen).
    pose proof (py_max_greatest (dates_of pe_end (ex_projects e))) as Hmax.
    split.
    + intros p d Hp Hd.
      assert (Hin : In d (dates_of pe_end (ex_projects e)))
        by (apply (In_dates_of pe_end _ d Hpre); now exists p).
      destruct (py_max (dates_of pe_end (ex_projects e))) as [m|].
      * destruct Hmax as [Hm Hge]. exists m. rewrite Hend.
        split; [apply (Hread pe_end m Hpre Hm) | now apply Hge].
      * cbn [is_greatest] in Hmax. now rewrite Hmax in Hin.
    + intros Hne. destruct (py_max (dates_of pe_end (ex_projects e))) as [m|].
      * destruct Hmax as [Hm _]. rewrite Hend. apply (Hread pe_end m Hpre Hm).
      * now rewrite Hend in Hne.
Qed.

End Span.

Lemma employer_span_witness :
  exists e p,
    experience_of_employer sample_env six_and_four
      ("acme", mk_employer (VStr "Acme")) = Ok (Some e) /\
    In p (ex_projects e) /\ pe_start p = ex_start e /\
    ex_start e = Some "2020-01".
Proof.
  eexists.
  destruct (employer_span sample_env six_and_four
              ("acme", mk_employer (VStr "Acme")) _ sample_env_ok eq_refl)
    as (_ & Hs & _).
  destruct Hs as (p & Hin & Hp); [discriminate |].
  exists p. split; [reflexivity |]. split; [exact Hin |]. split; [exact Hp | reflexivity].
Defined.

(** ** Skills no project lists *)

Lemma annotation_of_stats (E : pyenv) (self : renderer) (out : intermediate)
    (g : group_out) (it : annotated_item) :
  expand_intermediate E self = Ok out ->
  In g (im_skills out) -> In it (go_items g) ->
  exists o,
    summarizes E (si_id (ai_item it)) o
      (kept_projects (exclude_projects self) (projects_raw (data self))) /\
    ai_months it = months_of o /\
    ai_first_used it = _fmt_ym (first_of o) /\
    ai_last_used it = _fmt_ym (last_of o).
Proof.
  intros Hout Hg Hit.
  destruct (expand_inv E self out Hout) as (_ & _ & _ & Hskills & _).
  rewrite Hskills in Hg. apply in_map_iff in Hg. destruct Hg as (g0 & <- & _).
  cbn [group_out_of go_items] in Hit. apply in_map_iff in Hit.
  destruct Hit as (sid0 & <- & _).
  cbn [annotate_item ai_item skill_item_of si_id ai_months ai_first_used ai_last_used].
  exists (Dict.get sid0
            (snd (projects_loop E (resolve_lang (language self))
                    (skills_registry (data self)) (exclude_projects self)
                    (projects_raw (data self))))).
  split; [apply loop_summarizes |].
  destruct (Dict.get sid0 _); split; try split; reflexivity.
Qed.

Lemma annotation_years (E : pyenv) (self : renderer) (out : intermediate)
    (g : group_out) (it : annotated_item) :
  expand_intermediate E self = Ok out ->
  In g (im_skills out) -> In it (go_items g) ->
  ai_years10 it =
  if ai_months it =? 0 then 0 else round_half_even (10 * ai_months it) 12.
Proof.
  intros Hout Hg Hit.
  destruct (expand_inv E self out Hout) as (_ & _ & _ & Hskills & _).
  rewrite Hskills in Hg. apply in_map_iff in Hg. destruct Hg as (g0 & <- & _).
  cbn [group_out_of go_items] in Hit. apply in_map_iff in Hit.
  destruct Hit as (sid0 & <- & _). reflexivity.
Qed.

Lemma skill_months_unused (E : pyenv) (sid : string) (ps : pydict project) :
  skill_projects sid ps = [] -> skill_months E sid ps = 0.
Proof.
  unfold skill_projects, skill_months.
  induction ps as [|[pid pr] ps IH]; [reflexivity |]. cbn [filter fold_right snd].
  destruct (uses_skill sid (pid, pr)) eqn:Hu; [discriminate |].
  intros H. rewrite (IH H). apply (occurrences_zero sid pr pid) in Hu.
  rewrite Hu. reflexivity.
Qed.

Lemma filter_none {A : Type} (f : A -> bool) (l : list A) :
  (forall x, In x l -> f x = false) -> filter f l = [].
Proof.
  induction l as [|x l IH]; intros H; [reflexivity |]. cbn [filter].
  rewrite (H x (or_introl eq_refl)). apply IH. intros y Hy. apply H. now right.
Qed.

(** X9. A skill of a group that no kept project lists is annotated with
    zero months, zero years and no first or last use; the registry and
    the dropped projects make no difference to that. *)
Theorem skill_never_used (E : pyenv) (self : renderer) (out : intermediate)
    (g : group_out) (it : annotated_item) :
  expand_intermediate E self = Ok out ->
  In g (im_skills out) -> In it (go_items g) ->
  (forall kv,
     In kv (kept_projects (exclude_projects self) (projects_raw (data self))) ->
     uses_skill (si_id (ai_item it)) kv = false) ->
  ai_months it = 0 /\ ai_years10 it = 0 /\
  ai_first_used it = None /\ ai_last_used it = None.
Proof.
  intros Hout Hg Hit Hno.
  pose proof (annotation_years E self out g it Hout Hg Hit) as Hy.
  destruct (annotation_of_stats E self out g it Hout Hg Hit)
    as (o & (Hm & Hf & Hl) & Hmo & -> & ->).
  assert (He : skill_projects (si_id (ai_item it))
                 (kept_projects (exclude_projects self) (projects_raw (data self))) = []).
  { unfold skill_projects. now apply filter_none. }
  assert (Hz : ai_months it = 0).
  { rewrite Hmo, Hm. now apply skill_months_unused. }
  split; [exact Hz |].
  split; [now rewrite Hy, Hz |].
  unfold skill_starts in Hf. unfold skill_ends in Hl. rewrite He in Hf, Hl.
  cbn [map somes] in Hf, Hl.
  split.
  - destruct (first_of o) as [d|]; [destruct Hf as [[] _] | reflexivity].
  - destruct (last_of o) as [d|]; [destruct Hl as [[] _] | reflexivity].
Qed.

Lemma skill_never_used_witness :
  exists out g it,
    expand_intermediate sample_env sample_cv = Ok out /\
    In g (im_skills out) /\ In it (go_items g) /\
    si_id (ai_item it) = "sql" /\ ai_months it = 0 /\ ai_last_used it = None.
Proof.
  eexists. eexists. eexists.
  split; [reflexivity |]. split; [now left |]. split; [right; now left |].
  split; [reflexivity |].
  destruct (skill_never_used sample_env sample_cv _ _ _ eq_refl
              (or_introl eq_refl) (or_intror (or_introl eq_refl)))
    as (Hm & _ & _ & Hl).
  - intros kv [<-|[]]. reflexivity.
  - split; [exact Hm | exact Hl].
Defined.

Lemma round_half_even_near (n d : Z) :
  0 < d -> - d <= 2 * (d * round_half_even n d - n) <= d.
Proof.
  intros Hd. unfold round_half_even.
  pose proof (Z.div_mod n d) as Hdm. pose proof (Z.mod_pos_bound n d Hd) as Hb.
  destruct (Z.ltb_spec (2 * (n mod d)) d).
  - nia.
  - destruct (Z.ltb_spec d (2 * (n mod d))).
    + nia.
    + destruct (Z.even (n / d)); nia.
Qed.

Lemma pr_months_nonneg (E : pyenv) (pr : project) : 0 <= pr_months E pr.
Proof.
  unfold pr_months.
  destruct (_months_between _ _) as [n|] eqn:Hn; cbn [or_zero]; [| lia].
  now apply months_between_nonneg in Hn.
Qed.

Lemma skill_months_nonneg (E : pyenv) (sid : string) (ps : pydict project) :
  0 <= skill_months E sid ps.
Proof.
  unfold skill_months. induction ps as [|kv ps IH]; cbn [fold_right]; [lia |].
  pose proof (pr_months_nonneg E (snd kv)) as Hp.
  rewrite pr_months_duration in Hp. nia.
Qed.

(** X22. The usage of a skill in numbers. [months] is never negative;
    [years], given in tenths, is the tenth nearest to [months / 12], at
    most a twentieth of a year away from it; and it is zero only for a
    skill with zero months. *)
Theorem skill_years_close (E : pyenv) (self : renderer) (out : intermediate)
    (g : group_out) (it : annotated_item) :
  expand_intermediate E self = Ok out ->
  In g (im_skills out) -> In it (go_items g) ->
  0 <= ai_months it /\
  - 6 <= 12 * ai_years10 it - 10 * ai_months it <= 6 /\
  (ai_years10 it = 0 <-> ai_months it = 0).
Proof.
  intros Hout Hg Hit.
  pose proof (annotation_years E self out g it Hout Hg Hit) as Hy.
  destruct (annotation_of_stats E self out g it Hout Hg Hit)
    as (o & (Hm & _ & _) & Hmo & _ & _).
  assert (Hpos : 0 <= ai_months it).
  { rewrite Hmo, Hm. apply skill_months_nonneg. }
  pose proof (round_half_even_near (10 * ai_months it) 12 ltac:(lia)) as Hnear.
  destruct (Z.eqb_spec (ai_months it) 0) as [Hz|Hnz].
  - rewrite Hy, Hz. split; [lia |]. split; [lia |]. split; reflexivity.
  - rewrite Hy. split; [exact Hpos |]. split; [lia |]. split; [lia | contradiction].
Qed.

Lemma skill_years_close_witness :
  exists out g it,
    expand_intermediate sample_env six_and_four = Ok out /\
    In g (im_skills out) /\ In it (go_items g) /\
    ai_months it = 10 /\ ai_years10 it = 8 /\
    - 6 <= 12 * ai_years10 it - 10 * ai_months it <= 6.
Proof.
  eexists. eexists. eexists.
  split; [reflexivity |]. split; [now left |]. split; [now left |].
  split; [reflexivity |]. split; [reflexivity |].
  apply (skill_years_close sample_env six_and_four _ _ _ eq_refl
           (or_introl eq_refl) (or_introl eq_refl)).
Defined.

(** ** Names: the slug, the file stem, the image tag *)

Lemma prefix_dash (s : string) : String.prefix "-" s = head_is is_dash s.
Proof.
  rewrite prefix_char. destruct s as [|c s]; [reflexivity |].
  cbn [head_is]. unfold is_dash. apply Ascii.eqb_sym.
Qed.

Section Strip.
Variable p : ascii -> bool.

Lemma lstrip_if_head (s : string) : head_is p (lstrip_if p s) = false.
Proof.
  induction s as [|c s IH]; [reflexivity |]. cbn [lstrip_if].
  destruct (p c) eqn:Hc; [exact IH | cbn [head_is]; exact Hc].
Qed.

Lemma lstrip_if_all (q : ascii -> bool) (s : string) :
  Text.all_chars q s = true -> Text.all_chars q (lstrip_if p s) = true.
Proof.
  induction s as [|c s IH]; [reflexivity |]. cbn [lstrip_if Text.all_chars].
  intros H. apply andb_true_iff in H. destruct H as [Hc Hs].
  destruct (p c); [now apply IH | cbn [Text.all_chars]; now rewrite Hc, Hs].
Qed.

Lemma lstrip_if_id (s : string) : head_is p s = false -> lstrip_if p s = s.
Proof. destruct s as [|c s]; [reflexivity |]. cbn. now intros ->. Qed.

Lemma rstrip_if_cons (c : ascii) (s : string) :
  rstrip_if p (String c s) =
  match rstrip_if p s with
  | EmptyString => if p c then EmptyString else String c EmptyString
  | r => String c r
  end.
Proof. reflexivity. Qed.

Lemma rstrip_if_last (s : string) : last_is p (rstrip_if p s) = false.
Proof.
  induction s as [|c s IH]; [reflexivity |]. rewrite rstrip_if_cons.
  destruct (rstrip_if p s) as [|c' r].
  - destruct (p c) eqn:Hc; [reflexivity | cbn [last_is]; exact Hc].
  - exact IH.
Qed.

Lemma rstrip_if_head (q : ascii -> bool) (s : string) :
  head_is q s = false -> head_is q (rstrip_if p s) = false.
Proof.
  destruct s as [|c s]; [reflexivity |]. rewrite rstrip_if_cons. cbn [head_is].
  intros Hc. destruct (rstrip_if p s); [destruct (p c) |]; cbn [head_is]; auto.
Qed.

Lemma rstrip_if_head_of (q : ascii -> bool) (s : string) :
  head_is q (rstrip_if p s) = true -> head_is q s = true.
Proof.
  destruct (head_is q s) eqn:H; [reflexivity |].
  now rewrite (rstrip_if_head q s H).
Qed.

Lemma rstrip_if_all (q : ascii -> bool) (s : string) :
  Text.all_chars q s = true -> Text.all_chars q (rstrip_if p s) = true.
Proof.
  induction s as [|c s IH]; [reflexivity |]. rewrite rstrip_if_cons.
  cbn [Text.all_chars]. intros H. apply andb_true_iff in H. destruct H as [Hc Hs].
  specialize (IH Hs). destruct (rstrip_if p s).
  - destruct (p c); [reflexivity | cbn [Text.all_chars]; now rewrite Hc].
  - cbn [Text.all_chars] in *. now rewrite Hc, IH.
Qed.

Lemma rstrip_if_id (s : string) : last_is p s = false -> rstrip_if p s = s.
Proof.
  induction s as [|c s IH]; [reflexivity |]. rewrite rstrip_if_cons.
  destruct s as [|c' s'].
  - cbn [rstrip_if last_is]. now intros ->.
  - intros H. change (last_is p (String c (String c' s'))) with
      (last_is p (String c' s')) in H.
    rewrite (IH H). reflexivity.
Qed.

End Strip.

Lemma slug_char_ok (c : ascii) :
  is_slug_char (slug_char c) = true /\
  (is_slug_char c = true -> slug_char c = c) /\
  (is_slug_char c = true -> Ascii.eqb c "/" = false).
Proof.
  destruct c as [[] [] [] [] [] [] [] []]; vm_compute; repeat split;
    intros H; try reflexivity; discriminate H.
Qed.

Lemma map_slug_all (s : string) :
  Text.all_chars is_slug_char (Text.map_chars slug_char s) = true.
Proof.
  induction s as [|c s IH]; [reflexivity |]. cbn [Text.map_chars Text.all_chars].
  now rewrite (proj1 (slug_char_ok c)), IH.
Qed.

Lemma map_slug_id (s : string) :
  Text.all_chars is_slug_char s = true -> Text.map_chars slug_char s = s.
Proof.
  induction s as [|c s IH]; [reflexivity |]. cbn [Text.map_chars Text.all_chars].
  intros H. apply andb_true_iff in H. destruct H as [Hc Hs].
  now rewrite (proj1 (proj2 (slug_char_ok c)) Hc), IH.
Qed.

Lemma squeeze_head (s : string) :
  head_is is_dash (squeeze_dashes s) = head_is is_dash s.
Proof.
  induction s as [|c s IH]; [reflexivity |]. cbn [squeeze_dashes].
  rewrite prefix_dash.
  destruct (is_dash c) eqn:Hc, (head_is is_dash s) eqn:Hs; cbn [andb head_is];
    try reflexivity.
  now rewrite IH, Hc.
Qed.

Lemma squeeze_all (q : ascii -> bool) (s : string) :
  Text.all_chars q s = true -> Text.all_chars q (squeeze_dashes s) = true.
Proof.
  induction s as [|c s IH]; [reflexivity |]. cbn [squeeze_dashes Text.all_chars].
  intros H. apply andb_true_iff in H. destruct H as [Hc Hs].
  destruct (is_dash c && String.prefix "-" s); [now apply IH |].
  cbn [Text.all_chars]. now rewrite Hc, IH.
Qed.

Lemma squeeze_no_double (s : string) : no_double_dash (squeeze_dashes s) = true.
Proof.
  induction s as [|c s IH]; [reflexivity |]. cbn [squeeze_dashes].
  rewrite prefix_dash.
  destruct (is_dash c && head_is is_dash s) eqn:Hd; [exact IH |].
  cbn [no_double_dash]. now rewrite squeeze_head, Hd, IH.
Qed.

Lemma squeeze_id (s : string) : no_double_dash s = true -> squeeze_dashes s = s.
Proof.
  induction s as [|c s IH]; [reflexivity |]. cbn [squeeze_dashes no_double_dash].
  rewrite prefix_dash. intros H. apply andb_true_iff in H. destruct H as [Hd Hs].
  apply negb_true_iff in Hd. now rewrite Hd, IH.
Qed.

Lemma lstrip_no_double (p : ascii -> bool) (s : string) :
  no_double_dash s = true -> no_double_dash (lstrip_if p s) = true.
Proof.
  induction s as [|c s IH]; [reflexivity |]. cbn [lstrip_if].
  intros H. destruct (p c); [| exact H].
  apply IH. cbn [no_double_dash] in H. now apply andb_true_iff in H.
Qed.

Lemma rstrip_no_double (p : ascii -> bool) (s : string) :
  no_double_dash s = true -> no_double_dash (rstrip_if p s) = true.
Proof.
  induction s as [|c s IH]; [reflexivity |]. rewrite rstrip_if_cons.
  cbn [no_double_dash]. intros H. apply andb_true_iff in H. destruct H as [Hd Hs].
  specialize (IH Hs). pose proof (rstrip_if_head_of p is_dash s) as Hh.
  destruct (rstrip_if p s) as [|c' r].
  - destruct (p c); [reflexivity |]. cbn [no_double_dash head_is].
    now rewrite andb_false_r.
  - cbn [no_double_dash] in *. rewrite IH, andb_true_r.
    apply negb_true_iff in Hd. apply negb_true_iff.
    destruct (is_dash c); [| reflexivity]. cbn [andb] in *.
    destruct (head_is is_dash (String c' r)) eqn:Hc'; [| reflexivity].
    now rewrite (Hh eq_refl) in Hd.
Qed.

(** The slug before the default [cv] is put in. *)
Lemma slug_core_shape (s : string) :
  let r := strip_if is_dash (squeeze_dashes (Text.map_chars slug_char s)) in
  Text.all_chars is_slug_char r = true /\ head_is is_dash r = false /\
  last_is is_dash r = false /\ no_double_dash r = true.
Proof.
  intros r. unfold r, strip_if. repeat split.
  - apply rstrip_if_all, lstrip_if_all, squeeze_all, map_slug_all.
  - apply rstrip_if_head, lstrip_if_head.
  - apply rstrip_if_last.
  - apply rstrip_no_double, lstrip_no_double, squeeze_no_double.
Qed.

Lemma slugify_basic (s : string) :
  _slugify s <> "" /\ Text.all_chars is_slug_char (_slugify s) = true /\
  head_is is_dash (_slugify s) = false /\ last_is is_dash (_slugify s) = false /\
  no_double_dash (_slugify s) = true.
Proof.
  unfold _slugify. pose proof (slug_core_shape s) as (Ha & Hh & Hl & Hn).
  destruct (String.eqb_spec
              (strip_if is_dash (squeeze_dashes (Text.map_chars slug_char s))) "")
    as [_|Hne].
  - repeat split. discriminate.
  - repeat split; assumption.
Qed.

(** X10. The slug of a name is never empty, consists of digits,
    lower-case letters and single hyphens, neither begins nor ends with
    a hyphen, and is its own slug. *)
Theorem slugify_shape (s : string) :
  let r := _slugify s in
  r <> "" /\
  Text.all_chars is_slug_char r = true /\
  head_is is_dash r = false /\ last_is is_dash r = false /\
  no_double_dash r = true /\
  _slugify r = r.
Proof.
  intros r. destruct (slugify_basic s) as (Hne & Ha & Hh & Hl & Hn).
  fold r in Hne, Ha, Hh, Hl, Hn.
  repeat split; try assumption.
  unfold _slugify. rewrite (map_slug_id r Ha), (squeeze_id r Hn).
  unfold strip_if. rewrite (lstrip_if_id is_dash r Hh), (rstrip_if_id is_dash r Hl).
  destruct (String.eqb_spec r "") as [He|_]; [contradiction | reflexivity].
Qed.

Lemma slug_head_not_slash (r : string) :
  r <> "" -> Text.all_chars is_slug_char r = true ->
  forall rest, String.prefix "/" (r ++ rest) = false.
Proof.
  destruct r as [|c r]; [contradiction |]. intros _ Ha rest.
  cbn [Text.all_chars] in Ha. apply andb_true_iff in Ha. destruct Ha as [Hc _].
  cbn [append]. rewrite prefix_char.
  rewrite Ascii.eqb_sym. apply (proj2 (proj2 (slug_char_ok c)) Hc).
Qed.

(** X11. The stem of the file names begins with the slug of the base
    name and ends with today's date as [YYYY-MM-DD]; it never begins
    with a slash, so [os.path.join] keeps the output directory in front
    of the names of the artifact, the log and the source file. *)
Theorem stem_under_out_dir (basename : string) (config_hash language : option string)
    (today : date) (out_dir ext : string) :
  let stem := stem_of basename config_hash language today in
  (exists rest, stem = _slugify basename ++ "-" ++ rest) /\
  (exists front,
     stem = front ++ "-" ++ Text.fmt_0d 4 (year today) ++ "-"
              ++ Text.fmt_0d 2 (month today) ++ "-" ++ Text.fmt_0d 2 (day today)) /\
  String.prefix "/" (stem ++ ext) = false /\
  (out_dir <> "" -> Path.ends_with_slash out_dir = false ->
   Path.join out_dir (stem ++ ext) = out_dir ++ "/" ++ stem ++ ext).
Proof.
  intros stem.
  assert (Hrest : exists rest, stem = _slugify basename ++ "-" ++ rest).
  { unfold stem, stem_of. destruct config_hash as [h|];
      [destruct (String.eqb h "") |]; eexists; reflexivity. }
  assert (Habs : String.prefix "/" (stem ++ ext) = false).
  { destruct Hrest as [rest ->]. rewrite append_assoc.
    destruct (slugify_basic basename) as (Hne & Ha & _).
    now apply slug_head_not_slash. }
  split; [exact Hrest |]. split; [| split; [exact Habs |]].
  - unfold stem, stem_of. destruct config_hash as [h|]; [destruct (String.eqb h "") |].
    + exists (_slugify basename ++ "-" ++ lang_token language).
      now rewrite !append_assoc.
    + exists (_slugify basename ++ "-" ++ take 8 h ++ "-" ++ lang_token language).
      now rewrite !append_assoc.
    + exists (_slugify basename ++ "-" ++ lang_token language).
      now rewrite !append_assoc.
  - intros Hne Hs. now apply join_relative.
Qed.

Lemma stem_under_out_dir_witness :
  Path.join "out" (stem_of "Jane Doe" (Some "0123456789abcdef") (Some "ru_RU")
                     sample_today ++ ".pdf")
  = "out/jane-doe-01234567-ru-2026-11-04.pdf".
Proof.
  rewrite (proj2 (proj2 (proj2
    (stem_under_out_dir "Jane Doe" (Some "0123456789abcdef") (Some "ru_RU")
       sample_today "out" ".pdf")))); [reflexivity | discriminate | reflexivity].
Defined.

Lemma tag_char_kept (U : pychars) (c : ascii) : kept_in_tag U (tag_char U c) = true.
Proof.
  unfold tag_char.
  destruct (str_isalnum U c || Ascii.eqb c "-" || Ascii.eqb c "." || Ascii.eqb c "_")
    eqn:Hk; [exact Hk |].
  unfold kept_in_tag. now destruct (str_isalnum U "-").
Qed.

Lemma map_tag_kept (U : pychars) (s : string) :
  Text.all_chars (kept_in_tag U) (Text.map_chars (tag_char U) s) = true.
Proof.
  induction s as [|c s IH]; [reflexivity |].
  cbn [Text.map_chars Text.all_chars]. now rewrite tag_char_kept, IH.
Qed.

Lemma lower_char_ascii (c : ascii) :
  is_ascii c = true -> is_ascii (Text.lower_char c) = true.
Proof. destruct c as [[] [] [] [] [] [] [] []]; vm_compute; trivial. Qed.

Lemma lower_ascii (s : string) :
  Text.all_chars is_ascii s = true -> Text.all_chars is_ascii (Text.lower s) = true.
Proof.
  unfold Text.lower. induction s as [|c s IH]; [reflexivity |].
  cbn [Text.map_chars Text.all_chars]. intros Hs. apply andb_true_iff in Hs.
  destruct Hs as [Hc Hs]. now rewrite (lower_char_ascii c Hc), (IH Hs).
Qed.

Lemma tag_char_lowered (c : ascii) :
  is_tag_char
    (if is_alnum (Text.lower_char c) || Ascii.eqb (Text.lower_char c) "-"
        || Ascii.eqb (Text.lower_char c) "." || Ascii.eqb (Text.lower_char c) "_"
     then Text.lower_char c else "-"%char) = true.
Proof. destruct c as [[] [] [] [] [] [] [] []]; vm_compute; reflexivity. Qed.

Lemma map_tag_ascii (U : pychars) (s : string) :
  chars_ok U -> Text.all_chars is_ascii s = true ->
  Text.all_chars is_tag_char (Text.map_chars (tag_char U) (Text.lower s)) = true.
Proof.
  intros [Hal _]. unfold Text.lower. induction s as [|c s IH]; [reflexivity |].
  cbn [Text.map_chars Text.all_chars]. intros Hs. apply andb_true_iff in Hs.
  destruct Hs as [Hc Hs]. rewrite (IH Hs), andb_true_r.
  unfold tag_char. rewrite (Hal _ (lower_char_ascii c Hc)). apply tag_char_lowered.
Qed.

Lemma ascii_chars_ok : chars_ok ascii_chars.
Proof. split; reflexivity. Qed.

Lemma latin1_isalnum_ascii (c : ascii) :
  is_ascii c = true -> latin1_isalnum c = is_alnum c.
Proof. destruct c as [[] [] [] [] [] [] [] []]; vm_compute; trivial; discriminate. Qed.

Lemma latin1_lower_ascii (c : ascii) :
  is_ascii c = true -> latin1_lower_char c = Text.lower_char c.
Proof. destruct c as [[] [] [] [] [] [] [] []]; vm_compute; trivial; discriminate. Qed.

Lemma latin1_chars_ok : chars_ok latin1_chars.
Proof.
  split; [exact latin1_isalnum_ascii |].
  cbn [latin1_chars str_lower]. unfold Text.lower.
  induction s as [|c s IH]; [reflexivity |].
  cbn [Text.map_chars Text.all_chars]. intros Hs. apply andb_true_iff in Hs.
  destruct Hs as [Hc Hs]. now rewrite (latin1_lower_ascii c Hc), (IH Hs).
Qed.

(** X12. The image is tagged [name:latest]. Whatever the base name, the
    name is never empty, holds only characters that the interpreter has
    as alphanumeric, hyphens, dots and underscores, and neither begins
    nor ends with a hyphen or a dot. For an ASCII base name it consists
    of digits, lower-case letters, hyphens, dots and underscores. A
    letter outside ASCII is kept: [José] gives [josé:latest]. *)
Theorem image_tag_shape (U : pychars) (basename : option string) :
  chars_ok U ->
  let name := image_name U basename in
  image_tag_of U basename = name ++ ":latest" /\
  name <> "" /\
  Text.all_chars (kept_in_tag U) name = true /\
  head_is is_dash_or_dot name = false /\
  last_is is_dash_or_dot name = false /\
  (Text.all_chars is_ascii (match basename with Some b => b | None => "" end) = true ->
   Text.all_chars is_tag_char name = true).
Proof.
  intros HU name. split; [reflexivity |]. unfold name, image_name.
  set (raw := match basename with
              | Some b => if String.eqb b "" then "cv" else b
              | None => "cv"
              end).
  destruct (String.eqb_spec
              (strip_if is_dash_or_dot (Text.map_chars (tag_char U) (str_lower U raw))) "")
    as [_|Hne].
  - split; [discriminate |]. split.
    + unfold kept_in_tag. cbn [Text.all_chars].
      rewrite (proj1 HU "c"%char eq_refl), (proj1 HU "v"%char eq_refl). reflexivity.
    + repeat split.
  - split; [exact Hne |]. unfold strip_if.
    split; [apply rstrip_if_all, lstrip_if_all, map_tag_kept |].
    split; [apply rstrip_if_head, lstrip_if_head |].
    split; [apply rstrip_if_last |].
    intros Hb.
    assert (Hraw : Text.all_chars is_ascii raw = true).
    { unfold raw. destruct basename as [b|]; [| reflexivity].
      destruct (String.eqb b ""); [reflexivity | exact Hb]. }
    rewrite (proj2 HU raw Hraw).
    apply rstrip_if_all, lstrip_if_all, map_tag_ascii; assumption.
Qed.

Lemma image_tag_shape_witness :
  image_tag_of ascii_chars (Some "My CV.") = "my-cv:latest" /\
  image_tag_of latin1_chars (Some ("Jos" ++ String "233" EmptyString))
    = "jos" ++ String "233" EmptyString ++ ":latest" /\
  Text.all_chars is_tag_char (image_name latin1_chars (Some "My CV.")) = true.
Proof.
  split; [reflexivity |]. split; [reflexivity |].
  apply (image_tag_shape latin1_chars (Some "My CV.") latin1_chars_ok). reflexivity.
Defined.

(** ** The filters of the template *)

(** What the filter finds in a text [_fmt_ym] printed. *)
Lemma fmt_ym_reads (d : date) :
  valid_date d = true ->
  Text.strip (fmt_ym d) = fmt_ym d /\
  String.eqb (fmt_ym d) "" = false /\
  exists y m,
    fullmatch_ym (fmt_ym d) = Some (y, m) /\
    Text.digits_value y = year d /\ Text.digits_value m = month d.
Proof.
  intros Hv. destruct (fmt_ym_shape d Hv) as (a & b & c & e & f & g & Hs & Hd & Hy & Hm).
  cbn [Text.all_chars] in Hd. rewrite !andb_true_iff in Hd.
  destruct Hd as (Ha & Hb & Hc & He & Hf & Hg & _).
  destruct (digit_char a Ha) as (Sa & _). destruct (digit_char g Hg) as (Sg & _).
  rewrite Hs. split; [| split; [reflexivity |]].
  - unfold Text.strip. cbn [Text.lstrip]. rewrite Sa. cbn [Text.rstrip].
    now rewrite Sg.
  - exists (String a (String b (String c (String e EmptyString)))),
           (String f (String g EmptyString)).
    split; [| split; assumption].
    unfold fullmatch_ym. cbn [String.length Nat.eqb substring String.eqb
      Ascii.eqb Bool.eqb andb Text.all_chars].
    now rewrite Ha, Hb, Hc, He, Hf, Hg.
Qed.

(** X13. With a table of twelve month names, the label of a text
    [_fmt_ym] printed is the name of the month of the date, a space, and
    the year without leading zeros; the name is an entry of the table. *)
Theorem fmt_ym_label_of_printed (E : pyenv) (l : list string) (d : date) :
  valid_date d = true -> List.length l = 12%nat ->
  _fmt_ym_label E (Some l) (_fmt_ym (Some d)) =
    nth (Z.to_nat (month d - 1)) l "" ++ " " ++ Text.str_of_Z (year d) /\
  In (nth (Z.to_nat (month d - 1)) l "") l.
Proof.
  intros Hv Hl. destruct (fmt_ym_reads d Hv) as (Hstrip & Hne & y & m & Hfm & Hy & Hm).
  apply valid_date_bounds in Hv. destruct Hv as (_ & Bm & _).
  split.
  - cbn [_fmt_ym option_map]. unfold _fmt_ym_label, month_table.
    rewrite Hstrip, Hne, Hfm, Hl. cbn [Nat.eqb]. rewrite Hy, Hm.
    replace (Z.max (Z.min (month d) 12) 1 - 1) with (month d - 1) by lia.
    reflexivity.
  - apply nth_In. lia.
Qed.

Lemma fmt_ym_label_of_printed_witness :
  _fmt_ym_label sample_env
    (Some ["Jan"; "Feb"; "Mar"; "Apr"; "May"; "Jun";
           "Jul"; "Aug"; "Sep"; "Oct"; "Nov"; "Dec"])
    (_fmt_ym (Some (mkdate 987 10 3))) = "Oct 987".
Proof.
  apply (proj1 (fmt_ym_label_of_printed sample_env
                  ["Jan"; "Feb"; "Mar"; "Apr"; "May"; "Jun";
                   "Jul"; "Aug"; "Sep"; "Oct"; "Nov"; "Dec"]
                  (mkdate 987 10 3) eq_refl eq_refl)).
Defined.

(** X14. A month such as [00] or [13] does not break the label: for a
    text of the shape [YYYY-MM], whatever its two month digits are, the
    filter picks an entry of a twelve-name table (the first for a month
    below one, the last for a month above twelve) and never reads
    outside the table. *)
Theorem fmt_ym_label_clamps (E : pyenv) (l : list string) (v y mm : string) :
  List.length l = 12%nat ->
  fullmatch_ym (Text.strip v) = Some (y, mm) ->
  exists name,
    In name l /\
    _fmt_ym_label E (Some l) (Some v) =
      name ++ " " ++ Text.str_of_Z (Text.digits_value y) /\
    (Text.digits_value mm <= 1 -> name = nth 0 l "") /\
    (12 <= Text.digits_value mm -> name = nth 11 l "").
Proof.
  intros Hl Hfm.
  exists (nth (Z.to_nat (Z.max (Z.min (Text.digits_value mm) 12) 1 - 1)) l "").
  split; [apply nth_In; lia |]. split.
  - unfold _fmt_ym_label, month_table. rewrite Hfm, Hl. cbn [Nat.eqb].
    destruct (String.eqb_spec (Text.strip v) "") as [He|_]; [| reflexivity].
    rewrite He in Hfm. discriminate Hfm.
  - split; intros Hb; f_equal; lia.
Qed.

Lemma fmt_ym_label_clamps_witness :
  exists name,
    _fmt_ym_label sample_env
      (Some ["Jan"; "Feb"; "Mar"; "Apr"; "May"; "Jun";
             "Jul"; "Aug"; "Sep"; "Oct"; "Nov"; "Dec"])
      (Some " 2025-13 ") = name ++ " 2025" /\ name = "Dec".
Proof.
  destruct (fmt_ym_label_clamps sample_env
              ["Jan"; "Feb"; "Mar"; "Apr"; "May"; "Jun";
               "Jul"; "Aug"; "Sep"; "Oct"; "Nov"; "Dec"]
              " 2025-13 " "2025" "13" eq_refl eq_refl)
    as (name & _ & Hlabel & _ & Hlast).
  exists name. split; [exact Hlabel |].
  rewrite Hlast; [reflexivity | vm_compute; discriminate].
Defined.

(** X15. Without a usable month table (no list, or not twelve entries)
    the filter returns the text it was given, stripped of surrounding
    white space, whatever the text is, and the empty text for [None]. *)
Theorem fmt_ym_label_without_table (E : pyenv) (months_list : option (list string))
    (value : option string) :
  month_table months_list = None ->
  _fmt_ym_label E months_list value =
    match value with Some v => Text.strip v | None => "" end.
Proof.
  intros Ht. unfold _fmt_ym_label. rewrite Ht. destruct value as [v|]; [|reflexivity].
  destruct (String.eqb_spec (Text.strip v) "") as [->|_]; [reflexivity |].
  destruct (fullmatch_ym (Text.strip v)) as [[y mm]|]; [reflexivity |].
  destruct (fullmatch_y (Text.strip v)); [reflexivity |].
  destruct (fromisoformat E (Text.strip v)); reflexivity.
Qed.

Lemma fmt_ym_label_without_table_witness :
  _fmt_ym_label sample_env (Some ["Jan"; "Feb"]) (Some " 2025-10 ") = "2025-10".
Proof.
  apply (fmt_ym_label_without_table sample_env (Some ["Jan"; "Feb"])
           (Some " 2025-10 ") eq_refl).
Defined.

Lemma replace_each_app (f : ascii -> string) (a b : string) :
  replace_each f (a ++ b) = replace_each f a ++ replace_each f b.
Proof.
  induction a as [|c a IH]; [reflexivity |]. cbn [append replace_each].
  now rewrite IH, append_assoc.
Qed.

Lemma replace_each_twice (f g : ascii -> string) (s : string) :
  replace_each f (replace_each g s) = replace_each (fun c => replace_each f (g c)) s.
Proof.
  induction s as [|c s IH]; [reflexivity |]. cbn [replace_each].
  now rewrite replace_each_app, IH.
Qed.

Lemma replace_each_ext (f g : ascii -> string) (s : string) :
  (forall c, f c = g c) -> replace_each f s = replace_each g s.
Proof.
  intros H. induction s as [|c s IH]; [reflexivity |]. cbn [replace_each].
  now rewrite H, IH.
Qed.

Lemma tex_escape_chars (s : string) : _tex_escape (Some s) = replace_each tex_char s.
Proof.
  unfold _tex_escape. destruct (String.eqb_spec s "") as [->|_]; [reflexivity |].
  unfold replace_with. rewrite !replace_each_twice.
  apply replace_each_ext. intros c.
  destruct c as [[] [] [] [] [] [] [] []]; vm_compute; reflexivity.
Qed.

(** X16. [_tex_escape] works character by character, so the escape of a
    text is the escapes of its parts put together. A backslash becomes
    [\textbackslash\{\}] (the braces of the macro are escaped by the pass
    that follows), each of [& % $ # _ { }] gets a backslash in front,
    the tilde and the circumflex become their macros, and every other
    character stays. *)
Theorem tex_escape_by_character :
  (forall s, _tex_escape (Some s) = replace_each tex_char s) /\
  (forall a b,
     _tex_escape (Some (a ++ b)) = _tex_escape (Some a) ++ _tex_escape (Some b)) /\
  (forall c rest,
     _tex_escape (Some (String c rest)) = tex_char c ++ _tex_escape (Some rest)) /\
  _tex_escape None = "".
Proof.
  split; [exact tex_escape_chars |]. split; [| split; [| reflexivity]].
  - intros a b. rewrite !tex_escape_chars. apply replace_each_app.
  - intros c rest. now rewrite !tex_escape_chars.
Qed.

Lemma tex_char_safe (c : ascii) (prev : bool) (rest : string) :
  tex_safe_from prev (tex_char c ++ rest) = tex_safe_from false rest.
Proof.
  destruct c as [[] [] [] [] [] [] [] []]; destruct prev; vm_compute; reflexivity.
Qed.

Lemma tex_char_plain (c : ascii) :
  is_plain c = true -> tex_char c = String c EmptyString.
Proof.
  destruct c as [[] [] [] [] [] [] [] []]; vm_compute; intros H;
    try reflexivity; discriminate H.
Qed.

(** X17. What [_tex_escape] returns holds no tilde and no circumflex,
    and an ampersand, percent sign, dollar sign, hash or underscore in it
    always stands behind a backslash. A text without backslash, tilde,
    circumflex and special character is returned as it is. *)
Theorem tex_escape_safe (value : option string) :
  tex_safe_from false (_tex_escape value) = true /\
  (forall s, value = Some s -> Text.all_chars is_plain s = true ->
     _tex_escape value = s).
Proof.
  split.
  - destruct value as [s|]; [| reflexivity]. rewrite tex_escape_chars.
    induction s as [|c s IH]; [reflexivity |]. cbn [replace_each].
    now rewrite tex_char_safe.
  - intros s -> Hp. rewrite tex_escape_chars.
    induction s as [|c s IH]; [reflexivity |]. cbn [replace_each Text.all_chars] in *.
    apply andb_true_iff in Hp. destruct Hp as [Hc Hs].
    now rewrite (tex_char_plain c Hc), (IH Hs).
Qed.

Lemma tex_escape_safe_witness :
  _tex_escape (Some "Senior Engineer (C++), 2020-2024") =
  "Senior Engineer (C++), 2020-2024".
Proof.
  apply (proj2 (tex_escape_safe (Some "Senior Engineer (C++), 2020-2024")) _ eq_refl).
  reflexivity.
Defined.

(** ** [render] after [run_in_docker] *)

(** X18. On a result that [run_in_docker] has returned, the exit status
    that [render] resolves is the one of the rule in its comment: the
    number in the status file when it reads as one, else the return code,
    which is zero on every returned result. Such a result comes after the
    input files have been written, and its outputs are what the
    collection has returned. *)
Theorem exit_code_after_run_in_docker (T : pytext) (H : host)
    (docker_found dockerfile_found : bool) (df_path image_tag tmpdir : string)
    (build_proc run_proc : completed) (files : pydict content)
    (outputs_wanted : list string) (written : list fs_op) (res : run_result) :
  int_of_bytes T "0" = Some 0 -> int_of_bytes T "" = None ->
  run_in_docker H docker_found dockerfile_found df_path image_tag tmpdir
    build_proc run_proc files outputs_wanted = (written, Ok res) ->
  written = materialize tmpdir files /\
  collect_outputs H tmpdir outputs_wanted = Ok (outputs res) /\
  cp_returncode build_proc = 0 /\ cp_returncode run_proc = 0 /\
  returncode res = Some 0 /\
  resolve_exit_code T res = spec_exit_code T res /\
  (forall b n, Dict.get "exit.code" (outputs res) = Some b ->
     int_of_bytes T b = Some n -> resolve_exit_code T res = n) /\
  (forall b, Dict.get "exit.code" (outputs res) = Some b ->
     int_of_bytes T b = None -> resolve_exit_code T res = 0) /\
  (Dict.get "exit.code" (outputs res) = None -> resolve_exit_code T res = 0).
Proof.
  intros H0 He Hrun.
  destruct (run_in_docker_inv _ _ _ _ _ _ _ _ _ _ _ _ Hrun)
    as (_ & _ & Hb & Hw & Hr & c & Hc & Hres).
  assert (Hrc : returncode res = Some 0).
  { rewrite Hres. cbn [returncode]. now rewrite Hr. }
  split; [exact (carry_out_none _ _ _ _ Hw) |].
  split; [rewrite Hres; exact Hc |].
  split; [exact Hb |]. split; [exact Hr |]. split; [exact Hrc |].
  assert (Hfile : forall b, Dict.get "exit.code" (outputs res) = Some b ->
            resolve_exit_code T res =
            match int_of_bytes T b with Some n => n | None => 0 end /\
            spec_exit_code T res =
            match int_of_bytes T b with Some n => n | None => 0 end).
  { intros b Hget. unfold resolve_exit_code, spec_exit_code.
    rewrite Hget, Hrc. cbn [bytes_or].
    destruct (String.eqb_spec b "") as [->|_].
    - rewrite H0, He. split; reflexivity.
    - destruct (int_of_bytes T b); split; reflexivity. }
  assert (Hnone : Dict.get "exit.code" (outputs res) = None ->
            resolve_exit_code T res = 0).
  { intros Hget. apply resolve_exit_code_no_file; [| exact H0].
    now rewrite Hget. }
  split; [| split; [| split; [| exact Hnone]]].
  - destruct (Dict.get "exit.code" (outputs res)) as [b|] eqn:Hget.
    + destruct (Hfile b eq_refl) as [-> ->]. reflexivity.
    + rewrite (Hnone eq_refl). unfold spec_exit_code. now rewrite Hget, Hrc.
  - intros b n Hget Hn. destruct (Hfile b Hget) as [-> _]. now rewrite Hn.
  - intros b Hget Hn. destruct (Hfile b Hget) as [-> _]. now rewrite Hn.
Qed.

Lemma exit_code_after_run_in_docker_witness :
  exists written res,
    run_in_docker sample_host true true "/srv/cv/Dockerfile" "cv:latest"
      sample_tmpdir (mk_completed 0 "" "") (mk_completed 0 "" "")
      [("main.tex", CText "\documentclass{article}")] ["main.pdf"; "exit.code"]
      = (written, Ok res) /\
    resolve_exit_code ascii_text res = spec_exit_code ascii_text res /\
    resolve_exit_code ascii_text res = 0.
Proof.
  eexists. eexists. split; [reflexivity |].
  destruct (exit_code_after_run_in_docker ascii_text sample_host true true
              "/srv/cv/Dockerfile" "cv:latest" sample_tmpdir
              (mk_completed 0 "" "") (mk_completed 0 "" "")
              [("main.tex", CText "\documentclass{article}")]
              ["main.pdf"; "exit.code"] _ _ eq_refl eq_refl eq_refl)
    as (_ & _ & _ & _ & _ & Heq & _ & _ & Hnone).
  split; [exact Heq | apply Hnone; reflexivity].
Defined.

(** ** Patterns below [/workspace] *)

(** X19. The pattern [/workspace/p] is read as [p]. For a [p] that does
    not begin with a slash it collects what the pattern [p] collects, the
    matches of [tmpdir/p]. For a [p] that begins with a slash,
    [os.path.join] drops the temporary directory and the matches are
    those of [p] itself on the host. *)
Theorem workspace_pattern (H : host) (tmpdir p : string) (collected : pydict bytes) :
  (String.prefix "/" p = false ->
   collect_pattern H tmpdir collected ("/workspace/" ++ p)
   = collect_pattern H tmpdir collected p) /\
  (String.prefix "/" p = false -> tmpdir <> "" ->
   Path.ends_with_slash tmpdir = false ->
   collect_pattern H tmpdir collected ("/workspace/" ++ p)
   = fold_result (collect_match H tmpdir) (glob H (tmpdir ++ "/" ++ p)) collected) /\
  (String.prefix "/" p = true ->
   collect_pattern H tmpdir collected ("/workspace/" ++ p)
   = fold_result (collect_match H tmpdir) (glob H p) collected).
Proof.
  unfold collect_pattern at 1 3 4. rewrite rel_pattern_mounted.
  split; [| split].
  - intros Hp. unfold collect_pattern. now rewrite (rel_pattern_relative p Hp).
  - intros Hp Hne Hs. now rewrite join_relative.
  - intros Hp. unfold Path.join. now rewrite Hp.
Qed.

Lemma workspace_pattern_witness :
  collect_pattern sample_host sample_tmpdir [] "/workspace/aux"
  = collect_pattern sample_host sample_tmpdir [] "aux" /\
  collect_pattern sample_host sample_tmpdir [] "/workspace/aux"
  = Ok [("aux/a.txt", "A"); ("aux/deep/b.txt", "B")] /\
  collect_pattern sample_host sample_tmpdir [] "/workspace//tmp/cv-work-k3/main.pdf"
  = Ok [("main.pdf", "%PDF-1.5")].
Proof.
  destruct (workspace_pattern sample_host sample_tmpdir "aux" []) as (Hrel & _ & _).
  destruct (workspace_pattern sample_host sample_tmpdir "/tmp/cv-work-k3/main.pdf" [])
    as (_ & _ & Habs).
  split; [apply Hrel; reflexivity |].
  split; [reflexivity |].
  exact (Habs eq_refl).
Defined.

(** ** The log file of [render] *)

Lemma diag_text_lines (code : Z) (keys_text : string) (cmd : list string)
    (res : run_result) :
  let docker_out := if String.eqb (stdout res) "" then build_stdout res else stdout res in
  let docker_err := if String.eqb (stderr res) "" then build_stderr res else stderr res in
  diag_text code keys_text cmd res =
    "No logs were captured from Docker (build.log and main.log are empty or missing)."
    ++ LF ++ "Exit code recorded: " ++ Text.str_of_Z code ++ "."
    ++ LF ++ "Available output keys: " ++ keys_text
    ++ LF ++ "Command: " ++ Text.join " " cmd ++ "."
    ++ LF ++ "Hints: container working directory might be non-writable; pdflatex may be missing; or outputs weren't found."
    ++ (if String.eqb docker_out "" then ""
        else LF ++ LF ++ "--- docker stdout ---" ++ LF ++ docker_out)
    ++ (if String.eqb docker_err "" then ""
        else LF ++ LF ++ "--- docker stderr ---" ++ LF ++ docker_err)
    ++ LF.
Proof.
  cbv zeta. unfold diag_text.
  destruct (String.eqb
              (if String.eqb (stdout res) "" then build_stdout res else stdout res) "");
    destruct (String.eqb
                (if String.eqb (stderr res) "" then build_stderr res else stderr res) "");
    cbn [Text.join app]; rewrite ?append_assoc; reflexivity.
Qed.

(** X20. The log file is never written empty. It holds [build.log] when
    that came back and is not empty, else [main.log] when that came back
    and is not empty; with neither, a diagnostic text: five lines that
    give the resolved exit status, the keys of the result, the command
    and the hints, and then, each under its heading and only when it is
    not empty, what docker printed to its standard output and to its
    standard error, those of the build standing in for empty ones of the
    run. *)
Theorem log_file_content (T : pytext) (keys_text : string) (cmd : list string)
    (res : run_result) :
  let build_log := Dict.get "build.log" (outputs res) in
  let main_log := Dict.get "main.log" (outputs res) in
  let docker_out := if String.eqb (stdout res) "" then build_stdout res else stdout res in
  let docker_err := if String.eqb (stderr res) "" then build_stderr res else stderr res in
  let log := log_written T keys_text cmd res in
  log <> "" /\
  (forall b, build_log = Some b -> b <> "" -> log = b) /\
  (bytes_truthy build_log = false ->
   forall b, main_log = Some b -> b <> "" -> log = b) /\
  (bytes_truthy build_log = false -> bytes_truthy main_log = false ->
   log =
     "No logs were captured from Docker (build.log and main.log are empty or missing)."
     ++ LF ++ "Exit code recorded: " ++ Text.str_of_Z (resolve_exit_code T res) ++ "."
     ++ LF ++ "Available output keys: " ++ keys_text
     ++ LF ++ "Command: " ++ Text.join " " cmd ++ "."
     ++ LF ++ "Hints: container working directory might be non-writable; pdflatex may be missing; or outputs weren't found."
     ++ (if String.eqb docker_out "" then ""
         else LF ++ LF ++ "--- docker stdout ---" ++ LF ++ docker_out)
     ++ (if String.eqb docker_err "" then ""
         else LF ++ LF ++ "--- docker stderr ---" ++ LF ++ docker_err)
     ++ LF).
Proof.
  intros build_log main_log docker_out docker_err log.
  split; [| split; [| split]].
  - subst log. unfold log_written.
    destruct (0 <? String.length (chosen_log res))%nat eqn:Hl.
    + intros Hc. rewrite Hc in Hl. discriminate Hl.
    + rewrite diag_text_lines. discriminate.
  - intros b Hb Hne. subst log build_log. unfold log_written, chosen_log.
    rewrite Hb, (bytes_or_truthy b Hne), (nonempty_length b Hne).
    now rewrite (nonempty_length b Hne).
  - intros Hb b Hm Hne. subst log build_log main_log.
    unfold log_written, chosen_log.
    rewrite (bytes_or_falsy _ Hb), Hm, (bytes_or_truthy b Hne).
    change (0 <? String.length "")%nat with false. cbv iota.
    now rewrite (nonempty_length b Hne).
  - intros Hb Hm. subst log build_log main_log. unfold log_written, chosen_log.
    rewrite (bytes_or_falsy _ Hb), (bytes_or_falsy _ Hm).
    change (0 <? String.length "")%nat with false. cbv iota.
    apply diag_text_lines.
Qed.

Lemma log_file_content_witness :
  log_written ascii_text "['outputs']" ["sh"; "-lc"; "true"] sample_success
    = "== env ==" ++ LF /\
  log_written ascii_text "['outputs']" ["sh"; "-lc"; "true"] sample_no_logs
    = "No logs were captured from Docker (build.log and main.log are empty or missing)."
       ++ LF ++ "Exit code recorded: 1."
       ++ LF ++ "Available output keys: ['outputs']"
       ++ LF ++ "Command: sh -lc true."
       ++ LF ++ "Hints: container working directory might be non-writable; pdflatex may be missing; or outputs weren't found."
       ++ LF ++ LF ++ "--- docker stdout ---" ++ LF ++ "Successfully built"
       ++ LF ++ LF ++ "--- docker stderr ---" ++ LF ++ "sh: 1: pdflatex: not found"
       ++ LF.
Proof.
  split.
  - destruct (log_file_content ascii_text "['outputs']" ["sh"; "-lc"; "true"]
                sample_success) as (_ & Hb & _).
    apply (Hb ("== env ==" ++ LF)); [reflexivity | discriminate].
  - destruct (log_file_content ascii_text "['outputs']" ["sh"; "-lc"; "true"]
                sample_no_logs) as (_ & _ & _ & Hd).
    exact (Hd eq_refl eq_refl).
Defined.

(** ** The files [render] hands to the container *)

Lemma get_In {V : Type} (k : string) (v : V) (d : pydict V) :
  Dict.get k d = Some v -> In (k, v) d.
Proof.
  induction d as [|[k0 v0] d IH]; cbn [Dict.get]; [discriminate |].
  destruct (String.eqb_spec k k0) as [->|_].
  - intros Hv. injection Hv as ->. now left.
  - intros Hv. right. now apply IH.
Qed.

Lemma materialize_In (tmpdir key : string) (c : content) (files : pydict content) :
  In (key, c) files ->
  In (write_op (Path.join tmpdir (normalize_key key)) c) (materialize tmpdir files).
Proof.
  intros Hin. unfold materialize. apply in_flat_map. exists (key, c).
  split; [exact Hin |]. right. now left.
Qed.

Section TemplateFiles.
Variables (H : host) (template_dir rendered_tex : string).

(** The rendered text is under [main.tex]. *)
Let main_kept (files : pydict content) : Prop :=
  Dict.get "main.tex" files = Some (CText rendered_tex).

(** Every other entry is the content of a file that is not a template. *)
Let from_template (files : pydict content) : Prop :=
  forall k c, Dict.get k files = Some c -> k <> "main.tex" ->
    ends_with ".j2" k = false /\
    exists full b, k = relpath H full template_dir /\
                   read_bytes H full = Some b /\ c = CBytes b.

(** It is the first entry. *)
Let main_first (files : pydict content) : Prop :=
  exists rest, files = ("main.tex", CText rendered_tex) :: rest.

(** The file [full] has left its entry, unless it is skipped. *)
Let passed (full : string) (files : pydict content) : Prop :=
  ends_with ".j2" (relpath H full template_dir) = false ->
  relpath H full template_dir <> "main.tex" ->
  exists b, Dict.get (relpath H full template_dir) files = Some (CBytes b).

Lemma template_file_step_inv (files files' : pydict content) (full : string) :
  template_file_step H template_dir files full = Ok files' ->
  (files' = files /\
   (ends_with ".j2" (relpath H full template_dir) = true \/
    relpath H full template_dir = "main.tex")) \/
  (exists b, read_bytes H full = Some b /\
     ends_with ".j2" (relpath H full template_dir) = false /\
     relpath H full template_dir <> "main.tex" /\
     files' = Dict.set (relpath H full template_dir) (CBytes b) files).
Proof.
  unfold template_file_step.
  destruct (ends_with ".j2" (relpath H full template_dir)) eqn:Hj; cbn [orb].
  - intros Heq. injection Heq as <-. left. split; [reflexivity | now left].
  - destruct (String.eqb_spec (relpath H full template_dir) "main.tex") as [He|Hne].
    + intros Heq. injection Heq as <-. left. split; [reflexivity | now right].
    + destruct (read_bytes H full) as [b|]; [| discriminate].
      intros Heq. injection Heq as <-. right. exists b.
      split; [reflexivity |]. split; [reflexivity |]. split; [exact Hne | reflexivity].
Qed.

Lemma template_file_step_main (files files' : pydict content) (full : string) :
  main_kept files -> template_file_step H template_dir files full = Ok files' ->
  main_kept files'.
Proof.
  intros Hm Hs. destruct (template_file_step_inv files files' full Hs)
    as [[-> _]|(b & _ & _ & Hne & ->)]; [exact Hm |].
  unfold main_kept. rewrite get_set.
  destruct (String.eqb_spec "main.tex" (relpath H full template_dir)) as [He|_];
    [now elim Hne | exact Hm].
Qed.

Lemma template_file_step_first (files files' : pydict content) (full : string) :
  main_first files -> template_file_step H template_dir files full = Ok files' ->
  main_first files'.
Proof.
  intros [rest ->] Hs. destruct (template_file_step_inv _ files' full Hs)
    as [[-> _]|(b & _ & _ & Hne & ->)]; [now exists rest |].
  cbn [Dict.set].
  destruct (String.eqb_spec (relpath H full template_dir) "main.tex") as [He|_];
    [now elim Hne | eexists; reflexivity].
Qed.

Lemma template_file_step_from (files files' : pydict content) (full : string) :
  from_template files -> template_file_step H template_dir files full = Ok files' ->
  from_template files'.
Proof.
  intros Hf Hs. destruct (template_file_step_inv files files' full Hs)
    as [[-> _]|(b & Hb & Hj & _ & ->)]; [exact Hf |].
  intros k c. rewrite get_set.
  destruct (String.eqb_spec k (relpath H full template_dir)) as [->|_].
  - intros Hc _. injection Hc as <-. split; [exact Hj |]. now exists full, b.
  - apply Hf.
Qed.

Lemma template_file_step_passed (files files' : pydict content) (full : string) :
  template_file_step H template_dir files full = Ok files' -> passed full files'.
Proof.
  intros Hs Hj Hne. destruct (template_file_step_inv files files' full Hs)
    as [[_ [Hj'|He]]|(b & _ & _ & _ & ->)].
  - rewrite Hj in Hj'. discriminate Hj'.
  - now elim Hne.
  - exists b. now rewrite get_set, String.eqb_refl.
Qed.

Lemma template_file_step_keeps (y : string) (files files' : pydict content)
    (full : string) :
  passed y files -> template_file_step H template_dir files full = Ok files' ->
  passed y files'.
Proof.
  intros Hy Hs Hj Hne. destruct (template_file_step_inv files files' full Hs)
    as [[-> _]|(b & _ & _ & _ & ->)]; [now apply Hy |].
  rewrite get_set. destruct (String.eqb _ _); [now exists b | now apply Hy].
Qed.

(** X21. The files for the container. [main.tex] holds the rendered
    text, whatever the template directory has under that name, and is
    the first entry. Every other entry has a key that does not end in
    [.j2] and holds the bytes of a file under its path relative to the
    template directory. Every file the walk leads to has its entry,
    unless its relative path ends in [.j2] or is [main.tex]. The loop of
    [run_in_docker] over these files begins with the rendered text, which
    goes to [main.tex] in the workspace. The loop over the template
    directory returns when the files it reads, those of the walk that
    are not skipped, can be read. *)
Theorem container_files_contract :
  (forall files,
     container_files H template_dir rendered_tex = Ok files ->
     Dict.get "main.tex" files = Some (CText rendered_tex) /\
     (forall k c, Dict.get k files = Some c -> k <> "main.tex" ->
        ends_with ".j2" k = false /\
        exists full b, k = relpath H full template_dir /\
                       read_bytes H full = Some b /\ c = CBytes b) /\
     (forall dirpath dirnames filenames fname,
        In (dirpath, dirnames, filenames) (walk H template_dir) ->
        In fname filenames ->
        let rel := relpath H (Path.join dirpath fname) template_dir in
        ends_with ".j2" rel = false -> rel <> "main.tex" ->
        exists b, Dict.get rel files = Some (CBytes b)) /\
     (forall tmpdir, tmpdir <> "" -> Path.ends_with_slash tmpdir = false ->
        In (WriteText (tmpdir ++ "/main.tex") rendered_tex)
           (materialize tmpdir files)) /\
     (forall tmpdir, tmpdir <> "" -> Path.ends_with_slash tmpdir = false ->
        exists rest,
          materialize tmpdir files =
            MakeDirs (Path.dirname (tmpdir ++ "/main.tex"))
            :: WriteText (tmpdir ++ "/main.tex") rendered_tex :: rest)) /\
  ((forall dirpath dirnames filenames fname,
      In (dirpath, dirnames, filenames) (walk H template_dir) ->
      In fname filenames ->
      let rel := relpath H (Path.join dirpath fname) template_dir in
      ends_with ".j2" rel = false -> rel <> "main.tex" ->
      read_bytes H (Path.join dirpath fname) <> None) ->
   exists files, container_files H template_dir rendered_tex = Ok files).
Proof.
  split.
  - intros files Hc. unfold container_files in Hc.
    assert (Hmain : main_kept files).
    { apply (fold_result_invariant main_kept (template_file_step H template_dir)
               (walk_files H template_dir)) with (a := [("main.tex", CText rendered_tex)]);
        [| reflexivity | exact Hc].
      intros a x a'. apply template_file_step_main. }
    assert (Hfirst : main_first files).
    { apply (fold_result_invariant main_first (template_file_step H template_dir)
               (walk_files H template_dir)) with (a := [("main.tex", CText rendered_tex)]);
        [| now exists [] | exact Hc].
      intros a x a'. apply template_file_step_first. }
    split; [exact Hmain |]. split; [| split; [| split]].
    + apply (fold_result_invariant from_template (template_file_step H template_dir)
               (walk_files H template_dir)) with (a := [("main.tex", CText rendered_tex)]);
        [| | exact Hc].
      * intros a x a'. apply template_file_step_from.
      * intros k c. cbn [Dict.get].
        destruct (String.eqb_spec k "main.tex") as [->|_]; [| discriminate].
        intros _ Hne. now elim Hne.
    + intros dirpath dirnames filenames fname Hw Hn.
      assert (Hin : In (Path.join dirpath fname) (walk_files H template_dir)).
      { apply walk_files_In. now exists dirpath, dirnames, filenames, fname. }
      apply (fold_result_each passed (template_file_step H template_dir)
               (walk_files H template_dir)) with (a := [("main.tex", CText rendered_tex)]);
        [| | exact Hc | exact Hin].
      * intros a x a'. apply template_file_step_passed.
      * intros y a x a'. apply template_file_step_keeps.
    + intros tmpdir Hne Hs.
      pose proof (materialize_In tmpdir "main.tex" (CText rendered_tex) files
                    (get_In _ _ _ Hmain)) as Hin.
      change (normalize_key "main.tex") with "main.tex" in Hin.
      rewrite join_relative in Hin; [exact Hin | reflexivity | exact Hne | exact Hs].
    + intros tmpdir Hne Hs. destruct Hfirst as [rest ->].
      exists (materialize tmpdir rest). unfold materialize.
      cbn [flat_map materialize_one fst snd write_op app].
      change (normalize_key "main.tex") with "main.tex".
      rewrite join_relative; [reflexivity | reflexivity | exact Hne | exact Hs].
  - intros Hread. unfold container_files. apply fold_result_returns_in.
    intros a full Hin. unfold template_file_step.
    destruct (ends_with ".j2" (relpath H full template_dir)) eqn:Hj;
      [eexists; reflexivity |].
    destruct (String.eqb_spec (relpath H full template_dir) "main.tex") as [He|Hne];
      [eexists; reflexivity |]. cbn [orb].
    destruct (read_bytes H full) as [b|] eqn:Hr; [eexists; reflexivity |].
    apply walk_files_In in Hin.
    destruct Hin as (dirpath & dirnames & filenames & fname & Hw & Hn & ->).
    now elim (Hread dirpath dirnames filenames fname Hw Hn Hj Hne).
Qed.

End TemplateFiles.

Lemma container_files_contract_witness :
  (exists files,
     container_files sample_template_host sample_template_dir "\documentclass{cv}"
       = Ok files) /\
  container_files sample_template_host sample_template_dir "\documentclass{cv}"
    = Ok [("main.tex", CText "\documentclass{cv}"); ("cv.cls", CBytes "% class");
          ("fonts/lato.sty", CBytes "% lato")] /\
  In (WriteText "/tmp/cv-work-k3/main.tex" "\documentclass{cv}")
     (materialize sample_tmpdir
        [("main.tex", CText "\documentclass{cv}"); ("cv.cls", CBytes "% class");
         ("fonts/lato.sty", CBytes "% lato")]).
Proof.
  destruct (container_files_contract sample_template_host sample_template_dir
              "\documentclass{cv}") as (Hall & Hret).
  split.
  - apply Hret. intros dirpath dirnames filenames fname Hw Hn rel _ _. cbn in Hw.
    destruct Hw as [Hw|[Hw|[]]]; injection Hw as <- <- <-.
    + destruct Hn as [<-|[<-|[<-|[]]]]; discriminate.
    + destruct Hn as [<-|[]]; discriminate.
  - split; [reflexivity |].
    destruct (Hall _ eq_refl) as (_ & _ & _ & Hw & _).
    apply (Hw sample_tmpdir); [discriminate | reflexivity].
Defined.

(** ** The years of experience *)

Lemma fold_left_flat_map {A B C : Type} (f : A -> C -> A) (g : B -> list C)
    (l : list B) : forall a,
  fold_left (fun acc e => fold_left f (g e) acc) l a = fold_left f (flat_map g l) a.
Proof.
  induction l as [|x l IH]; intros a; cbn [fold_left flat_map]; [reflexivity |].
  rewrite fold_left_app. apply IH.
Qed.

Lemma metrics_step_fields (E : pyenv) (acc : scan_state) (p : project_entry) :
  metrics_step E acc p =
  (first_step (_parse_date E (pe_start p)) (fst (fst acc)),
   last_step (date_or (_parse_date E (pe_end p)) (today E)) (snd (fst acc)),
   snd acc + 1).
Proof. destruct acc as [[e l] n]. reflexivity. Qed.

Lemma metrics_fold_span (E : pyenv) (ps : list project_entry) : forall l0 acc,
  is_least (fst (fst acc)) (somes (map (fun p => _parse_date E (pe_start p)) l0)) ->
  is_greatest (snd (fst acc))
    (map (fun p => date_or (_parse_date E (pe_end p)) (today E)) l0) ->
  is_least (fst (fst (fold_left (metrics_step E) ps acc)))
    (somes (map (fun p => _parse_date E (pe_start p)) (l0 ++ ps)%list)) /\
  is_greatest (snd (fst (fold_left (metrics_step E) ps acc)))
    (map (fun p => date_or (_parse_date E (pe_end p)) (today E)) (l0 ++ ps)%list).
Proof.
  induction ps as [|p ps IH]; intros l0 acc Hf Hl; cbn [fold_left].
  - rewrite app_nil_r. split; assumption.
  - replace (l0 ++ p :: ps)%list with ((l0 ++ [p]) ++ ps)%list
      by (rewrite <- app_assoc; reflexivity).
    apply IH; rewrite metrics_step_fields; cbn [fst snd]; rewrite map_app.
    + rewrite somes_app. cbn [map somes].
      destruct (_parse_date E (pe_start p)) as [d|]; cbn [somes].
      * now apply is_least_step.
      * cbn [first_step]. now rewrite app_nil_r.
    + cbn [map]. now apply is_greatest_step.
Qed.

(** X23. [metrics.experience_years] spans the projects of the experience
    list: from the least of their concrete starts to the greatest of
    their ends, today standing in for a missing end, the months between
    the two are divided by twelve and rounded to the nearest integer. It
    is never negative, and it is zero when no project has a concrete
    start. *)
Theorem experience_years_span (E : pyenv) (self : renderer) (out : intermediate) :
  expand_intermediate E self = Ok out ->
  exists first last,
    is_least first (listed_starts E (im_experience out)) /\
    is_greatest last (listed_ends E (im_experience out)) /\
    0 <= m_experience_years (im_metrics out) /\
    - 6 <= 12 * m_experience_years (im_metrics out)
           - or_zero (_months_between first last) <= 6 /\
    (listed_starts E (im_experience out) = [] ->
     m_experience_years (im_metrics out) = 0).
Proof.
  intros Hout.
  destruct (expand_inv E self out Hout) as (_ & _ & _ & _ & Hm & _).
  rewrite Hm. unfold metrics_of, metrics_scan. rewrite fold_left_flat_map.
  destruct (metrics_fold_span E (flat_map ex_projects (im_experience out)) []
              (None, None, 0) eq_refl eq_refl) as [Hf Hl].
  cbn [app] in Hf, Hl.
  destruct (fold_left (metrics_step E) (flat_map ex_projects (im_experience out))
              (None, None, 0)) as [[first last] n].
  cbn [fst snd] in Hf, Hl. cbn [m_experience_years].
  exists first, last.
  split; [exact Hf |]. split; [exact Hl |].
  assert (Hpos : 0 <= or_zero (_months_between first last)).
  { destruct (_months_between first last) as [k|] eqn:Hk; cbn [or_zero]; [| lia].
    now apply months_between_nonneg in Hk. }
  pose proof (round_half_even_near (or_zero (_months_between first last)) 12
                ltac:(lia)) as Hnear.
  split; [lia |]. split; [lia |].
  intros Hnone. unfold listed_starts, listed_projects in Hnone.
  destruct first as [d|].
  - destruct Hf as [Hin _]. rewrite Hnone in Hin. destruct Hin.
  - cbn [_months_between or_zero]. reflexivity.
Qed.

Lemma experience_years_span_witness :
  exists out first last,
    expand_intermediate sample_env six_and_four = Ok out /\
    is_least first (listed_starts sample_env (im_experience out)) /\
    is_greatest last (listed_ends sample_env (im_experience out)) /\
    _months_between first last = Some 18 /\
    m_experience_years (im_metrics out) = 2.
Proof.
  destruct (experience_years_span sample_env six_and_four _ eq_refl)
    as (first & last & Hf & Hl & _).
  eexists. exists first, last.
  split; [reflexivity |]. split; [exact Hf |]. split; [exact Hl |].
  split; [| reflexivity].
  destruct first as [f|]; [| discriminate Hf].
  destruct last as [l|]; [| discriminate Hl].
  destruct Hf as [Hfin Hfle], Hl as [Hlin Hlge].
  cbn in Hfin, Hlin.
  destruct Hfin as [<-|[<-|[]]]; destruct Hlin as [<-|[<-|[]]];
    try reflexivity.
  - specialize (Hlge (mkdate 2021 7 1) (or_intror (or_introl eq_refl))).
    discriminate Hlge.
  - specialize (Hfle (mkdate 2020 1 1) (or_introl eq_refl)). discriminate Hfle.
  - specialize (Hfle (mkdate 2020 1 1) (or_introl eq_refl)). discriminate Hfle.
Defined.
